(** * spark-ai-provider: prompt conversion, tool preparation and the chat
      and completion language models

    A shallow embedding of the TypeScript sources

      - [src/convert-to-spark-message.ts]
      - [src/convert-to-spark-completion-prompt.ts]
      - [src/spark-prepare-tools.ts]
      - [src/map-spark-finish-reason.ts], [src/get-response-metadata.ts]
      - the chat model ([SparkChatLanguageModel], [src/index.ts])
      - the completion model ([SparkCompletionLanguageModel])
      - the request construction ([getArgs]) of the two models
      - the provider ([createSparkProvider])

    JavaScript numbers are IEEE binary64 values, strings are [string],
    object literals are ordered key/value lists with the override semantics
    of the spread operator, and [throw] is an explicit [Throw] result. *)

From Stdlib Require Import String List Bool Arith Lia.
From Stdlib Require Import Floats.PrimFloat.
From stdpp Require Import base option list strings.

Set Warnings "-register-all".

Local Open Scope string_scope.
Local Open Scope list_scope.

(** ** JavaScript values *)

Module JS.

(** [Number.NaN]. *)
Definition NaN : float := PrimFloat.nan.

Inductive Val : Type :=
| VUndefined
| VNull
| VBool (b : bool)
| VNum (n : float)
| VStr (s : string)
| VArr (items : list Val)
| VObj (fields : list (string * Val)).

(** An object: its own enumerable properties, in insertion order. *)
Definition Obj : Type := list (string * Val).

(** [o[k]] / [k in o]: the first (and only) entry under the key. *)
Fixpoint get {A} (k : string) (o : list (string * A)) : option A :=
  match o with
  | [] => None
  | (k', v) :: o' => if String.eqb k k' then Some v else get k o'
  end.

(** [o[k] = v]: an existing key keeps its position, a new one is added
    last. *)
Fixpoint set (k : string) (v : Val) (o : Obj) : Obj :=
  match o with
  | [] => [(k, v)]
  | (k', v') :: o' =>
      if String.eqb k k' then (k', v) :: o' else (k', v') :: set k v o'
  end.

(** [{ ...o, ...extra }]. *)
Definition spread (o extra : Obj) : Obj :=
  fold_left (fun acc kv => set (fst kv) (snd kv) acc) extra o.

(** ToBoolean. *)
Definition truthy (v : Val) : bool :=
  match v with
  | VUndefined | VNull => false
  | VBool b => b
  | VNum n => negb (PrimFloat.is_zero n || PrimFloat.is_nan n)
  | VStr s => negb (String.eqb s "")
  | VArr _ | VObj _ => true
  end.

(** [a ?? b] on an optional field. *)
Definition nullish {A} (a : option A) (b : A) : A := default b a.

(** [xs[i] = x] on an array: in range it replaces, at the end it
    extends.  (Holes, for [i] past the end, do not occur in this code.) *)
Definition array_set {A} (i : nat) (x : A) (xs : list A) : list A :=
  if decide (i < length xs) then <[i := x]> xs else xs ++ [x].

End JS.

(** ** Exceptions and completions *)

Inductive Exception : Type :=
| InvalidPromptError (message : string)
| UnsupportedFunctionalityError (functionality : string)
| InvalidResponseDataError (message : string)
| Error (message : string)
| TypeError.

Inductive Completion (A : Type) : Type :=
| Normal (a : A)
| Throw (e : Exception).
Arguments Normal {A} a.
Arguments Throw {A} e.

Definition bindC {A B} (c : Completion A) (f : A -> Completion B)
  : Completion B :=
  match c with
  | Normal a => f a
  | Throw e => Throw e
  end.

#[export] Instance Completion_ret : MRet Completion := @Normal.
#[export] Instance Completion_bind : MBind Completion :=
  fun A B f c => bindC c f.

(** [xs.map(f)] where [f] may throw: the first throw wins. *)
Fixpoint mapC {A B} (f : A -> Completion B) (xs : list A)
  : Completion (list B) :=
  match xs with
  | [] => Normal []
  | x :: xs' =>
      y ← f x; ys ← mapC f xs'; Normal (y :: ys)
  end.

(** [for (const x of xs) acc = body(acc, x)] where the body may throw. *)
Fixpoint foldC {A S} (body : S -> A -> Completion S) (acc : S) (xs : list A)
  : Completion S :=
  match xs with
  | [] => Normal acc
  | x :: xs' => acc' ← body acc x; foldC body acc' xs'
  end.

(** ** The prompt ([LanguageModelV1Prompt], @ai-sdk/provider 1.0.3) *)

(** [Record<string, Record<string, JSONValue>>]. *)
Definition ProviderMetadata : Type := list (string * JS.Obj).

Inductive ImageData : Type :=
| ImageURL (href : string)
| ImageBytes (bytes : list Byte.byte).

Inductive UserPart : Type :=
| UText (text : string) (providerMetadata : option ProviderMetadata)
| UImage (image : ImageData) (mimeType : option string)
    (providerMetadata : option ProviderMetadata)
| UFile (data : string) (mimeType : string)
    (providerMetadata : option ProviderMetadata).

Inductive AssistantPart : Type :=
| AText (text : string) (providerMetadata : option ProviderMetadata)
| AToolCall (toolCallId toolName : string) (args : JS.Val)
    (providerMetadata : option ProviderMetadata).

Record ToolResultPart : Type := {
  tr_toolCallId : string;
  tr_toolName : string;
  tr_result : JS.Val;
  tr_providerMetadata : option ProviderMetadata;
}.

Inductive Message : Type :=
| System (content : string) (providerMetadata : option ProviderMetadata)
| User (content : list UserPart) (providerMetadata : option ProviderMetadata)
| Assistant (content : list AssistantPart)
    (providerMetadata : option ProviderMetadata)
| Tool (content : list ToolResultPart)
    (providerMetadata : option ProviderMetadata).

Definition Prompt : Type := list Message.


Definition is_tool_call (p : AssistantPart) : bool :=
  match p with AToolCall _ _ _ _ => true | _ => false end.

(** [message?.providerMetadata?.spark ?? {}] *)
Definition getSparkMetadata (providerMetadata : option ProviderMetadata)
  : JS.Obj :=
  JS.nullish (providerMetadata ≫= JS.get "spark") [].

(** The line feed of the template literals. *)
Definition LF : string := String (Ascii.ascii_of_nat 10) EmptyString.

(** ** [convertToSparkChatMessages] (src/convert-to-spark-message.ts) *)

Section ChatMessages.

(** [JSON.stringify] and [convertUint8ArrayToBase64] (@ai-sdk/provider-utils)
    are taken as given. *)
Variable JSON_stringify : JS.Val -> string.
Variable convertUint8ArrayToBase64 : list Byte.byte -> string.

(** The callback of [content.map] in the [user] case. *)
Definition convertUserPart (part : UserPart) : Completion JS.Val :=
  match part with
  | UText text pm =>
      Normal (JS.VObj (JS.spread
        [("type", JS.VStr "text"); ("text", JS.VStr text)]
        (getSparkMetadata pm)))
  | UImage image mimeType pm =>
      let url :=
        match image with
        | ImageURL href => href
        | ImageBytes bytes =>
            "data:" +:+ JS.nullish mimeType "image/jpeg" +:+ ";base64,"
              +:+ convertUint8ArrayToBase64 bytes
        end in
      Normal (JS.VObj (JS.spread
        [("type", JS.VStr "image_url");
         ("image_url", JS.VObj [("url", JS.VStr url)])]
        (getSparkMetadata pm)))
  | UFile _ _ _ =>
      Throw (UnsupportedFunctionalityError
               "File content parts in user messages")
  end.

(** The initial value of [toolCalls] in the [assistant] case. *)
Definition emptyToolCalls : JS.Obj :=
  [("type", JS.VStr "function");
   ("function", JS.VObj [("arguments", JS.VStr ""); ("name", JS.VStr "")])].

(** The object a [tool-call] part is converted to. *)
Definition convertToolCallPart (toolName : string) (args : JS.Val)
    (pm : option ProviderMetadata) : JS.Obj :=
  JS.spread
    [("type", JS.VStr "function");
     ("function", JS.VObj [("name", JS.VStr toolName);
                           ("arguments", JS.VStr (JSON_stringify args))])]
    (getSparkMetadata pm).

(** One iteration of [for (const part of content)] on the pair of the
    local variables [text] and [toolCalls]. *)
Definition assistantStep (acc : string * JS.Obj) (part : AssistantPart)
  : string * JS.Obj :=
  match part with
  | AText text _ => (fst acc +:+ text, snd acc)
  | AToolCall _ toolName args pm =>
      (fst acc, convertToolCallPart toolName args pm)
  end.

(** The messages one iteration of the outer loop pushes. *)
Definition convertMessage (m : Message) : Completion (list JS.Obj) :=
  match m with
  | System content pm =>
      Normal [JS.spread
                [("role", JS.VStr "system"); ("content", JS.VStr content)]
                (getSparkMetadata pm)]
  | User content pm =>
      match content with
      | [UText text partPm] =>
          Normal [JS.spread
                    [("role", JS.VStr "user"); ("content", JS.VStr text)]
                    (getSparkMetadata partPm)]
      | _ =>
          parts ← mapC convertUserPart content;
          Normal [JS.spread
                    [("role", JS.VStr "user"); ("content", JS.VArr parts)]
                    (getSparkMetadata pm)]
      end
  | Assistant content pm =>
      let '(text, toolCalls) :=
        fold_left assistantStep content ("", emptyToolCalls) in
      Normal [JS.spread
                [("role", JS.VStr "assistant");
                 ("content", JS.VStr text);
                 ("tool_calls",
                   if JS.truthy (JS.VObj toolCalls)
                   then JS.VObj toolCalls else JS.VUndefined)]
                (getSparkMetadata pm)]
  | Tool content _ =>
      Normal (map (fun toolResponse =>
                JS.spread
                  [("role", JS.VStr "tool");
                   ("tool_call_id", JS.VStr (tr_toolCallId toolResponse));
                   ("content",
                     JS.VStr (JSON_stringify (tr_result toolResponse)))]
                  (getSparkMetadata (tr_providerMetadata toolResponse)))
                content)
  end.

Definition convertToSparkChatMessages (prompt : Prompt)
  : Completion (list JS.Obj) :=
  foldC (fun messages m =>
           pushed ← convertMessage m; Normal (messages ++ pushed))
        [] prompt.

End ChatMessages.

(** ** [convertToSparkCompletionPrompt]
       (src/convert-to-spark-completion-prompt.ts) *)

Inductive InputFormat : Type := FormatPrompt | FormatMessages.

Record CompletionPrompt : Type := {
  cp_prompt : string;
  cp_stopSequences : option (list string);
}.

(** The callback of [content.map] in the [user] case. *)
Definition userPartText (part : UserPart) : Completion string :=
  match part with
  | UText text _ => Normal text
  | UImage _ _ _ => Throw (UnsupportedFunctionalityError "images")
  | UFile _ _ _ => Throw (Error "Unsupported content part type: file")
  end.

(** The callback of [content.map] in the [assistant] case. *)
Definition assistantPartText (part : AssistantPart) : Completion string :=
  match part with
  | AText text _ => Normal text
  | AToolCall _ _ _ _ =>
      Throw (UnsupportedFunctionalityError "tool-call messages")
  end.

(** One iteration of [for (const { role, content } of prompt)] on the local
    variable [text]. *)
Definition renderMessage (user assistant : string) (text : string)
    (m : Message) : Completion string :=
  match m with
  | System content _ =>
      Throw (InvalidPromptError
               ("Unexpected system message in prompt: " +:+ content))
  | User content _ =>
      parts ← mapC userPartText content;
      Normal (text +:+ user +:+ ":" +:+ LF +:+ String.concat "" parts
                +:+ LF +:+ LF)
  | Assistant content _ =>
      parts ← mapC assistantPartText content;
      Normal (text +:+ assistant +:+ ":" +:+ LF +:+ String.concat "" parts
                +:+ LF +:+ LF)
  | Tool _ _ => Throw (UnsupportedFunctionalityError "tool messages")
  end.

(** The function after the early return of the fast path: [prompt[0].role]
    throws on an empty prompt. *)
Definition renderTranscript (prompt : Prompt) (user assistant : string)
  : Completion CompletionPrompt :=
  match prompt with
  | [] => Throw TypeError
  | first :: rest =>
      let '(text, prompt) :=
        match first with
        | System content _ => ("" +:+ content +:+ LF +:+ LF, rest)
        | _ => ("", prompt)
        end in
      text ← foldC (renderMessage user assistant) text prompt;
      Normal {| cp_prompt := text +:+ assistant +:+ ":" +:+ LF;
                cp_stopSequences := Some [LF +:+ user +:+ ":"] |}
  end.

Definition convertToSparkCompletionPrompt (prompt : Prompt)
    (inputFormat : InputFormat) (user assistant : option string)
  : Completion CompletionPrompt :=
  let user := JS.nullish user "user" in
  let assistant := JS.nullish assistant "assistant" in
  match inputFormat, prompt with
  | FormatPrompt, [User [UText text _] _] =>
      Normal {| cp_prompt := text; cp_stopSequences := None |}
  | _, _ => renderTranscript prompt user assistant
  end.

(** ** [prepareTools] (src/spark-prepare-tools.ts) *)

(** [LanguageModelV1FunctionTool | LanguageModelV1ProviderDefinedTool] *)
Inductive ToolDef : Type :=
| FunctionTool (name : string) (description : option string)
    (parameters : JS.Val)
| ProviderDefinedTool (id name : string) (args : JS.Obj).

(** [LanguageModelV1ToolChoice] *)
Inductive ToolChoice : Type :=
| ChoiceAuto
| ChoiceNone
| ChoiceRequired
| ChoiceTool (toolName : string).

Record SparkTool : Type := {
  fn_name : string;
  fn_description : option string;
  fn_parameters : JS.Val;
}.

Inductive SparkToolChoice : Type :=
| SparkAuto
| SparkNone
| SparkRequired
| SparkFunction (name : string).

(** [LanguageModelV1CallWarning] *)
Inductive CallWarning : Type :=
| UnsupportedSetting (setting : string) (details : option string)
| UnsupportedTool (tool : ToolDef)
| OtherWarning (message : string).

Record PreparedTools : Type := {
  tools : option (list SparkTool);
  tool_choice : option SparkToolChoice;
  toolWarnings : list CallWarning;
}.

Definition is_provider_defined (tool : ToolDef) : bool :=
  match tool with ProviderDefinedTool _ _ _ => true | _ => false end.

(** One iteration of [for (const tool of tools)] on the pair of
    [toolWarnings] and [sparkCompatTools]. *)
Definition prepareTool (acc : list CallWarning * list SparkTool)
    (tool : ToolDef) : list CallWarning * list SparkTool :=
  match tool with
  | ProviderDefinedTool _ _ _ => (fst acc ++ [UnsupportedTool tool], snd acc)
  | FunctionTool name description parameters =>
      (fst acc,
       snd acc ++ [{| fn_name := name; fn_description := description;
                      fn_parameters := parameters |}])
  end.

(** [mode.tools] and [mode.toolChoice] are the two fields of [mode] the
    function reads.  [ToolChoice] is a closed type, so the [default] branch
    of the final switch (the exhaustiveness guard) has no case here. *)
Definition prepareTools (mode_tools : option (list ToolDef))
    (mode_toolChoice : option ToolChoice) : PreparedTools :=
  let tools :=
    match mode_tools with
    | Some (t :: ts) => Some (t :: ts)
    | _ => None
    end in
  match tools with
  | None => {| tools := None; tool_choice := None; toolWarnings := [] |}
  | Some tools =>
      let '(toolWarnings, sparkCompatTools) :=
        fold_left prepareTool tools ([], []) in
      match mode_toolChoice with
      | None =>
          {| tools := Some sparkCompatTools; tool_choice := None;
             toolWarnings := toolWarnings |}
      | Some ChoiceAuto =>
          {| tools := Some sparkCompatTools; tool_choice := Some SparkAuto;
             toolWarnings := toolWarnings |}
      | Some ChoiceNone =>
          {| tools := Some sparkCompatTools; tool_choice := Some SparkNone;
             toolWarnings := toolWarnings |}
      | Some ChoiceRequired =>
          {| tools := Some sparkCompatTools;
             tool_choice := Some SparkRequired;
             toolWarnings := toolWarnings |}
      | Some (ChoiceTool toolName) =>
          {| tools := Some sparkCompatTools;
             tool_choice := Some (SparkFunction toolName);
             toolWarnings := toolWarnings |}
      end
  end.

(** ** [mapSparkFinishReason] and [getResponseMetadata] *)

(** [LanguageModelV1FinishReason] *)
Inductive FinishReason : Type :=
| FinishStop
| FinishLength
| FinishContentFilter
| FinishToolCalls
| FinishError
| FinishOther
| FinishUnknown.

Definition mapSparkFinishReason (finishReason : option string)
  : FinishReason :=
  match finishReason with
  | Some s =>
      if String.eqb s "stop" then FinishStop
      else if String.eqb s "length" then FinishLength
      else if String.eqb s "tool_calls" then FinishToolCalls
      else FinishUnknown
  | None => FinishUnknown
  end.

(** [new Date(ms)], kept as the argument it was built from. *)
Inductive Date : Type := NewDate (ms : float).

Record ResponseMetadata : Type := {
  rm_id : option string;
  rm_modelId : option string;
  rm_timestamp : option Date;
}.

Definition getResponseMetadata (id : option string) (model : option string)
    (created : option float) : ResponseMetadata :=
  {| rm_id := id;
     rm_modelId := model;
     rm_timestamp :=
       match created with
       | Some created => Some (NewDate (PrimFloat.mul created 1000%float))
       | None => None
       end |}.

(** ** Wire types of the chat model (the zod schemas of src/index.ts)

    A [nullish] or [optional] field is an [option]. *)

Record WireUsage : Type := {
  prompt_tokens : option float;
  completion_tokens : option float;
}.

Record WireFunction : Type := {
  wf_name : option string;
  wf_arguments : option string;
}.

(** [delta.tool_calls]: one object, not an array. *)
Record WireToolCallDelta : Type := {
  tcd_id : option string;
  tcd_type : option string;
  tcd_function : WireFunction;
}.

Record WireDelta : Type := {
  d_content : option string;
  d_reasoning_content : option string;
  d_tool_calls : option WireToolCallDelta;
}.

Record WireChunkChoice : Type := {
  cc_delta : option WireDelta;
  cc_finish_reason : option string;
}.

Record SparkChatChunk : Type := {
  ch_id : option string;
  ch_created : option float;
  ch_model : option string;
  ch_choices : list WireChunkChoice;
  ch_usage : option WireUsage;
}.

(** What the second member of the chunk union (the configured error schema)
    produced: a value with an [error] property, or one without it and
    without any of the chunk's properties (as the default
    [sparkErrorDataSchema] gives). *)
Inductive ErrorData : Type :=
| WithErrorProperty (error : JS.Val)
| WithoutErrorProperty.

Inductive ChunkValue : Type :=
| Chunk (c : SparkChatChunk)
| ErrorValue (e : ErrorData).

(** [ParseResult<...>] *)
Inductive ParseResult : Type :=
| ParseSuccess (value : ChunkValue)
| ParseFailure (error : JS.Val).

(** [message.tool_calls] of the non-stream response: one object. *)
Record WireToolCall : Type := {
  tc_id : option string;
  tc_name : string;
  tc_arguments : string;
}.

Record WireMessage : Type := {
  m_content : option string;
  m_reasoning_content : option string;
  m_tool_calls : option WireToolCall;
}.

Record WireChoice : Type := {
  c_message : WireMessage;
  c_finish_reason : option string;
}.

Record SparkChatResponse : Type := {
  r_id : option string;
  r_created : option float;
  r_model : option string;
  r_choices : list WireChoice;
  r_usage : option WireUsage;
}.

(** ** Results and stream parts *)

Record Usage : Type := {
  promptTokens : float;
  completionTokens : float;
}.

Record ToolCallResult : Type := {
  toolCallId : string;
  toolName : string;
  args : string;
}.

(** [LanguageModelV1StreamPart], the variants this provider emits. *)
Inductive StreamPart : Type :=
| ErrorPart (error : JS.Val)
| ResponseMetadataPart (metadata : ResponseMetadata)
| TextDelta (textDelta : string)
| ToolCallDelta (toolCallId toolName argsTextDelta : string)
| ToolCallPart (toolCall : ToolCallResult)
| Finish (finishReason : FinishReason) (usage : Usage)
    (providerMetadata : option ProviderMetadata).

Definition is_finish (p : StreamPart) : bool :=
  match p with Finish _ _ _ => true | _ => false end.

Definition is_error_part (p : StreamPart) : bool :=
  match p with ErrorPart _ => true | _ => false end.

Definition is_tool_call_delta (p : StreamPart) : bool :=
  match p with ToolCallDelta _ _ _ => true | _ => false end.

Definition is_tool_call_part (p : StreamPart) : bool :=
  match p with ToolCallPart _ => true | _ => false end.

(** The text of a [text-delta] part, and nothing for any other part. *)
Definition text_of (p : StreamPart) : string :=
  match p with TextDelta t => t | _ => "" end.

(** ** Effects: mutable state, an output queue and exceptions

    A computation reads and writes a state of type [S] (the variables a
    closure captures), appends to an output of [W]s (the parts handed to
    [controller.enqueue], or the requests handed to the transport) and
    completes normally or throws. *)

Record Run (S W A : Type) : Type := mkRun {
  emitted : list W;
  after : S;
  result : Completion A;
}.
Arguments mkRun {S W A} emitted after result.
Arguments emitted {S W A} r.
Arguments after {S W A} r.
Arguments result {S W A} r.

Definition Eff (S W A : Type) : Type := S -> Run S W A.

Definition retE {S W A} (a : A) : Eff S W A :=
  fun s => mkRun [] s (Normal a).

Definition bindE {S W A B} (m : Eff S W A) (f : A -> Eff S W B)
  : Eff S W B :=
  fun s =>
    let r := m s in
    match result r with
    | Normal a =>
        let r' := f a (after r) in
        mkRun (emitted r ++ emitted r') (after r') (result r')
    | Throw e => mkRun (emitted r) (after r) (Throw e)
    end.

#[export] Instance Eff_ret {S W} : MRet (Eff S W) := @retE S W.
#[export] Instance Eff_bind {S W} : MBind (Eff S W) :=
  fun A B f m => bindE m f.

Definition throwE {S W A} (e : Exception) : Eff S W A :=
  fun s => mkRun [] s (Throw e).

Definition emit {S W} (w : W) : Eff S W unit :=
  fun s => mkRun [w] s (Normal tt).

Definition getE {S W} : Eff S W S :=
  fun s => mkRun [] s (Normal s).

Definition modifyE {S W} (f : S -> S) : Eff S W unit :=
  fun s => mkRun [] (f s) (Normal tt).

Definition liftC {S W A} (c : Completion A) : Eff S W A :=
  fun s => mkRun [] s c.

(** [if (b) { m }] *)
Definition when {S W} (b : bool) (m : Eff S W unit) : Eff S W unit :=
  if b then m else retE tt.

(** ** The chat model's stream transform ([doStream], src/index.ts) *)

(** An entry of the [toolCalls] array ([type] is always ["function"]). *)
Record ToolCallSlot : Type := {
  slot_id : string;
  slot_name : string;
  slot_arguments : string;
  hasFinished : bool;
}.

Record StreamUsage : Type := {
  su_promptTokens : option float;
  su_completionTokens : option float;
}.

Section ChatStream.

(** [isParsableJson] and [generateId] (@ai-sdk/provider-utils) and the
    stream extractor of [config.metadataExtractor] are taken as given:
    [generateId n] is the id the generator returns on its [n]-th call. *)
Variable isParsableJson : string -> bool.
Variable generateId : nat -> string.
Variable Extractor : Type.
Variable processChunk : Extractor -> ChunkValue -> Extractor.
Variable buildMetadata : Extractor -> option ProviderMetadata.

(** The variables [transform] and [flush] capture. *)
Record StreamState : Type := {
  finishReason : FinishReason;
  usage : StreamUsage;
  isFirstChunk : bool;
  toolCalls : list ToolCallSlot;
  metadataExtractor : option Extractor;
  idsGenerated : nat;
}.

Definition Tx (A : Type) : Type := Eff StreamState StreamPart A.

Definition set_finishReason (r : FinishReason) (s : StreamState)
  : StreamState :=
  {| finishReason := r; usage := usage s; isFirstChunk := isFirstChunk s;
     toolCalls := toolCalls s; metadataExtractor := metadataExtractor s;
     idsGenerated := idsGenerated s |}.

Definition set_usage (u : StreamUsage) (s : StreamState) : StreamState :=
  {| finishReason := finishReason s; usage := u;
     isFirstChunk := isFirstChunk s; toolCalls := toolCalls s;
     metadataExtractor := metadataExtractor s;
     idsGenerated := idsGenerated s |}.

Definition set_isFirstChunk (b : bool) (s : StreamState) : StreamState :=
  {| finishReason := finishReason s; usage := usage s; isFirstChunk := b;
     toolCalls := toolCalls s; metadataExtractor := metadataExtractor s;
     idsGenerated := idsGenerated s |}.

Definition set_toolCalls (t : list ToolCallSlot) (s : StreamState)
  : StreamState :=
  {| finishReason := finishReason s; usage := usage s;
     isFirstChunk := isFirstChunk s; toolCalls := t;
     metadataExtractor := metadataExtractor s;
     idsGenerated := idsGenerated s |}.

Definition set_metadataExtractor (x : option Extractor) (s : StreamState)
  : StreamState :=
  {| finishReason := finishReason s; usage := usage s;
     isFirstChunk := isFirstChunk s; toolCalls := toolCalls s;
     metadataExtractor := x; idsGenerated := idsGenerated s |}.

(** [generateId()] *)
Definition freshId : Tx string :=
  fun s =>
    mkRun [] {| finishReason := finishReason s; usage := usage s;
                isFirstChunk := isFirstChunk s; toolCalls := toolCalls s;
                metadataExtractor := metadataExtractor s;
                idsGenerated := S (idsGenerated s) |}
          (Normal (generateId (idsGenerated s))).

(** [toolCalls[0]], read through the alias [toolCall]. *)
Definition slot0 : Tx ToolCallSlot :=
  s ← getE;
  match toolCalls s !! 0 with
  | Some toolCall => retE toolCall
  | None => throwE TypeError
  end.

(** A write through the alias [toolCall] changes the object in the
    array. *)
Definition update_slot0 (f : ToolCallSlot -> ToolCallSlot) : Tx unit :=
  modifyE (fun s =>
    match toolCalls s with
    | toolCall :: rest => set_toolCalls (f toolCall :: rest) s
    | [] => s
    end).

Definition append_arguments (fragment : string) (t : ToolCallSlot)
  : ToolCallSlot :=
  {| slot_id := slot_id t; slot_name := slot_name t;
     slot_arguments := slot_arguments t +:+ fragment;
     hasFinished := hasFinished t |}.

Definition mark_finished (t : ToolCallSlot) : ToolCallSlot :=
  {| slot_id := slot_id t; slot_name := slot_name t;
     slot_arguments := slot_arguments t; hasFinished := true |}.

(** [if (isParsableJson(toolCall.function.arguments)) { enqueue
    tool-call; toolCall.hasFinished = true }]; [toolCall.id] is a string,
    so [toolCall.id ?? generateId()] never generates. *)
Definition finishIfParsable : Tx unit :=
  toolCall ← slot0;
  when (isParsableJson (slot_arguments toolCall))
    (emit (ToolCallPart {| toolCallId := slot_id toolCall;
                           toolName := slot_name toolCall;
                           args := slot_arguments toolCall |});;
     update_slot0 mark_finished).

(** The body of [if (delta.tool_calls != null)]. *)
Definition processToolCalls (tool_calls : WireToolCallDelta) : Tx unit :=
  if negb (bool_decide (tcd_type tool_calls = Some "function")) then
    throwE (InvalidResponseDataError "Expected 'function' type.")
  else
    match wf_name (tcd_function tool_calls) with
    | None =>
        throwE (InvalidResponseDataError
                  "Expected 'function.name' to be a string.")
    | Some name =>
        id ← match tcd_id tool_calls with
             | Some id => retE id
             | None => freshId
             end;
        modifyE (fun s =>
          set_toolCalls
            (JS.array_set 0
               {| slot_id := id; slot_name := name;
                  slot_arguments :=
                    JS.nullish (wf_arguments (tcd_function tool_calls)) "";
                  hasFinished := false |}
               (toolCalls s)) s);;
        toolCall ← slot0;
        when (0 <? String.length (slot_arguments toolCall))%nat
          (emit (ToolCallDelta (slot_id toolCall) (slot_name toolCall)
                   (slot_arguments toolCall)));;
        finishIfParsable;;
        match wf_arguments (tcd_function tool_calls) with
        | Some fragment => update_slot0 (append_arguments fragment)
        | None => retE tt
        end;;
        toolCall ← slot0;
        emit (ToolCallDelta (slot_id toolCall) (slot_name toolCall)
                (JS.nullish (wf_arguments (tcd_function tool_calls)) ""));;
        finishIfParsable
    end.

(** [if (isFirstChunk) { ... }] *)
Definition announce (id model : option string) (created : option float)
  : Tx unit :=
  s ← getE;
  when (isFirstChunk s)
    (modifyE (set_isFirstChunk false);;
     emit (ResponseMetadataPart (getResponseMetadata id model created))).

(** [value.error.message] *)
Definition error_message (error : JS.Val) : Completion JS.Val :=
  match error with
  | JS.VUndefined | JS.VNull => Throw TypeError
  | JS.VObj o => Normal (JS.nullish (JS.get "message" o) JS.VUndefined)
  | _ => Normal JS.VUndefined
  end.

Definition transform (chunk : ParseResult) : Tx unit :=
  match chunk with
  | ParseFailure error =>
      modifyE (set_finishReason FinishError);;
      emit (ErrorPart error)
  | ParseSuccess value =>
      modifyE (fun s =>
        set_metadataExtractor
          ((fun x => processChunk x value) <$> metadataExtractor s) s);;
      match value with
      | ErrorValue (WithErrorProperty error) =>
          modifyE (set_finishReason FinishError);;
          message ← liftC (error_message error);
          emit (ErrorPart message)
      | ErrorValue WithoutErrorProperty =>
          announce None None None;;
          (* [value.usage] is undefined; [value.choices[0]] throws *)
          throwE TypeError
      | Chunk value =>
          announce (ch_id value) (ch_model value) (ch_created value);;
          match ch_usage value with
          | Some u =>
              modifyE (set_usage
                {| su_promptTokens := prompt_tokens u;
                   su_completionTokens := completion_tokens u |})
          | None => retE tt
          end;;
          match ch_choices value !! 0 ≫= cc_delta with
          | None => retE tt
          | Some delta =>
              match d_content delta with
              | Some content => emit (TextDelta content)
              | None => retE tt
              end;;
              match d_tool_calls delta with
              | Some tool_calls => processToolCalls tool_calls
              | None => retE tt
              end
          end
      end
  end.

Definition flush : Tx unit :=
  s ← getE;
  emit (Finish (finishReason s)
          {| promptTokens := JS.nullish (su_promptTokens (usage s)) JS.NaN;
             completionTokens :=
               JS.nullish (su_completionTokens (usage s)) JS.NaN |}
          (metadataExtractor s ≫= buildMetadata)).

(** The transform stream fed with a finite sequence of chunks that ends
    normally: [transform] on every chunk, then [flush].  A throwing
    [transform] errors the stream; [flush] does not run. *)
Fixpoint pipeThrough (chunks : list ParseResult) : Tx unit :=
  match chunks with
  | [] => flush
  | chunk :: chunks' => transform chunk;; pipeThrough chunks'
  end.

(** The state [doStream] creates before it returns the stream. *)
Definition initialState (extractor : option Extractor) (ids : nat)
  : StreamState :=
  {| finishReason := FinishUnknown;
     usage := {| su_promptTokens := None; su_completionTokens := None |};
     isFirstChunk := true;
     toolCalls := [];
     metadataExtractor := extractor;
     idsGenerated := ids |}.

End ChatStream.

(** ** The chat model: [doGenerate] and [doStream] (src/index.ts) *)

(** What [doGenerate] returns ([rawCall], [rawResponse] and [request] echo
    the request and are left out). *)
Record GenerateResult : Type := {
  gr_text : option string;
  gr_toolCalls : option (list ToolCallResult);
  gr_finishReason : FinishReason;
  gr_usage : Usage;
  gr_providerMetadata : option ProviderMetadata;
  gr_response : ResponseMetadata;
  gr_warnings : list CallWarning;
}.

(** What [doStream] returns: the parts the stream delivers, how it ends
    (closed, or errored by a throw) and the warnings. *)
Record StreamResult : Type := {
  sr_stream : list StreamPart;
  sr_end : Completion unit;
  sr_warnings : list CallWarning;
}.

(** A call of [postJsonToApi]: the path the URL was built for, the [url]
    and the [headers] evaluated for the call, the [body] and its [stream]
    flag. *)
Record Request (Args : Type) : Type := {
  req_path : string;
  req_url : string;
  req_headers : JS.Obj;
  req_body : Args;
  req_stream : bool;
}.
Arguments req_path {Args} r.
Arguments req_url {Args} r.
Arguments req_headers {Args} r.
Arguments req_body {Args} r.
Arguments req_stream {Args} r.

Section ChatModel.

Variable isParsableJson : string -> bool.
Variable generateId : nat -> string.
Variable Extractor : Type.
Variable processChunk : Extractor -> ChunkValue -> Extractor.
Variable buildMetadata : Extractor -> option ProviderMetadata.

(** [config.metadataExtractor]: its [extractMetadata] and the result of
    its [createStreamExtractor()]. *)
Variable config_metadataExtractor :
  option ((SparkChatResponse -> option ProviderMetadata) * Extractor).

(** [settings.simulateStreaming] *)
Variable simulateStreaming : bool.

(** Request construction ([getArgs]) and the transport ([postJsonToApi]
    with the JSON and the event-source response handlers) are taken as
    given; [getArgs] may throw, and so may the transport. *)
Variable CallOptions Args : Type.
Variable getArgs : CallOptions -> Completion (Args * list CallWarning).

(** [this.config.url({ path, modelId })] and [this.config.headers()] are the
    configuration's functions and may throw; they are evaluated, in this
    order, for the arguments of [postJsonToApi], before it is called.
    [options.headers] and [combineHeaders] (@ai-sdk/provider-utils) give the
    headers of the call. *)
Variable config_url : string -> Completion string.
Variable config_headers : Completion JS.Obj.
Variable options_headers : CallOptions -> option JS.Obj.
Variable combineHeaders : JS.Obj -> option JS.Obj -> JS.Obj.

Variable jsonResponse : Request Args -> Completion SparkChatResponse.
Variable eventSourceResponse :
  Request Args -> Completion (list ParseResult).

(** The state is the number of ids generated so far, the output the
    requests sent. *)
Definition Net (A : Type) : Type := Eff nat (Request Args) A.

Definition postJsonToApi {A} (handler : Request Args -> Completion A)
    (req : Request Args) : Net A :=
  fun ids => mkRun [req] ids (handler req).

Definition nextId : Net string :=
  fun ids => mkRun [] (S ids) (Normal (generateId ids)).

Definition doGenerate (options : CallOptions) : Net GenerateResult :=
  aw ← liftC (getArgs options);
  url ← liftC (config_url "/chat/completions");
  headers ← liftC config_headers;
  responseBody ← postJsonToApi jsonResponse
    {| req_path := "/chat/completions"; req_url := url;
       req_headers := combineHeaders headers (options_headers options);
       req_body := fst aw; req_stream := false |};
  match r_choices responseBody !! 0 with
  | None => throwE TypeError
  | Some choice =>
      let providerMetadata :=
        config_metadataExtractor ≫= fun x => fst x responseBody in
      toolCalls ←
        match m_tool_calls (c_message choice) with
        | Some tool_calls =>
            id ← match tc_id tool_calls with
                 | Some id => retE id
                 | None => nextId
                 end;
            retE (Some [{| toolCallId := id;
                           toolName := tc_name tool_calls;
                           args := tc_arguments tool_calls |}])
        | None => retE None
        end;
      retE {| gr_text := m_content (c_message choice);
              gr_toolCalls := toolCalls;
              gr_finishReason :=
                mapSparkFinishReason (c_finish_reason choice);
              gr_usage :=
                {| promptTokens :=
                     JS.nullish (r_usage responseBody ≫= prompt_tokens)
                                JS.NaN;
                   completionTokens :=
                     JS.nullish (r_usage responseBody ≫= completion_tokens)
                                JS.NaN |};
              gr_providerMetadata := providerMetadata;
              gr_response :=
                getResponseMetadata (r_id responseBody)
                  (r_model responseBody) (r_created responseBody);
              gr_warnings := snd aw |}
  end.

(** The parts [start(controller)] enqueues on the simulated stream. *)
Definition simulatedStream (result : GenerateResult) : list StreamPart :=
  [ResponseMetadataPart (gr_response result)]
  ++ match gr_text result with
     | Some text =>
         if JS.truthy (JS.VStr text) then [TextDelta text] else []
     | None => []
     end
  ++ match gr_toolCalls result with
     | Some toolCalls => map ToolCallPart toolCalls
     | None => []
     end
  ++ [Finish (gr_finishReason result) (gr_usage result)
        (gr_providerMetadata result)].

Definition doStream (options : CallOptions) : Net StreamResult :=
  if simulateStreaming then
    result ← doGenerate options;
    retE {| sr_stream := simulatedStream result;
            sr_end := Normal tt;
            sr_warnings := gr_warnings result |}
  else
    aw ← liftC (getArgs options);
    url ← liftC (config_url "/chat/completions");
    headers ← liftC config_headers;
    response ← postJsonToApi eventSourceResponse
      {| req_path := "/chat/completions"; req_url := url;
         req_headers := combineHeaders headers (options_headers options);
         req_body := fst aw; req_stream := true |};
    ids ← getE;
    let run :=
      pipeThrough isParsableJson generateId Extractor processChunk
        buildMetadata response
        (initialState Extractor (snd <$> config_metadataExtractor) ids) in
    modifyE (fun _ => idsGenerated Extractor (after run));;
    retE {| sr_stream := emitted run;
            sr_end := result run;
            sr_warnings := snd aw |}.

End ChatModel.

(** ** The completion model: [doGenerate] and the stream transform of
       [doStream] *)

Record CompletionChoice : Type := {
  cmp_text : string;
  cmp_finish_reason : string;
}.

Record CompletionUsage : Type := {
  cu_prompt_tokens : float;
  cu_completion_tokens : float;
}.

Record SparkCompletionResponse : Type := {
  cr_id : option string;
  cr_created : option float;
  cr_model : option string;
  cr_choices : list CompletionChoice;
  cr_usage : option CompletionUsage;
}.

Record CompletionChunkChoice : Type := {
  ccc_text : string;
  ccc_finish_reason : option string;
}.

Record SparkCompletionChunk : Type := {
  cch_id : option string;
  cch_created : option float;
  cch_model : option string;
  cch_choices : list CompletionChunkChoice;
  cch_usage : option CompletionUsage;
}.

Inductive CompletionChunkValue : Type :=
| CChunk (c : SparkCompletionChunk)
| CErrorValue (e : ErrorData).

Inductive CompletionParseResult : Type :=
| CParseSuccess (value : CompletionChunkValue)
| CParseFailure (error : JS.Val).

Record CompletionStreamState : Type := {
  cs_finishReason : FinishReason;
  cs_usage : Usage;
  cs_isFirstChunk : bool;
}.

Module CompletionModel.

Definition Tx (A : Type) : Type := Eff CompletionStreamState StreamPart A.

Definition announce (id model : option string) (created : option float)
  : Tx unit :=
  s ← getE;
  when (cs_isFirstChunk s)
    (modifyE (fun s => {| cs_finishReason := cs_finishReason s;
                          cs_usage := cs_usage s;
                          cs_isFirstChunk := false |});;
     emit (ResponseMetadataPart (getResponseMetadata id model created))).

Definition set_finishReason (r : FinishReason) : Tx unit :=
  modifyE (fun s => {| cs_finishReason := r; cs_usage := cs_usage s;
                       cs_isFirstChunk := cs_isFirstChunk s |}).

Definition transform (chunk : CompletionParseResult) : Tx unit :=
  match chunk with
  | CParseFailure error =>
      set_finishReason FinishError;; emit (ErrorPart error)
  | CParseSuccess (CErrorValue (WithErrorProperty error)) =>
      set_finishReason FinishError;; emit (ErrorPart error)
  | CParseSuccess (CErrorValue WithoutErrorProperty) =>
      announce None None None;;
      throwE TypeError
  | CParseSuccess (CChunk value) =>
      announce (cch_id value) (cch_model value) (cch_created value);;
      match cch_usage value with
      | Some u =>
          modifyE (fun s =>
            {| cs_finishReason := cs_finishReason s;
               cs_usage := {| promptTokens := cu_prompt_tokens u;
                              completionTokens := cu_completion_tokens u |};
               cs_isFirstChunk := cs_isFirstChunk s |})
      | None => retE tt
      end;;
      match cch_choices value !! 0 with
      | None => retE tt
      | Some choice =>
          match ccc_finish_reason choice with
          | Some r => set_finishReason (mapSparkFinishReason (Some r))
          | None => retE tt
          end;;
          emit (TextDelta (ccc_text choice))
      end
  end.

Definition flush : Tx unit :=
  s ← getE;
  emit (Finish (cs_finishReason s) (cs_usage s) None).

Fixpoint pipeThrough (chunks : list CompletionParseResult) : Tx unit :=
  match chunks with
  | [] => flush
  | chunk :: chunks' => transform chunk;; pipeThrough chunks'
  end.

Definition initialState : CompletionStreamState :=
  {| cs_finishReason := FinishUnknown;
     cs_usage := {| promptTokens := JS.NaN; completionTokens := JS.NaN |};
     cs_isFirstChunk := true |}.

Section Model.

Variable CallOptions Args : Type.
Variable getArgs : CallOptions -> Completion (Args * list CallWarning).

(** [this.config.url], [this.config.headers], [options.headers] and
    [combineHeaders], as for the chat model. *)
Variable config_url : string -> Completion string.
Variable config_headers : Completion JS.Obj.
Variable options_headers : CallOptions -> option JS.Obj.
Variable combineHeaders : JS.Obj -> option JS.Obj -> JS.Obj.

Variable jsonResponse :
  Request Args -> Completion SparkCompletionResponse.

Definition doGenerate (options : CallOptions)
  : Eff unit (Request Args) GenerateResult :=
  aw ← liftC (getArgs options);
  url ← liftC (config_url "/completions");
  headers ← liftC config_headers;
  response ← (fun s =>
    let req := {| req_path := "/completions"; req_url := url;
                  req_headers :=
                    combineHeaders headers (options_headers options);
                  req_body := fst aw; req_stream := false |} in
    mkRun [req] s (jsonResponse req));
  match cr_choices response !! 0 with
  | None => throwE TypeError
  | Some choice =>
      retE {| gr_text := Some (cmp_text choice);
              gr_toolCalls := None;
              gr_finishReason :=
                mapSparkFinishReason (Some (cmp_finish_reason choice));
              gr_usage :=
                {| promptTokens :=
                     JS.nullish (cu_prompt_tokens <$> cr_usage response)
                                JS.NaN;
                   completionTokens :=
                     JS.nullish
                       (cu_completion_tokens <$> cr_usage response)
                       JS.NaN |};
              gr_providerMetadata := None;
              gr_response :=
                getResponseMetadata (cr_id response) (cr_model response)
                  (cr_created response);
              gr_warnings := snd aw |}
  end.

End Model.

End CompletionModel.

(** ** Vocabulary of the statements *)


(** The in-order concatenation of the text parts of an assistant message. *)
Fixpoint assistant_text (content : list AssistantPart) : string :=
  match content with
  | [] => ""
  | AText text _ :: content' => text +:+ assistant_text content'
  | AToolCall _ _ _ _ :: content' => assistant_text content'
  end.

(** The last tool-call part of an assistant message, if it has one. *)
Definition last_tool_call (content : list AssistantPart)
  : option AssistantPart :=
  last (filter (fun p => is_tool_call p = true) content).

(** The object the loop over the parts of an assistant message leaves in
    [toolCalls]: the last tool-call part converted, or the initial value. *)
Definition folded_tool_calls (JSON_stringify : JS.Val -> string)
    (content : list AssistantPart) (initial : JS.Obj) : JS.Obj :=
  match last_tool_call content with
  | Some (AToolCall _ toolName args pm) =>
      convertToolCallPart JSON_stringify toolName args pm
  | _ => initial
  end.

(** A message the completion converter renders: a user or assistant message
    of text parts only. *)
Definition renders (m : Message) : bool :=
  match m with
  | User content _ =>
      forallb (fun p => match p with UText _ _ => true | _ => false end)
              content
  | Assistant content _ => forallb (fun p => negb (is_tool_call p)) content
  | _ => false
  end.

(** The concatenation of the [text-delta] fragments of a stream. *)
Definition streamed_text (parts : list StreamPart) : string :=
  fold_right (fun p acc => text_of p +:+ acc) "" parts.

(** A number that passed [z.number()]: any double except NaN. *)
Definition is_number (x : float) : Prop := PrimFloat.is_nan x = false.

(** Stand-ins for the collaborators, used to run the model on examples:
    a JSON check that accepts exactly the listed texts, constant ids and
    serialisations, and an extractor that collects nothing. *)
Definition accepts (texts : list string) (s : string) : bool :=
  bool_decide (s ∈ texts).

Definition constant_id (n : nat) : string := "generated-id".

Definition constant_json (v : JS.Val) : string := "{}".

Definition no_base64 (bytes : list Byte.byte) : string := "".

Definition ignore_chunk (x : unit) (value : ChunkValue) : unit := x.

Definition no_metadata (x : unit) : option ProviderMetadata := None.

(** A chunk whose first choice carries a tool-call delta, as the chunk
    schema admits it: [{ choices: [{ delta: { tool_calls: { id, type:
    "function", function: { name, arguments } } } }] }]. *)
Definition tool_call_chunk (id name arguments : option string)
  : ParseResult :=
  ParseSuccess (Chunk
    {| ch_id := None; ch_created := None; ch_model := None;
       ch_choices :=
         [{| cc_delta :=
               Some {| d_content := None; d_reasoning_content := None;
                       d_tool_calls :=
                         Some {| tcd_id := id; tcd_type := Some "function";
                                 tcd_function :=
                                   {| wf_name := name;
                                      wf_arguments := arguments |} |} |};
             cc_finish_reason := None |}];
       ch_usage := None |}).

(** A chunk whose first choice carries no delta and a finish reason:
    [{ choices: [{ finish_reason }] }]. *)
Definition finish_reason_chunk (finish_reason : string) : ParseResult :=
  ParseSuccess (Chunk
    {| ch_id := None; ch_created := None; ch_model := None;
       ch_choices :=
         [{| cc_delta := None; cc_finish_reason := Some finish_reason |}];
       ch_usage := None |}).

(** The same chunk on the completion model's stream, with an empty text. *)
Definition completion_finish_reason_chunk (finish_reason : string)
  : CompletionParseResult :=
  CParseSuccess (CChunk
    {| cch_id := None; cch_created := None; cch_model := None;
       cch_choices :=
         [{| ccc_text := ""; ccc_finish_reason := Some finish_reason |}];
       cch_usage := None |}).

(** [finishReason] as [doStream] initialises it, or as an error sets it. *)
Definition unknown_or_error (r : FinishReason) : Prop :=
  r = FinishUnknown \/ r = FinishError.

(** What one tool-call delta leaves in slot 0 and enqueues, in closed
    form; [first] is the value the new slot is created with and [buffer] the
    value after the fragment has been appended to it. *)
Definition delta_first (arguments : option string) : string :=
  JS.nullish arguments "".

Definition delta_buffer (arguments : option string) : string :=
  match arguments with
  | Some fragment => fragment +:+ fragment
  | None => ""
  end.

Definition delta_slot (isParsableJson : string -> bool) (id name : string)
    (arguments : option string) : ToolCallSlot :=
  {| slot_id := id; slot_name := name;
     slot_arguments := delta_buffer arguments;
     hasFinished := isParsableJson (delta_first arguments)
                    || isParsableJson (delta_buffer arguments) |}.

Definition delta_parts (isParsableJson : string -> bool) (id name : string)
    (arguments : option string) : list StreamPart :=
  (if (0 <? String.length (delta_first arguments))%nat
   then [ToolCallDelta id name (delta_first arguments)] else [])
  ++ (if isParsableJson (delta_first arguments)
      then [ToolCallPart {| toolCallId := id; toolName := name;
                            args := delta_first arguments |}]
      else [])
  ++ [ToolCallDelta id name (delta_first arguments)]
  ++ (if isParsableJson (delta_buffer arguments)
      then [ToolCallPart {| toolCallId := id; toolName := name;
                            args := delta_buffer arguments |}]
      else []).

(** [m] keeps the invariant [I] of the state and enqueues only parts that
    satisfy [Q], whether it completes normally or throws. *)
Definition preserves {S W A} (I : S -> Prop) (Q : W -> Prop)
    (m : Eff S W A) : Prop :=
  forall s, I s -> I (after (m s)) /\ Forall Q (emitted (m s)).

(** The invariant of the chat stream's state: [finishReason] is [unknown]
    or [error]; and the parts that are not the [finish] part. *)
Definition reason_invariant {Extractor} (st : StreamState Extractor)
  : Prop :=
  unknown_or_error (finishReason Extractor st).

Definition not_finish (p : StreamPart) : Prop := is_finish p = false.

(** How a usage counter of the result relates to the field of the response
    body: NaN when the field is missing, the reported number otherwise, and,
    the reported number having passed the schema, NaN only when the field is
    missing. *)
Definition normalizes (field : option float) (counter : float) : Prop :=
  (field = None -> counter = JS.NaN)
  /\ (forall n, field = Some n -> counter = n)
  /\ ((forall n, field = Some n -> is_number n) ->
      (counter = JS.NaN <-> field = None)).

(** The text deltas [simulatedStream] is expected to deliver for a result. *)
Definition expected_text_deltas (text : option string) : list string :=
  match text with
  | Some t => if String.eqb t "" then [] else [t]
  | None => []
  end.

(** A response body and a transport that returns it, to run the models on:
    the text [Hello], the finish reason [stop], 3 prompt tokens and no
    count of completion tokens. *)
Definition sample_response : SparkChatResponse :=
  {| r_id := Some "r-1"; r_created := None; r_model := Some "lite";
     r_choices :=
       [{| c_message := {| m_content := Some "Hello";
                           m_reasoning_content := None;
                           m_tool_calls := None |};
           c_finish_reason := Some "stop" |}];
     r_usage := Some {| prompt_tokens := Some 3%float;
                        completion_tokens := None |} |}.

Definition sample_completion_response : SparkCompletionResponse :=
  {| cr_id := Some "r-2"; cr_created := None; cr_model := Some "lite";
     cr_choices := [{| cmp_text := "Hello"; cmp_finish_reason := "stop" |}];
     cr_usage := None |}.

Definition sample_getArgs (options : unit)
  : Completion (unit * list CallWarning) :=
  Normal (tt, []).

(** A configuration whose URL and headers are built, and the
    [combineHeaders] of the provider utilities on objects without
    [undefined] values. *)
Definition sample_url (path : string) : Completion string :=
  Normal ("https://spark-api-open.xf-yun.com/v1" +:+ path).

Definition sample_headers : Completion JS.Obj :=
  Normal [("Authorization", JS.VStr "Bearer key")].

Definition no_headers {CallOptions} (options : CallOptions)
  : option JS.Obj := None.

Definition spread_headers (headers : JS.Obj) (extra : option JS.Obj)
  : JS.Obj :=
  JS.spread headers (JS.nullish extra []).

Definition sample_jsonResponse (req : Request unit)
  : Completion SparkChatResponse :=
  Normal sample_response.

Definition sample_completionJsonResponse (req : Request unit)
  : Completion SparkCompletionResponse :=
  Normal sample_completion_response.

Definition sample_eventSourceResponse (req : Request unit)
  : Completion (list ParseResult) :=
  Normal [].

Definition sample_result : GenerateResult :=
  {| gr_text := Some "Hello";
     gr_toolCalls := None;
     gr_finishReason := FinishStop;
     gr_usage := {| promptTokens := 3%float; completionTokens := JS.NaN |};
     gr_providerMetadata := None;
     gr_response := {| rm_id := Some "r-1"; rm_modelId := Some "lite";
                       rm_timestamp := None |};
     gr_warnings := [] |}.

(** ** Vocabulary of the further statements *)

(** How many messages the chat converter pushes for a message. *)
Definition message_count (m : Message) : nat :=
  match m with
  | Tool content _ => length content
  | _ => 1
  end.

Definition is_file_part (p : UserPart) : bool :=
  match p with UFile _ _ _ => true | _ => false end.

(** A user message with a file part. *)
Definition has_file_part (m : Message) : bool :=
  match m with
  | User content _ => existsb is_file_part content
  | _ => false
  end.

(** The text of a part of a message the completion converter renders. *)
Definition user_part_text (p : UserPart) : string :=
  match p with UText text _ => text | _ => "" end.

Definition assistant_part_text (p : AssistantPart) : string :=
  match p with AText text _ => text | _ => "" end.

(** The block of the transcript for one rendered message. *)
Definition rendered (user assistant : string) (m : Message) : string :=
  match m with
  | User content _ =>
      user +:+ ":" +:+ LF +:+ String.concat "" (map user_part_text content)
        +:+ LF +:+ LF
  | Assistant content _ =>
      assistant +:+ ":" +:+ LF
        +:+ String.concat "" (map assistant_part_text content)
        +:+ LF +:+ LF
  | _ => ""
  end.

Definition transcript (user assistant : string) (ms : list Message)
  : string :=
  fold_right (fun m acc => rendered user assistant m +:+ acc) "" ms.

(** The error the first part of a list that has one raises. *)
Fixpoint first_error {A} (error_of : A -> option Exception) (xs : list A)
  : option Exception :=
  match xs with
  | [] => None
  | x :: xs' =>
      match error_of x with
      | Some e => Some e
      | None => first_error error_of xs'
      end
  end.

(** The error a part raises in the completion converter, if any. *)
Definition user_part_error (p : UserPart) : option Exception :=
  match p with
  | UText _ _ => None
  | UImage _ _ _ => Some (UnsupportedFunctionalityError "images")
  | UFile _ _ _ => Some (Error "Unsupported content part type: file")
  end.

Definition assistant_part_error (p : AssistantPart) : option Exception :=
  match p with
  | AText _ _ => None
  | AToolCall _ _ _ _ =>
      Some (UnsupportedFunctionalityError "tool-call messages")
  end.

(** The error a message raises in the completion converter's loop. *)
Definition message_error (m : Message) : option Exception :=
  match m with
  | System content _ =>
      Some (InvalidPromptError
              ("Unexpected system message in prompt: " +:+ content))
  | User content _ => first_error user_part_error content
  | Assistant content _ => first_error assistant_part_error content
  | Tool _ _ => Some (UnsupportedFunctionalityError "tool messages")
  end.

(** The function tools of a tool list, converted, and its provider-defined
    tools. *)
Definition function_tools (ts : list ToolDef) : list SparkTool :=
  flat_map (fun t => match t with
                     | FunctionTool name description parameters =>
                         [{| fn_name := name; fn_description := description;
                             fn_parameters := parameters |}]
                     | ProviderDefinedTool _ _ _ => []
                     end) ts.

Definition provider_defined_tools (ts : list ToolDef) : list ToolDef :=
  List.filter is_provider_defined ts.

(** The prompt the fast path of the completion converter takes. *)
Definition single_user_text (prompt : Prompt) : bool :=
  match prompt with
  | [User [UText _ _] _] => true
  | _ => false
  end.

(** The messages the completion converter's loop runs over, and the text it
    starts from: a leading system message is taken off first. *)
Definition transcript_body (prompt : Prompt) : list Message :=
  match prompt with
  | System _ _ :: rest => rest
  | _ => prompt
  end.

Definition transcript_head (prompt : Prompt) : string :=
  match prompt with
  | System content _ :: _ => content +:+ LF +:+ LF
  | _ => ""
  end.

Definition is_response_metadata (p : StreamPart) : bool :=
  match p with ResponseMetadataPart _ => true | _ => false end.

(** A part that belongs to a tool call. *)
Definition is_tool_part (p : StreamPart) : bool :=
  is_tool_call_delta p || is_tool_call_part p.

(** A chunk that makes the chat transform set the finish reason [error]. *)
Definition signals_error (chunk : ParseResult) : bool :=
  match chunk with
  | ParseFailure _ => true
  | ParseSuccess (ErrorValue (WithErrorProperty _)) => true
  | _ => false
  end.

(** The parts the chat transform enqueues for a chunk before it looks at a
    tool-call delta: the response metadata on the first chunk, then the
    text. *)
Definition announce_parts {Extractor} (st : StreamState Extractor)
    (value : SparkChatChunk) : list StreamPart :=
  if isFirstChunk Extractor st
  then [ResponseMetadataPart
          (getResponseMetadata (ch_id value) (ch_model value)
             (ch_created value))]
  else [].

(** [value.choices[0]?.delta] *)
Definition first_delta (value : SparkChatChunk) : option WireDelta :=
  (ch_choices value !! 0 : option WireChunkChoice) ≫= cc_delta.

Definition text_parts (value : SparkChatChunk) : list StreamPart :=
  match first_delta value ≫= d_content with
  | Some content => [TextDelta content]
  | None => []
  end.

(** The state the chat transform hands to the tool-call processing of a
    chunk: the extractor has seen the chunk, the first chunk is over, and a
    usage object of the chunk has replaced the snapshot. *)
Definition chunk_state {Extractor}
    (processChunk : Extractor -> ChunkValue -> Extractor)
    (st : StreamState Extractor) (value : SparkChatChunk)
  : StreamState Extractor :=
  {| finishReason := finishReason Extractor st;
     usage :=
       match ch_usage value with
       | Some u => {| su_promptTokens := prompt_tokens u;
                      su_completionTokens := completion_tokens u |}
       | None => usage Extractor st
       end;
     isFirstChunk := false;
     toolCalls := toolCalls Extractor st;
     metadataExtractor :=
       (fun x => processChunk x (Chunk value))
         <$> metadataExtractor Extractor st;
     idsGenerated := idsGenerated Extractor st |}.

(** How many response-metadata parts a stream may still deliver. *)
Definition metadata_budget {Extractor} (st : StreamState Extractor) : nat :=
  if isFirstChunk Extractor st then 1 else 0.

Definition count_metadata (parts : list StreamPart) : nat :=
  length (List.filter is_response_metadata parts).

(** The usage object of a chunk, if the chunk is a valid one that has it. *)
Definition usage_object (chunk : ParseResult) : option WireUsage :=
  match chunk with
  | ParseSuccess (Chunk value) => ch_usage value
  | _ => None
  end.

(** The usage the [finish] part reports for a snapshot. *)
Definition flushed_usage (u : StreamUsage) : Usage :=
  {| promptTokens := JS.nullish (su_promptTokens u) JS.NaN;
     completionTokens := JS.nullish (su_completionTokens u) JS.NaN |}.

(** A chunk that carries nothing but a usage object:
    [{ choices: [], usage: { prompt_tokens, completion_tokens } }]. *)
Definition usage_chunk (prompt completion : option float) : ParseResult :=
  ParseSuccess (Chunk
    {| ch_id := None; ch_created := None; ch_model := None;
       ch_choices := [];
       ch_usage := Some {| prompt_tokens := prompt;
                           completion_tokens := completion |} |}).

(** What a chunk of the completion stream does to the finish reason, if
    anything: a chunk that failed to parse and an error value set [error],
    a valid chunk whose first choice has a finish reason sets its mapping. *)
Definition reason_update (chunk : CompletionParseResult)
  : option FinishReason :=
  match chunk with
  | CParseFailure _ => Some FinishError
  | CParseSuccess (CErrorValue (WithErrorProperty _)) => Some FinishError
  | CParseSuccess (CErrorValue WithoutErrorProperty) => None
  | CParseSuccess (CChunk value) =>
      choice ← (cch_choices value !! 0 : option CompletionChunkChoice);
      r ← ccc_finish_reason choice;
      Some (mapSparkFinishReason (Some r))
  end.

(** The usage a chunk of the completion stream reports, if any. *)
Definition usage_update (chunk : CompletionParseResult) : option Usage :=
  match chunk with
  | CParseSuccess (CChunk value) =>
      (fun u => {| promptTokens := cu_prompt_tokens u;
                   completionTokens := cu_completion_tokens u |})
        <$> cch_usage value
  | _ => None
  end.

(** The parts of a chunk of the completion stream other than the response
    metadata. *)
Definition content_parts (chunk : CompletionParseResult)
  : list StreamPart :=
  match chunk with
  | CParseFailure error => [ErrorPart error]
  | CParseSuccess (CErrorValue (WithErrorProperty error)) =>
      [ErrorPart error]
  | CParseSuccess (CErrorValue WithoutErrorProperty) => []
  | CParseSuccess (CChunk value) =>
      match cch_choices value !! 0 with
      | Some choice => [TextDelta (ccc_text choice)]
      | None => []
      end
  end.

(** The response metadata a chunk of the completion stream announces when
    it is the first to get that far. *)
Definition announced (chunk : CompletionParseResult)
  : option ResponseMetadata :=
  match chunk with
  | CParseSuccess (CChunk value) =>
      Some (getResponseMetadata (cch_id value) (cch_model value)
              (cch_created value))
  | CParseSuccess (CErrorValue WithoutErrorProperty) =>
      Some (getResponseMetadata None None None)
  | _ => None
  end.

(** An error value without an [error] property: the one chunk the
    completion transform throws on. *)
Definition lacks_error_property (chunk : CompletionParseResult) : bool :=
  match chunk with
  | CParseSuccess (CErrorValue WithoutErrorProperty) => true
  | _ => false
  end.

(** The parts the completion stream delivers for its chunks from a state
    on, up to the [finish] part. *)
Fixpoint delivered (first : bool) (chunks : list CompletionParseResult)
  : list StreamPart :=
  match chunks with
  | [] => []
  | chunk :: chunks' =>
      match announced chunk with
      | Some metadata =>
          (if first then [ResponseMetadataPart metadata] else [])
          ++ content_parts chunk
          ++ (if lacks_error_property chunk then []
              else delivered false chunks')
      | None => content_parts chunk ++ delivered first chunks'
      end
  end.

(** The tool call of a response as [doGenerate] reports it: the id is the
    response's when it has one, a generated one otherwise. *)
Definition reported_tool_call (generated : string) (tc : WireToolCall)
  : ToolCallResult :=
  {| toolCallId := default generated (tc_id tc);
     toolName := tc_name tc;
     args := tc_arguments tc |}.

(** Whether [doGenerate] has to generate an id for the response's message. *)
Definition needs_generated_id (message : WireMessage) : bool :=
  match m_tool_calls message with
  | Some tc => bool_decide (tc_id tc = None)
  | None => false
  end.

(** An event source that delivers two chunks. *)
Definition sample_eventStream (req : Request unit)
  : Completion (list ParseResult) :=
  Normal [finish_reason_chunk "stop";
          usage_chunk (Some 3%float) (Some 5%float)].

(** ** Request construction: [getArgs] of the two models *)

(** [responseFormat]: [{ type: "text" }] or [{ type: "json", schema?,
    name?, description? }]; a schema that is present is an object. *)
Inductive ResponseFormat : Type :=
| ResponseText
| ResponseJson (schema : option JS.Val) (name description : option string).

(** [mode] *)
Inductive Mode : Type :=
| Regular (tools : option (list ToolDef)) (toolChoice : option ToolChoice)
| ObjectJson (schema : option JS.Val) (name description : option string)
| ObjectTool (name : string) (description : option string)
    (parameters : JS.Val).

(** The call options [getArgs] destructures. *)
Record CallOptions : Type := {
  o_mode : Mode;
  o_inputFormat : InputFormat;
  o_prompt : Prompt;
  o_maxTokens : option float;
  o_temperature : option float;
  o_topP : option float;
  o_topK : option float;
  o_frequencyPenalty : option float;
  o_presencePenalty : option float;
  o_stopSequences : option (list string);
  o_responseFormat : option ResponseFormat;
  o_seed : option float;
  o_providerMetadata : option ProviderMetadata;
}.

(** A property whose value may be [undefined]. *)
Definition optional {A} (f : A -> JS.Val) (x : option A) : JS.Val :=
  match x with Some a => f a | None => JS.VUndefined end.

Definition strings (xs : list string) : JS.Val := JS.VArr (map JS.VStr xs).

(** [{ type: "json_schema", json_schema: { schema, name: name ??
    "response", description } }] *)
Definition json_schema_format (schema : JS.Val)
    (name description : option string) : JS.Val :=
  JS.VObj [("type", JS.VStr "json_schema");
           ("json_schema",
            JS.VObj [("schema", schema);
                     ("name", JS.VStr (JS.nullish name "response"));
                     ("description", optional JS.VStr description)])].

(** [{ type: "json_object" }] *)
Definition json_object_format : JS.Val :=
  JS.VObj [("type", JS.VStr "json_object")].

(** [{ type: "function", function: { name, description, parameters } }] *)
Definition tool_value (tool : SparkTool) : JS.Val :=
  JS.VObj [("type", JS.VStr "function");
           ("function",
            JS.VObj [("name", JS.VStr (fn_name tool));
                     ("description",
                      optional JS.VStr (fn_description tool));
                     ("parameters", fn_parameters tool)])].

(** ["auto"], ["none"], ["required"] or [{ type: "function", function:
    { name } }] *)
Definition tool_choice_value (choice : SparkToolChoice) : JS.Val :=
  match choice with
  | SparkAuto => JS.VStr "auto"
  | SparkNone => JS.VStr "none"
  | SparkRequired => JS.VStr "required"
  | SparkFunction name =>
      JS.VObj [("type", JS.VStr "function");
               ("function", JS.VObj [("name", JS.VStr name)])]
  end.

(** The two warnings both models start from share the one for [topK]. *)
Definition topK_warning (o : CallOptions) : list CallWarning :=
  match o_topK o with
  | Some _ => [UnsupportedSetting "topK" None]
  | None => []
  end.

Section GetArgs.

Variable JSON_stringify : JS.Val -> string.
Variable convertUint8ArrayToBase64 : list Byte.byte -> string.

(** [this.modelId], [this.settings], [this.supportsStructuredOutputs] and
    [this.providerOptionsName]. *)
Variable modelId : string.
Variable settings_user : option string.
Variable settings_echo : option bool.
Variable settings_logitBias : option JS.Val.
Variable settings_suffix : option string.
Variable supportsStructuredOutputs : bool.
Variable providerOptionsName : string.

(** [providerMetadata?.[this.providerOptionsName]], as it is spread. *)
Definition providerOptions (o : CallOptions) : JS.Obj :=
  JS.nullish (o_providerMetadata o ≫= JS.get providerOptionsName) [].

(** The [response_format] of the chat model's [baseArgs]. *)
Definition base_response_format (o : CallOptions) : JS.Val :=
  match o_responseFormat o with
  | Some (ResponseJson schema name description) =>
      match schema with
      | Some schema =>
          if supportsStructuredOutputs
          then json_schema_format schema name description
          else json_object_format
      | None => json_object_format
      end
  | _ => JS.VUndefined
  end.

Definition chatWarnings (o : CallOptions) : list CallWarning :=
  topK_warning o
  ++ match o_responseFormat o with
     | Some (ResponseJson (Some _) _ _) =>
         if negb supportsStructuredOutputs
         then [UnsupportedSetting "responseFormat"
                 (Some "JSON response format schema is only supported with structuredOutputs")]
         else []
     | _ => []
     end.

Definition chatBaseArgs (o : CallOptions) (messages : list JS.Obj)
  : JS.Obj :=
  JS.set "messages" (JS.VArr (map JS.VObj messages))
    (JS.spread
       [("model", JS.VStr modelId);
        ("user", optional JS.VStr settings_user);
        ("max_tokens", optional JS.VNum (o_maxTokens o));
        ("temperature", optional JS.VNum (o_temperature o));
        ("top_p", optional JS.VNum (o_topP o));
        ("frequency_penalty", optional JS.VNum (o_frequencyPenalty o));
        ("presence_penalty", optional JS.VNum (o_presencePenalty o));
        ("response_format", base_response_format o);
        ("stop", optional strings (o_stopSequences o));
        ("seed", optional JS.VNum (o_seed o))]
       (providerOptions o)).

(** The chat model's [getArgs] (src/index.ts).  [Mode] is a closed type, so
    the [default] branch of the switch has no case here. *)
Definition chatGetArgs (o : CallOptions)
  : Completion (JS.Obj * list CallWarning) :=
  let warnings := chatWarnings o in
  messages ←
    convertToSparkChatMessages JSON_stringify convertUint8ArrayToBase64
      (o_prompt o);
  let baseArgs := chatBaseArgs o messages in
  match o_mode o with
  | Regular mode_tools mode_toolChoice =>
      let prepared := prepareTools mode_tools mode_toolChoice in
      Normal
        (JS.set "tool_choice"
           (optional tool_choice_value (tool_choice prepared))
           (JS.set "tools"
              (optional (fun ts => JS.VArr (map tool_value ts))
                 (tools prepared))
              baseArgs),
         warnings ++ toolWarnings prepared)
  | ObjectJson schema name description =>
      Normal
        (JS.set "response_format"
           match schema with
           | Some schema =>
               if supportsStructuredOutputs
               then json_schema_format schema name description
               else json_object_format
           | None => json_object_format
           end
           baseArgs,
         warnings)
  | ObjectTool name description parameters =>
      Normal
        (JS.set "tools"
           (JS.VArr
              [tool_value {| fn_name := name; fn_description := description;
                             fn_parameters := parameters |}])
           (JS.set "tool_choice" (tool_choice_value (SparkFunction name))
              baseArgs),
         warnings)
  end.

Definition completionWarnings (o : CallOptions) : list CallWarning :=
  topK_warning o
  ++ match o_responseFormat o with
     | Some (ResponseJson _ _ _) =>
         [UnsupportedSetting "responseFormat"
            (Some "JSON response format is not supported.")]
     | _ => []
     end.

(** [[...(stopSequences ?? []), ...(userStopSequences ?? [])]] *)
Definition merged_stop (converted : CompletionPrompt) (o : CallOptions)
  : list string :=
  JS.nullish (cp_stopSequences converted) []
  ++ JS.nullish (o_stopSequences o) [].

Definition completionBaseArgs (o : CallOptions)
    (converted : CompletionPrompt) : JS.Obj :=
  let stop := merged_stop converted o in
  JS.set "stop"
    (if (0 <? length stop)%nat then strings stop else JS.VUndefined)
    (JS.set "prompt" (JS.VStr (cp_prompt converted))
       (JS.spread
          [("model", JS.VStr modelId);
           ("echo", optional JS.VBool settings_echo);
           ("logit_bias", optional (fun v => v) settings_logitBias);
           ("suffix", optional JS.VStr settings_suffix);
           ("user", optional JS.VStr settings_user);
           ("max_tokens", optional JS.VNum (o_maxTokens o));
           ("temperature", optional JS.VNum (o_temperature o));
           ("top_p", optional JS.VNum (o_topP o));
           ("frequency_penalty", optional JS.VNum (o_frequencyPenalty o));
           ("presence_penalty", optional JS.VNum (o_presencePenalty o));
           ("seed", optional JS.VNum (o_seed o))]
          (providerOptions o))).

(** The completion model's [getArgs]. *)
Definition completionGetArgs (o : CallOptions)
  : Completion (JS.Obj * list CallWarning) :=
  let warnings := completionWarnings o in
  converted ←
    convertToSparkCompletionPrompt (o_prompt o) (o_inputFormat o) None None;
  let baseArgs := completionBaseArgs o converted in
  match o_mode o with
  | Regular mode_tools mode_toolChoice =>
      match mode_tools with
      | Some (_ :: _) => Throw (UnsupportedFunctionalityError "tools")
      | _ =>
          match mode_toolChoice with
          | Some _ => Throw (UnsupportedFunctionalityError "toolChoice")
          | None => Normal (baseArgs, warnings)
          end
      end
  | ObjectJson _ _ _ =>
      Throw (UnsupportedFunctionalityError "object-json mode")
  | ObjectTool _ _ _ =>
      Throw (UnsupportedFunctionalityError "object-tool mode")
  end.

End GetArgs.

(** The keys of the chat request a later property of the object literal
    sets, so that provider options cannot replace them in every mode. *)
Definition set_after_spread : list string :=
  ["messages"; "tools"; "tool_choice"; "response_format"].

(** Whether the completion converter takes its fast path. *)
Definition fast_path (o : CallOptions) : bool :=
  match o_inputFormat o with
  | FormatPrompt => single_user_text (o_prompt o)
  | FormatMessages => false
  end.

(** Call options with nothing but a mode and a prompt. *)
Definition plain_options (mode : Mode) (inputFormat : InputFormat)
    (prompt : Prompt) (stopSequences : option (list string))
    (providerMetadata : option ProviderMetadata) : CallOptions :=
  {| o_mode := mode; o_inputFormat := inputFormat; o_prompt := prompt;
     o_maxTokens := None; o_temperature := Some 1%float; o_topP := None;
     o_topK := None; o_frequencyPenalty := None; o_presencePenalty := None;
     o_stopSequences := stopSequences; o_responseFormat := None;
     o_seed := None; o_providerMetadata := providerMetadata |}.

(** ** The provider: [createSparkProvider] *)

(** [SparkProviderSettings] ([fetch] is passed on untouched and left
    out). *)
Record SparkProviderSettings : Type := {
  ps_apiKey : option string;
  ps_baseURL : option string;
  ps_headers : option JS.Obj;
}.

(** [CommonModelConfig], its two functions applied. *)
Record CommonModelConfig : Type := {
  cfg_provider : string;
  cfg_url : string -> string;
  cfg_headers : Completion JS.Obj;
}.

Section Provider.

(** [loadApiKey] of the provider utilities, which throws when it finds no
    key, and [withoutTrailingSlash]. *)
Variable loadApiKey : option string -> Completion string.
Variable withoutTrailingSlash : string -> string.

Definition baseURL (options : SparkProviderSettings) : string :=
  withoutTrailingSlash
    (JS.nullish (ps_baseURL options) "https://spark-api-open.xf-yun.com/v1").

(** [getHeaders()]: the key is loaded at each call. *)
Definition getHeaders (options : SparkProviderSettings)
  : Completion JS.Obj :=
  key ← loadApiKey (ps_apiKey options);
  Normal (JS.spread [("Authorization", JS.VStr ("Bearer " +:+ key))]
            (JS.nullish (ps_headers options) [])).

Definition getCommonModelConfig (options : SparkProviderSettings)
    (modelType : string) : CommonModelConfig :=
  {| cfg_provider := "spark." +:+ modelType;
     cfg_url := fun path => baseURL options +:+ path;
     cfg_headers := getHeaders options |}.

End Provider.

(** * Properties *)

(** ** Generic facts about throwing loops *)




Lemma foldC_app {A S} (body : S -> A -> Completion S) (xs ys : list A) acc :
  foldC body acc (xs ++ ys)
  = bindC (foldC body acc xs) (fun acc' => foldC body acc' ys).
Proof.
  revert acc. induction xs as [|x xs IH]; intros acc; simpl; [reflexivity|].
  unfold mbind, Completion_bind.
  destruct (body acc x) as [acc'|e]; simpl; [apply IH | reflexivity].
Qed.

(** ** Strings *)

Lemma string_app_nil_r (s : string) : s +:+ "" = s.
Proof.
  induction s as [|a s IH]; [reflexivity|].
  change (String a (s +:+ "") = String a s). by rewrite IH.
Qed.

Lemma string_app_assoc (s t u : string) : (s +:+ t) +:+ u = s +:+ t +:+ u.
Proof.
  induction s as [|a s IH]; [reflexivity|].
  change (String a ((s +:+ t) +:+ u) = String a (s +:+ t +:+ u)).
  by rewrite IH.
Qed.

(** ** [convertToSparkChatMessages] *)

Section ChatMessagesFacts.

Variable JSON_stringify : JS.Val -> string.
Variable convertUint8ArrayToBase64 : list Byte.byte -> string.

Local Abbreviation convertMessage :=
  (convertMessage JSON_stringify convertUint8ArrayToBase64).
Local Abbreviation convertToSparkChatMessages :=
  (convertToSparkChatMessages JSON_stringify convertUint8ArrayToBase64).
Local Abbreviation assistantStep := (assistantStep JSON_stringify).
Local Abbreviation folded_tool_calls := (folded_tool_calls JSON_stringify).

Lemma last_tool_call_is_tool_call content p :
  last_tool_call content = Some p -> is_tool_call p = true.
Proof.
  unfold last_tool_call. intros H%last_Some_elem_of.
  by apply list_elem_of_filter in H as [? _].
Qed.

Lemma assistant_fold content : forall acc,
  fold_left assistantStep content acc
  = (fst acc +:+ assistant_text content, folded_tool_calls content (snd acc)).
Proof.
  unfold folded_tool_calls.
  induction content as [|part content IH]; intros [text toolCalls].
  - cbn. by rewrite string_app_nil_r.
  - destruct part as [t pm | id name a pm]; cbn [fold_left].
    + rewrite IH. cbn [fst snd assistantStep assistant_text].
      rewrite string_app_assoc. f_equal.
    + rewrite IH. cbn [fst snd assistantStep assistant_text]. f_equal.
      unfold last_tool_call. rewrite filter_cons_True by reflexivity.
      rewrite last_cons.
      destruct (last (filter _ content)) as [p|] eqn:Hlast; [|reflexivity].
      apply last_tool_call_is_tool_call in Hlast.
      by destruct p.
Qed.

(** What the code does with an assistant message: it is converted to exactly
    one message; its [content] is the in-order concatenation of the text
    parts; its [tool_calls] is the conversion of the last tool-call part
    (name and JSON-stringified arguments) and, when the message has no
    tool-call part, the placeholder object with an empty name and empty
    arguments, not [undefined]; the message's spark metadata is spread over
    these three properties. *)
Theorem assistant_message_conversion content pm :
  convertToSparkChatMessages [Assistant content pm]
  = Normal
      [JS.spread
         [("role", JS.VStr "assistant");
          ("content", JS.VStr (assistant_text content));
          ("tool_calls", JS.VObj (folded_tool_calls content emptyToolCalls))]
         (getSparkMetadata pm)].
Proof.
  unfold convertToSparkChatMessages. cbn [foldC].
  unfold mbind, Completion_bind. cbn [convertMessage].
  rewrite assistant_fold. reflexivity.
Qed.



(** ** [convertToSparkCompletionPrompt] *)








(** C6: with [inputFormat] ["prompt"] and a prompt of exactly one user
    message with exactly one text part, [convertToSparkCompletionPrompt]
    returns that text unchanged and no stop sequences. *)
Theorem single_user_text_fast_path text partMetadata messageMetadata
    user assistant :
  convertToSparkCompletionPrompt
    [User [UText text partMetadata] messageMetadata] FormatPrompt
    user assistant
  = Normal {| cp_prompt := text; cp_stopSequences := None |}.
Proof. reflexivity. Qed.

End ChatMessagesFacts.

(** C2 fails on the code at an assistant message without a tool-call part:
    the one message it is converted to has the text as [content], but its
    [tool_calls] is the placeholder object with an empty name and empty
    arguments, not absent. *)
Example assistant_text_only_keeps_tool_calls :
  forall JSON_stringify convertUint8ArrayToBase64,
  convertToSparkChatMessages JSON_stringify convertUint8ArrayToBase64
    [Assistant [AText "hi" None] None]
  = Normal
      [[("role", JS.VStr "assistant");
        ("content", JS.VStr "hi");
        ("tool_calls",
          JS.VObj [("type", JS.VStr "function");
                   ("function", JS.VObj [("arguments", JS.VStr "");
                                         ("name", JS.VStr "")])])]].
Proof. reflexivity. Qed.



(** ** [prepareTools] *)

Lemma prepareTool_provider_defined (tools : list ToolDef) : forall acc,
  forallb is_provider_defined tools = true ->
  fold_left prepareTool tools acc
  = (fst acc ++ map UnsupportedTool tools, snd acc).
Proof.
  induction tools as [|tool tools IH]; intros [warnings compat] H; simpl.
  - by rewrite app_nil_r.
  - apply andb_true_iff in H as [Htool Htools].
    destruct tool as [|id name a]; [discriminate|].
    rewrite IH by done. simpl. by rewrite <- app_assoc.
Qed.

(** C10: for a non-empty tool list of provider-defined tools only,
    [prepareTools] returns the empty array as [tools] (not [undefined]), one
    unsupported-tool warning per tool, in order, and the [tool_choice]
    mapped from the given choice ([undefined] when none is given). *)
Theorem prepareTools_all_provider_defined (mode_tools : list ToolDef)
    (mode_toolChoice : option ToolChoice) :
  mode_tools <> [] ->
  forallb is_provider_defined mode_tools = true ->
  prepareTools (Some mode_tools) mode_toolChoice
  = {| tools := Some [];
       tool_choice :=
         match mode_toolChoice with
         | None => None
         | Some ChoiceAuto => Some SparkAuto
         | Some ChoiceNone => Some SparkNone
         | Some ChoiceRequired => Some SparkRequired
         | Some (ChoiceTool toolName) => Some (SparkFunction toolName)
         end;
       toolWarnings := map UnsupportedTool mode_tools |}.
Proof.
  intros Hne Hall. unfold prepareTools.
  destruct mode_tools as [|tool rest]; [done|].
  rewrite prepareTool_provider_defined by done. simpl.
  by destruct mode_toolChoice as [[]|].
Qed.

Lemma prepareTools_all_provider_defined_witness :
  prepareTools
    (Some [ProviderDefinedTool "spark.search" "search" [];
           ProviderDefinedTool "spark.browse" "browse" []])
    (Some (ChoiceTool "search"))
  = {| tools := Some [];
       tool_choice := Some (SparkFunction "search");
       toolWarnings :=
         [UnsupportedTool (ProviderDefinedTool "spark.search" "search" []);
          UnsupportedTool (ProviderDefinedTool "spark.browse" "browse" [])] |}.
Proof.
  apply (prepareTools_all_provider_defined
           [ProviderDefinedTool "spark.search" "search" [];
            ProviderDefinedTool "spark.browse" "browse" []]
           (Some (ChoiceTool "search"))).
  - discriminate.
  - reflexivity.
Defined.

(** ** Running a computation step by step *)

Lemma bindE_run {S W A B} (m : Eff S W A) (f : A -> Eff S W B) s r1 a r2 r :
  m s = r1 ->
  result r1 = Normal a ->
  f a (after r1) = r2 ->
  mkRun (emitted r1 ++ emitted r2) (after r2) (result r2) = r ->
  (m ≫= f) s = r.
Proof.
  intros <- Hr <- <-. unfold mbind, Eff_bind, bindE. by rewrite Hr.
Qed.

Lemma bindE_throw {S W A B} (m : Eff S W A) (f : A -> Eff S W B) s r1 e r :
  m s = r1 ->
  result r1 = Throw e ->
  mkRun (emitted r1) (after r1) (Throw e) = r ->
  (m ≫= f) s = r.
Proof.
  intros <- Hr <-. unfold mbind, Eff_bind, bindE. by rewrite Hr.
Qed.

(** [run_with tool_calls] evaluates [m s] one action at a time.  A condition
    of [when] is decided by an equation of the context or by computation; a
    call of [processToolCalls] is left to the tactic [tool_calls], and
    unfolded when that fails. *)
Ltac run_condition :=
  lazymatch goal with
  | |- when ?c ?m ?s = ?r =>
      let c' := eval cbv -[String.append String.length Nat.ltb] in c in
      change (when c' m s = r);
      first
        [ match goal with
          | H : c' = _ |- _ => rewrite H
          end
        | let c'' := eval cbv in c' in change (when c'' m s = r) ]
  end.

Ltac run_with tool_calls :=
  lazymatch goal with
  | |- (?m ≫= ?f) ?s = _ =>
      first
        [ eapply bindE_run;
          [ run_with tool_calls
          | cbn [result]; reflexivity
          | cbn [after]; cbv beta; run_with tool_calls
          | cbn [emitted after result app]; reflexivity ]
        | eapply bindE_throw;
          [ run_with tool_calls
          | cbn [result]; reflexivity
          | cbn [emitted after result app]; reflexivity ] ]
  | |- when _ _ _ = _ =>
      run_condition;
      lazymatch goal with
      | |- when true ?m ?s = ?r => change (m s = r); run_with tool_calls
      | |- when false ?m ?s = ?r =>
          change (retE tt s = r); run_with tool_calls
      end
  | |- processToolCalls _ _ _ _ _ = _ =>
      first [ tool_calls | unfold processToolCalls; run_with tool_calls ]
  | |- _ =>
      first
        [ progress (cbv -[String.append String.length Nat.ltb mbind when
                          tail processToolCalls]);
          run_with tool_calls
        | reflexivity ]
  end.

Ltac run := run_with ltac:(fail).

(** ** Invariants of computations *)

Section Preserves.

Context {S W : Type} (I : S -> Prop) (Q : W -> Prop).

Lemma preserves_ret {A} (a : A) : preserves I Q (retE a).
Proof. intros s Hs. by split. Qed.

Lemma preserves_throw {A} e : preserves I Q (@throwE S W A e).
Proof. intros s Hs. by split. Qed.

Lemma preserves_liftC {A} (c : Completion A) : preserves I Q (liftC c).
Proof. intros s Hs. by split. Qed.

Lemma preserves_get : preserves I Q getE.
Proof. intros s Hs. by split. Qed.

Lemma preserves_emit w : Q w -> preserves I Q (emit w).
Proof. intros Hw s Hs. split; [done|]. by constructor. Qed.

Lemma preserves_modify f :
  (forall s, I s -> I (f s)) -> preserves I Q (modifyE f).
Proof. intros Hf s Hs. split; [by apply Hf | constructor]. Qed.

Lemma preserves_bind {A B} (m : Eff S W A) (f : A -> Eff S W B) :
  preserves I Q m -> (forall a, preserves I Q (f a)) ->
  preserves I Q (bindE m f).
Proof.
  intros Hm Hf s Hs. unfold bindE.
  destruct (Hm s Hs) as [Hs' Hev].
  destruct (result (m s)) as [a|e]; cbn [emitted after]; [|done].
  destruct (Hf a _ Hs') as [Hs'' Hev']. split; [done|].
  by apply Forall_app.
Qed.

Lemma preserves_when b (m : Eff S W unit) :
  preserves I Q m -> preserves I Q (when b m).
Proof. intros Hm. destruct b; [done | apply preserves_ret]. Qed.

End Preserves.

(** ** The chat stream transform *)

Section ChatStreamFacts.

Variable isParsableJson : string -> bool.
Variable generateId : nat -> string.
Variable Extractor : Type.
Variable processChunk : Extractor -> ChunkValue -> Extractor.
Variable buildMetadata : Extractor -> option ProviderMetadata.

Local Abbreviation State := (StreamState Extractor).
Local Abbreviation transform :=
  (transform isParsableJson generateId Extractor processChunk).
Local Abbreviation flush := (flush Extractor buildMetadata).
Local Abbreviation pipeThrough :=
  (pipeThrough isParsableJson generateId Extractor processChunk
     buildMetadata).
Local Abbreviation processToolCalls :=
  (processToolCalls isParsableJson generateId Extractor).
Local Abbreviation initialState := (initialState Extractor).

(** C9: a successfully parsed chunk whose first choice carries a tool-call
    delta without a function name makes [transform] throw an
    [InvalidResponseDataError], whatever the state of the stream (so also
    when an earlier chunk established the name), and enqueues no [error]
    part. *)
Theorem tool_call_delta_without_name_throws (st : State)
    (value : SparkChatChunk) choice delta tool_calls :
  ch_choices value !! 0 = Some choice ->
  cc_delta choice = Some delta ->
  d_tool_calls delta = Some tool_calls ->
  wf_name (tcd_function tool_calls) = None ->
  (exists message,
     result (transform (ParseSuccess (Chunk value)) st)
     = Throw (InvalidResponseDataError message))
  /\ List.filter is_error_part
       (emitted (transform (ParseSuccess (Chunk value)) st)) = [].
Proof.
  intros Hchoice Hdelta Htool Hname.
  unfold transform, processToolCalls, announce.
  rewrite Hchoice. cbn [mbind option_bind]. rewrite Hdelta, Htool, Hname.
  unfold mbind, Eff_bind, bindE, modifyE, getE, emit, when, retE, throwE.
  cbn.
  destruct (isFirstChunk _ st), (ch_usage value), (d_content delta),
    (bool_decide (tcd_type tool_calls = Some "function"));
    cbn; eauto.
Qed.


(** What one well-formed tool-call delta does, from any state: slot 0 is
    replaced, the parts of [delta_parts] are enqueued, and an id is
    generated when the delta has none. *)
Lemma processToolCalls_run (st : State) tool_calls name :
  tcd_type tool_calls = Some "function" ->
  wf_name (tcd_function tool_calls) = Some name ->
  let arguments := wf_arguments (tcd_function tool_calls) in
  let callId :=
    JS.nullish (tcd_id tool_calls) (generateId (idsGenerated _ st)) in
  processToolCalls tool_calls st
  = mkRun (delta_parts isParsableJson callId name arguments)
      {| finishReason := finishReason _ st; usage := usage _ st;
         isFirstChunk := isFirstChunk _ st;
         toolCalls :=
           delta_slot isParsableJson callId name arguments
             :: tail (toolCalls _ st);
         metadataExtractor := metadataExtractor _ st;
         idsGenerated :=
           match tcd_id tool_calls with
           | Some _ => idsGenerated _ st
           | None => S (idsGenerated _ st)
           end |}
      (Normal tt).
Proof.
  intros Htype Hname arguments callId. subst arguments callId.
  unfold processToolCalls. rewrite Htype, Hname.
  unfold delta_parts, delta_slot, delta_first, delta_buffer, JS.nullish.
  destruct st as [fr u fc tcs ex n].
  destruct (tcd_id tool_calls) as [callId|],
    (wf_arguments (tcd_function tool_calls)) as [a|];
    cbn [from_option]; unfold Datatypes.id.
  1,3: destruct (isParsableJson a) eqn:E1,
         (isParsableJson (a +:+ a)) eqn:E2,
         (0 <? String.length a)%nat eqn:E0, tcs;
       (etransitivity; [run | reflexivity]).
  all: destruct (isParsableJson "") eqn:E1, tcs;
       (etransitivity; [run | reflexivity]).
Qed.

(** A chunk whose first choice carries a well-formed tool-call delta, from
    any state: the parts enqueued, and the state left behind. *)
Lemma transform_tool_call_delta (st : State) value choice delta tool_calls
    name :
  ch_choices value !! 0 = Some choice ->
  cc_delta choice = Some delta ->
  d_tool_calls delta = Some tool_calls ->
  tcd_type tool_calls = Some "function" ->
  wf_name (tcd_function tool_calls) = Some name ->
  let arguments := wf_arguments (tcd_function tool_calls) in
  let callId :=
    JS.nullish (tcd_id tool_calls) (generateId (idsGenerated _ st)) in
  let r := transform (ParseSuccess (Chunk value)) st in
  result r = Normal tt
  /\ emitted r
     = (if isFirstChunk _ st
        then [ResponseMetadataPart
                (getResponseMetadata (ch_id value) (ch_model value)
                   (ch_created value))]
        else [])
       ++ match d_content delta with
          | Some content => [TextDelta content]
          | None => []
          end
       ++ delta_parts isParsableJson callId name arguments
  /\ toolCalls _ (after r)
     = delta_slot isParsableJson callId name arguments
         :: tail (toolCalls _ st)
  /\ finishReason _ (after r) = finishReason _ st
  /\ isFirstChunk _ (after r) = false.
Proof.
  intros Hchoice Hdelta Htool Htype Hname arguments callId r.
  subst arguments callId r.
  destruct st as [fr u fc tcs ex n].
  destruct fc, (ch_usage value) as [wu|] eqn:Husage,
    (d_content delta) as [content|] eqn:Hcontent.
  all: match goal with
       | |- context [transform ?c ?s] =>
           let R := fresh "R" in
           let H := fresh "H" in
           evar (R : Run State StreamPart unit);
           assert (H : transform c s = R);
           [ subst R; unfold transform, announce; rewrite Hchoice;
             cbn [mbind option_bind];
             rewrite Hdelta, Htool, Husage, Hcontent;
             run_with
               ltac:(erewrite processToolCalls_run by eassumption;
                     cbn [finishReason usage isFirstChunk toolCalls
                          metadataExtractor idsGenerated];
                     reflexivity)
           | subst R; rewrite H; cbn; auto ]
       end.
Qed.

(** Sequencing after an action that completes normally, one field of the
    run at a time. *)
Lemma bind_result {A B} (m : Tx Extractor A) (f : A -> Tx Extractor B) s a :
  result (m s) = Normal a ->
  result ((m ≫= f) s) = result (f a (after (m s))).
Proof. intros H. unfold mbind, Eff_bind, bindE. by rewrite H. Qed.

Lemma bind_after {A B} (m : Tx Extractor A) (f : A -> Tx Extractor B) s a :
  result (m s) = Normal a ->
  after ((m ≫= f) s) = after (f a (after (m s))).
Proof. intros H. unfold mbind, Eff_bind, bindE. by rewrite H. Qed.

Lemma bind_emitted {A B} (m : Tx Extractor A) (f : A -> Tx Extractor B) s a :
  result (m s) = Normal a ->
  emitted ((m ≫= f) s) = emitted (m s) ++ emitted (f a (after (m s))).
Proof. intros H. unfold mbind, Eff_bind, bindE. by rewrite H. Qed.

(** The same for the chunks [tool_call_chunk] builds. *)
Lemma transform_tool_call_chunk (st : State) id name arguments :
  let callId := JS.nullish id (generateId (idsGenerated _ st)) in
  let r := transform (tool_call_chunk id (Some name) arguments) st in
  result r = Normal tt
  /\ emitted r
     = (if isFirstChunk _ st
        then [ResponseMetadataPart (getResponseMetadata None None None)]
        else [])
       ++ delta_parts isParsableJson callId name arguments
  /\ toolCalls _ (after r)
     = delta_slot isParsableJson callId name arguments
         :: tail (toolCalls _ st)
  /\ finishReason _ (after r) = finishReason _ st
  /\ isFirstChunk _ (after r) = false.
Proof.
  unfold tool_call_chunk.
  pose (tool_calls :=
          {| tcd_id := id; tcd_type := Some "function";
             tcd_function :=
               {| wf_name := Some name; wf_arguments := arguments |} |}).
  pose (delta := {| d_content := None; d_reasoning_content := None;
                    d_tool_calls := Some tool_calls |}).
  pose (choice := {| cc_delta := Some delta; cc_finish_reason := None |}).
  exact (transform_tool_call_delta st
           {| ch_id := None; ch_created := None; ch_model := None;
              ch_choices := [choice]; ch_usage := None |}
           choice delta tool_calls name
           eq_refl eq_refl eq_refl eq_refl eq_refl).
Qed.

(** C1 fails on the code at two tool-call deltas with the fragments [[1,]
    and [2]]: every delta replaces slot 0 and then appends its own fragment
    to the copy it has just stored, so the buffer ends as [2]2]], not
    [[1,2]], and each delta enqueues two [tool-call-delta] parts. *)
Theorem tool_call_buffer_is_replaced (extractor : option Extractor)
    (ids : nat) :
  let run :=
    (transform (tool_call_chunk (Some "call-1") (Some "f") (Some "[1,"));;
     transform (tool_call_chunk (Some "call-1") (Some "f") (Some "2]")))
      (initialState extractor ids) in
  result run = Normal tt
  /\ slot_arguments <$> toolCalls _ (after run) !! 0 = Some "2]2]"
  /\ List.filter is_tool_call_delta (emitted run)
     = [ToolCallDelta "call-1" "f" "[1,"; ToolCallDelta "call-1" "f" "[1,";
        ToolCallDelta "call-1" "f" "2]"; ToolCallDelta "call-1" "f" "2]"].
Proof.
  intros run. subst run.
  destruct (transform_tool_call_chunk (initialState extractor ids)
              (Some "call-1") "f" (Some "[1,"))
    as (R1 & E1 & _ & _ & F1).
  rewrite (bind_result _ _ _ tt), (bind_after _ _ _ tt),
    (bind_emitted _ _ _ tt) by exact R1.
  match goal with
  | |- context [after ?r1] =>
      destruct (transform_tool_call_chunk (after r1) (Some "call-1") "f"
                  (Some "2]"))
        as (R2 & E2 & T2 & _)
  end.
  split; [exact R2|]. split.
  - rewrite T2. reflexivity.
  - rewrite E1, E2, F1, !List.filter_app.
    unfold delta_parts, delta_first, delta_buffer.
    cbn [initialState isFirstChunk JS.nullish default from_option
         Datatypes.id app List.filter is_tool_call_delta].
    destruct (isParsableJson "[1,"), (isParsableJson ("[1," +:+ "[1,")),
      (isParsableJson "2]"), (isParsableJson ("2]" +:+ "2]"));
      reflexivity.
Qed.

(** C3 fails on the code at a delta that completes the call followed by one
    more delta for the same call: the first delta (arguments [{}]) marks slot
    0 finished, the second (fragment [x]) replaces the slot by a new one
    whose mark is [false] again. *)
Theorem finished_slot_is_reopened (extractor : option Extractor)
    (ids : nat) :
  isParsableJson "{}" = true ->
  isParsableJson "x" = false ->
  isParsableJson "xx" = false ->
  let r1 :=
    transform (tool_call_chunk (Some "call-1") (Some "f") (Some "{}"))
      (initialState extractor ids) in
  let r2 :=
    transform (tool_call_chunk (Some "call-1") (Some "f") (Some "x"))
      (after r1) in
  result r1 = Normal tt
  /\ hasFinished <$> toolCalls _ (after r1) !! 0 = Some true
  /\ result r2 = Normal tt
  /\ hasFinished <$> toolCalls _ (after r2) !! 0 = Some false.
Proof.
  intros Hobject Hx Hxx r1 r2. subst r1 r2.
  destruct (transform_tool_call_chunk (initialState extractor ids)
              (Some "call-1") "f" (Some "{}"))
    as (R1 & _ & T1 & _).
  match goal with
  | |- context [after ?r1] =>
      destruct (transform_tool_call_chunk (after r1) (Some "call-1") "f"
                  (Some "x"))
        as (R2 & _ & T2 & _)
  end.
  split; [exact R1|]. split.
  - rewrite T1. unfold delta_slot, delta_first, delta_buffer.
    cbn [JS.nullish default from_option Datatypes.id fmap option_fmap
         option_map lookup list_lookup hasFinished].
    by rewrite Hobject.
  - split; [exact R2|].
    rewrite T2. unfold delta_slot, delta_first, delta_buffer.
    cbn [JS.nullish default from_option Datatypes.id fmap option_fmap
         option_map lookup list_lookup hasFinished].
    change ("x" +:+ "x") with "xx". by rewrite Hx, Hxx.
Qed.

(** C5 fails on the code at a stream of one chunk with the finish reason
    [stop]: the stream closes normally with exactly one [finish] part, last,
    with NaN for both counters, but the part carries [unknown]; the transform
    never reads [finish_reason]. *)
Theorem chat_stream_drops_finish_reason (ids : nat) :
  let run := pipeThrough [finish_reason_chunk "stop"] (initialState None ids) in
  result run = Normal tt
  /\ emitted run
     = [ResponseMetadataPart (getResponseMetadata None None None);
        Finish FinishUnknown
          {| promptTokens := JS.NaN; completionTokens := JS.NaN |} None].
Proof. split; reflexivity. Qed.

(** *** The finish part of a stream that closes normally *)

Ltac preserves_step :=
  first
    [ apply preserves_bind; [|intros ?]
    | apply preserves_when
    | apply preserves_ret
    | apply preserves_throw
    | apply preserves_liftC
    | apply preserves_get
    | apply preserves_emit; reflexivity
    | apply preserves_modify; intros [] ?; assumption ].

Lemma processToolCalls_preserves tool_calls :
  preserves reason_invariant not_finish (processToolCalls tool_calls).
Proof.
  unfold processToolCalls, finishIfParsable, slot0, update_slot0, freshId,
    mbind, Eff_bind.
  destruct (negb _); [apply preserves_throw|].
  destruct (wf_name _); [|apply preserves_throw].
  destruct (tcd_id tool_calls), (wf_arguments (tcd_function tool_calls)).
  all: repeat first
         [ preserves_step
         | match goal with
           | |- preserves _ _ (match ?x with _ => _ end) => destruct x
           end
         | apply preserves_modify; intros [? ? ? [|] ? ?] ?; assumption
         | intros [] ?; split; [assumption | constructor] ].
Qed.

Lemma transform_preserves chunk :
  preserves reason_invariant not_finish (transform chunk).
Proof.
  unfold transform, announce, mbind, Eff_bind.
  destruct chunk as [[value|[error|]]|error].
  all: repeat first
         [ apply processToolCalls_preserves
         | preserves_step
         | match goal with
           | |- preserves _ _ (match ?x with _ => _ end) => destruct x
           end
         | apply preserves_modify; intros; right; reflexivity ].
Qed.

(** A stream that closes normally delivers exactly one [finish] part, as its
    last part, and the reason it carries is [unknown] or [error], never a
    reason mapped from a chunk. *)
Lemma chat_stream_finish chunks : forall st : State,
  reason_invariant st ->
  result (pipeThrough chunks st) = Normal tt ->
  exists parts reason usage metadata,
    emitted (pipeThrough chunks st) = parts ++ [Finish reason usage metadata]
    /\ Forall not_finish parts
    /\ unknown_or_error reason.
Proof.
  induction chunks as [|chunk chunks IH]; intros st Hst Hrun.
  - exists [], (finishReason _ st). eexists _, _.
    split; [reflexivity|]. by split.
  - cbn [pipeThrough] in *.
    destruct (transform_preserves chunk st Hst) as [Hst' Hparts].
    destruct (result (transform chunk st)) as [[]|e] eqn:Hchunk.
    + rewrite (bind_result _ _ _ tt) in Hrun by exact Hchunk.
      rewrite (bind_emitted _ _ _ tt) by exact Hchunk.
      destruct (IH _ Hst' Hrun) as (parts & reason & usage & md & -> & ? & ?).
      exists (emitted (transform chunk st) ++ parts), reason, usage, md.
      split; [by rewrite app_assoc|]. split; [by apply Forall_app | done].
    + unfold mbind, Eff_bind, bindE in Hrun. rewrite Hchunk in Hrun.
      discriminate.
Qed.

End ChatStreamFacts.

Lemma tool_call_delta_without_name_throws_witness :
  (exists message,
     result
       (transform (accepts []) constant_id unit ignore_chunk
          (tool_call_chunk (Some "call-1") None (Some "{}"))
          {| finishReason := FinishUnknown;
             usage := {| su_promptTokens := None;
                         su_completionTokens := None |};
             isFirstChunk := false;
             toolCalls :=
               [{| slot_id := "call-1"; slot_name := "f";
                   slot_arguments := "{"; hasFinished := false |}];
             metadataExtractor := None;
             idsGenerated := 0 |})
     = Throw (InvalidResponseDataError message))
  /\ List.filter is_error_part
       (emitted
          (transform (accepts []) constant_id unit ignore_chunk
             (tool_call_chunk (Some "call-1") None (Some "{}"))
             {| finishReason := FinishUnknown;
                usage := {| su_promptTokens := None;
                            su_completionTokens := None |};
                isFirstChunk := false;
                toolCalls :=
                  [{| slot_id := "call-1"; slot_name := "f";
                      slot_arguments := "{"; hasFinished := false |}];
                metadataExtractor := None;
                idsGenerated := 0 |}))
     = [].
Proof.
  unfold tool_call_chunk.
  eapply (tool_call_delta_without_name_throws (accepts []) constant_id unit
            ignore_chunk); reflexivity.
Defined.

Lemma finished_slot_is_reopened_witness :
  hasFinished
    <$> toolCalls unit
          (after
             (transform (accepts ["{}"]) constant_id unit ignore_chunk
                (tool_call_chunk (Some "call-1") (Some "f") (Some "x"))
                (after
                   (transform (accepts ["{}"]) constant_id unit ignore_chunk
                      (tool_call_chunk (Some "call-1") (Some "f")
                         (Some "{}"))
                      (initialState unit None 0)))))
        !! 0
  = Some false.
Proof.
  exact (proj2 (proj2 (proj2
           (finished_slot_is_reopened (accepts ["{}"]) constant_id unit
              ignore_chunk None 0 eq_refl eq_refl eq_refl)))).
Defined.

(** The completion model's transform, on the same stream, does carry the
    reason to the [finish] part. *)
Lemma completion_stream_keeps_finish_reason :
  emitted
    (CompletionModel.pipeThrough [completion_finish_reason_chunk "stop"]
       CompletionModel.initialState)
  = [ResponseMetadataPart (getResponseMetadata None None None);
     TextDelta "";
     Finish FinishStop
       {| promptTokens := JS.NaN; completionTokens := JS.NaN |} None].
Proof. reflexivity. Qed.

(** ** The models: [doGenerate] and simulated streaming *)

Lemma nullish_normalizes (field : option float) :
  normalizes field (JS.nullish field JS.NaN).
Proof.
  unfold normalizes, JS.nullish.
  destruct field as [n|]; cbn [default from_option Datatypes.id].
  - split; [done|]. split; [by intros n' [= ->]|].
    intros Hnumber. split; [|done].
    intros Hnan. specialize (Hnumber n eq_refl).
    unfold is_number in Hnumber. rewrite Hnan in Hnumber.
    by vm_compute in Hnumber.
  - split; [done|]. split; [done|]. done.
Qed.

Lemma streamed_text_app (xs ys : list StreamPart) :
  streamed_text (xs ++ ys) = streamed_text xs +:+ streamed_text ys.
Proof.
  induction xs as [|x xs IH]; [reflexivity|].
  cbn [app streamed_text fold_right]. fold (streamed_text (xs ++ ys)).
  fold (streamed_text xs). by rewrite IH, string_app_assoc.
Qed.

Lemma streamed_text_tool_calls (toolCalls : list ToolCallResult) :
  streamed_text (map ToolCallPart toolCalls) = "".
Proof. by induction toolCalls. Qed.

Lemma streamed_text_deltas_single (t : string) :
  streamed_text (map TextDelta (expected_text_deltas (Some t))) = t.
Proof.
  unfold expected_text_deltas.
  destruct (String.eqb_spec t "") as [->|_]; [reflexivity|].
  cbn [map streamed_text fold_right text_of]. apply string_app_nil_r.
Qed.

Section ModelFacts.

Variable isParsableJson : string -> bool.
Variable generateId : nat -> string.
Variable Extractor : Type.
Variable processChunk : Extractor -> ChunkValue -> Extractor.
Variable buildMetadata : Extractor -> option ProviderMetadata.
Variable config_metadataExtractor :
  option ((SparkChatResponse -> option ProviderMetadata) * Extractor).
Variable simulateStreaming : bool.
Variable CallOptions Args : Type.
Variable getArgs : CallOptions -> Completion (Args * list CallWarning).
Variable config_url : string -> Completion string.
Variable config_headers : Completion JS.Obj.
Variable options_headers : CallOptions -> option JS.Obj.
Variable combineHeaders : JS.Obj -> option JS.Obj -> JS.Obj.
Variable jsonResponse : Request Args -> Completion SparkChatResponse.
Variable eventSourceResponse : Request Args -> Completion (list ParseResult).

Variable completionGetArgs :
  CallOptions -> Completion (Args * list CallWarning).
Variable completionJsonResponse :
  Request Args -> Completion SparkCompletionResponse.

Local Abbreviation doGenerate :=
  (doGenerate generateId Extractor config_metadataExtractor CallOptions Args
     getArgs config_url config_headers options_headers combineHeaders
     jsonResponse).
Local Abbreviation doStream :=
  (doStream isParsableJson generateId Extractor processChunk buildMetadata
     config_metadataExtractor simulateStreaming CallOptions Args getArgs
     config_url config_headers options_headers combineHeaders
     jsonResponse eventSourceResponse).
Local Abbreviation completionDoGenerate :=
  (CompletionModel.doGenerate CallOptions Args completionGetArgs
     config_url config_headers options_headers combineHeaders
     completionJsonResponse).

(** C8: in both models, when the request is built and the transport returns
    a body with a first choice, [doGenerate] returns a result whose
    [promptTokens] and [completionTokens] are NaN when the corresponding
    usage field is missing, the reported number otherwise, and (a reported
    number being a number) NaN only when it is missing. *)
Theorem usage_counters_normalize :
  (forall options args warnings url headers body ids,
     getArgs options = Normal (args, warnings) ->
     config_url "/chat/completions" = Normal url ->
     config_headers = Normal headers ->
     jsonResponse
       {| req_path := "/chat/completions"; req_url := url;
          req_headers := combineHeaders headers (options_headers options);
          req_body := args; req_stream := false |} = Normal body ->
     r_choices body <> [] ->
     exists res,
       result (doGenerate options ids) = Normal res
       /\ normalizes (r_usage body ≫= prompt_tokens)
            (promptTokens (gr_usage res))
       /\ normalizes (r_usage body ≫= completion_tokens)
            (completionTokens (gr_usage res)))
  /\ (forall options args warnings url headers body,
        completionGetArgs options = Normal (args, warnings) ->
        config_url "/completions" = Normal url ->
        config_headers = Normal headers ->
        completionJsonResponse
          {| req_path := "/completions"; req_url := url;
             req_headers :=
               combineHeaders headers (options_headers options);
             req_body := args; req_stream := false |} = Normal body ->
        cr_choices body <> [] ->
        exists res,
          result (completionDoGenerate options tt) = Normal res
          /\ normalizes (cu_prompt_tokens <$> cr_usage body)
               (promptTokens (gr_usage res))
          /\ normalizes (cu_completion_tokens <$> cr_usage body)
               (completionTokens (gr_usage res))).
Proof.
  split.
  - intros options args warnings url headers body ids Hargs Hurl Hheaders
      Hbody Hchoices.
    unfold doGenerate, mbind, Eff_bind, bindE, liftC, postJsonToApi.
    rewrite Hargs. cbn [result after emitted fst snd].
    rewrite Hurl. cbn [result after emitted].
    rewrite Hheaders. cbn [result after emitted]. rewrite Hbody.
    cbn [result after emitted].
    destruct (r_choices body) as [|choice rest]; [done|].
    cbn [lookup list_lookup].
    destruct (m_tool_calls (c_message choice)) as [tool_calls|];
      [destruct (tc_id tool_calls)|];
      eexists; (split; [reflexivity|]); split; apply nullish_normalizes.
  - intros options args warnings url headers body Hargs Hurl Hheaders
      Hbody Hchoices.
    unfold completionDoGenerate, mbind, Eff_bind, bindE, liftC.
    rewrite Hargs. cbn [result after emitted fst snd].
    rewrite Hurl. cbn [result after emitted].
    rewrite Hheaders. cbn [result after emitted]. rewrite Hbody.
    cbn [result after emitted].
    destruct (cr_choices body) as [|choice rest]; [done|].
    eexists; (split; [reflexivity|]); split; apply nullish_normalizes.
Qed.

(** A [doGenerate] that returns has sent exactly one request, without the
    [stream] flag. *)
Lemma doGenerate_one_request options ids res :
  result (doGenerate options ids) = Normal res ->
  exists req,
    emitted (doGenerate options ids) = [req]
    /\ req_path req = "/chat/completions"
    /\ req_stream req = false.
Proof.
  unfold doGenerate, mbind, Eff_bind, bindE, liftC, postJsonToApi, nextId.
  destruct (getArgs options) as [[args warnings]|e];
    cbn [result after emitted fst snd]; [|discriminate].
  destruct (config_url _) as [url|e];
    cbn [result after emitted]; [|discriminate].
  destruct config_headers as [headers|e];
    cbn [result after emitted]; [|discriminate].
  destruct (jsonResponse _) as [body|e];
    cbn [result after emitted]; [|discriminate].
  destruct (r_choices body !! 0) as [choice|];
    cbn [result after emitted]; [|discriminate].
  intros _.
  destruct (m_tool_calls (c_message choice)) as [tool_calls|];
    [destruct (tc_id tool_calls)|];
    (eexists; split; [reflexivity | split; reflexivity]).
Qed.

Lemma simulatedStream_shape (res : GenerateResult) :
  simulatedStream res
  = [ResponseMetadataPart (gr_response res)]
    ++ map TextDelta (expected_text_deltas (gr_text res))
    ++ map ToolCallPart (default [] (gr_toolCalls res))
    ++ [Finish (gr_finishReason res) (gr_usage res)
          (gr_providerMetadata res)].
Proof.
  unfold simulatedStream, expected_text_deltas.
  destruct (gr_text res) as [t|], (gr_toolCalls res) as [calls|];
    cbn [JS.truthy default from_option Datatypes.id];
    try destruct (String.eqb t ""); reflexivity.
Qed.

Lemma simulatedStream_text (res : GenerateResult) :
  streamed_text (simulatedStream res) = default "" (gr_text res).
Proof.
  rewrite simulatedStream_shape, !streamed_text_app,
    streamed_text_tool_calls.
  destruct (gr_text res) as [t|].
  - rewrite streamed_text_deltas_single.
    cbn [streamed_text fold_right text_of default from_option Datatypes.id].
    change ("" +:+ ?x) with x. by rewrite string_app_nil_r.
  - reflexivity.
Qed.

(** C7: with [simulateStreaming] enabled, a [doStream] whose one
    [doGenerate] call returns sends exactly that call's request (not a
    streaming one) and delivers, in this order, the response metadata, the
    text deltas, the tool calls and the finish part; the text deltas
    concatenate to the result's text (to the empty text when the result has
    none), and the finish part carries the result's finish reason and
    usage. *)
Theorem simulated_streaming options ids res :
  simulateStreaming = true ->
  result (doGenerate options ids) = Normal res ->
  (exists req,
     emitted (doStream options ids) = [req]
     /\ emitted (doGenerate options ids) = [req]
     /\ req_stream req = false)
  /\ exists stream,
       result (doStream options ids) = Normal stream
       /\ sr_end stream = Normal tt
       /\ sr_stream stream
          = [ResponseMetadataPart (gr_response res)]
            ++ map TextDelta (expected_text_deltas (gr_text res))
            ++ map ToolCallPart (default [] (gr_toolCalls res))
            ++ [Finish (gr_finishReason res) (gr_usage res)
                  (gr_providerMetadata res)]
       /\ streamed_text (sr_stream stream) = default "" (gr_text res).
Proof.
  intros Hsimulate Hres.
  destruct (doGenerate_one_request options ids res Hres)
    as (req & Hreq & _ & Hflag).
  unfold doStream. rewrite Hsimulate.
  unfold mbind, Eff_bind, bindE. rewrite Hres.
  cbn [retE emitted after result]. rewrite app_nil_r.
  split; [by exists req|].
  eexists. split; [reflexivity|]. cbn [sr_end sr_stream].
  split; [reflexivity|]. split.
  - apply simulatedStream_shape.
  - apply simulatedStream_text.
Qed.

End ModelFacts.

Lemma usage_counters_normalize_witness :
  exists res,
    result
      (doGenerate constant_id unit None unit unit sample_getArgs
         sample_url sample_headers no_headers spread_headers
         sample_jsonResponse tt 0)
    = Normal res
    /\ normalizes (Some 3%float) (promptTokens (gr_usage res))
    /\ normalizes None (completionTokens (gr_usage res)).
Proof.
  apply (proj1 (usage_counters_normalize constant_id unit None unit unit
                  sample_getArgs sample_url sample_headers no_headers
                  spread_headers sample_jsonResponse sample_getArgs
                  sample_completionJsonResponse)
           tt tt [] _ _ sample_response 0 eq_refl eq_refl eq_refl eq_refl).
  discriminate.
Defined.

Lemma simulated_streaming_witness :
  exists stream,
    result
      (doStream (accepts []) constant_id unit ignore_chunk no_metadata None
         true unit unit sample_getArgs sample_url sample_headers
         no_headers spread_headers sample_jsonResponse
         sample_eventSourceResponse tt 0)
    = Normal stream
    /\ sr_end stream = Normal tt
    /\ sr_stream stream
       = [ResponseMetadataPart (gr_response sample_result)]
         ++ map TextDelta (expected_text_deltas (gr_text sample_result))
         ++ map ToolCallPart (default [] (gr_toolCalls sample_result))
         ++ [Finish (gr_finishReason sample_result) (gr_usage sample_result)
               (gr_providerMetadata sample_result)]
    /\ streamed_text (sr_stream stream) = default "" (gr_text sample_result).
Proof.
  exact (proj2 (simulated_streaming (accepts []) constant_id unit
                  ignore_chunk no_metadata None true unit unit
                  sample_getArgs sample_url sample_headers no_headers
                  spread_headers sample_jsonResponse
                  sample_eventSourceResponse tt 0 sample_result
                  eq_refl eq_refl)).
Defined.

(** * Further properties *)

(** ** The chat converter on whole prompts *)

Lemma foldC_push {A B} (f : A -> Completion (list B)) (xs : list A) :
  forall acc,
    foldC (fun messages x => pushed ← f x; Normal (messages ++ pushed))
      acc xs
    = bindC (foldC (fun messages x => pushed ← f x;
                                     Normal (messages ++ pushed)) [] xs)
        (fun ms => Normal (acc ++ ms)).
Proof.
  induction xs as [|x xs IH]; intros acc; cbn [foldC].
  - cbn. by rewrite app_nil_r.
  - unfold mbind, Completion_bind in *.
    destruct (f x) as [pushed|e]; cbn [bindC]; [|reflexivity].
    cbn [app]. rewrite (IH (acc ++ pushed)), (IH pushed).
    destruct (foldC _ [] xs) as [ms|e]; cbn [bindC]; [|reflexivity].
    by rewrite app_assoc.
Qed.

Section ChatPromptFacts.

Variable JSON_stringify : JS.Val -> string.
Variable convertUint8ArrayToBase64 : list Byte.byte -> string.

Local Abbreviation convertMessage :=
  (convertMessage JSON_stringify convertUint8ArrayToBase64).
Local Abbreviation convertToSparkChatMessages :=
  (convertToSparkChatMessages JSON_stringify convertUint8ArrayToBase64).

Lemma convert_app (p1 p2 : Prompt) :
  convertToSparkChatMessages (p1 ++ p2)
  = bindC (convertToSparkChatMessages p1) (fun ms1 =>
      bindC (convertToSparkChatMessages p2) (fun ms2 =>
        Normal (ms1 ++ ms2))).
Proof.
  unfold convertToSparkChatMessages. rewrite foldC_app.
  destruct (foldC _ [] p1) as [ms1|e]; cbn [bindC]; [|reflexivity].
  apply foldC_push.
Qed.

(** X1: converting a prompt is converting its pieces: the messages of
    [p1 ++ p2] are those of [p1] followed by those of [p2], and an error of
    [p1] comes before one of [p2]; no message is converted in the light of
    its neighbours. *)
Theorem chat_messages_app (p1 p2 : Prompt) :
  convertToSparkChatMessages (p1 ++ p2)
  = bindC (convertToSparkChatMessages p1) (fun ms1 =>
      bindC (convertToSparkChatMessages p2) (fun ms2 =>
        Normal (ms1 ++ ms2))).
Proof. apply convert_app. Qed.

Lemma convertUserParts_file (content : list UserPart) :
  match mapC (convertUserPart convertUint8ArrayToBase64) content with
  | Normal parts =>
      existsb is_file_part content = false
      /\ length parts = length content
  | Throw e =>
      existsb is_file_part content = true
      /\ e = UnsupportedFunctionalityError
               "File content parts in user messages"
  end.
Proof.
  induction content as [|part content IH]; cbn [mapC existsb]; [done|].
  unfold mbind, Completion_bind.
  destruct part as [text pm | image mime pm | data mime pm];
    cbn [convertUserPart bindC is_file_part orb]; [| |done].
  all: destruct (mapC _ content) as [parts|e]; cbn [bindC length];
    destruct IH as [IH1 IH2]; split; congruence.
Qed.

Lemma convertMessage_outcome (m : Message) :
  match convertMessage m with
  | Normal pushed =>
      has_file_part m = false /\ length pushed = message_count m
  | Throw e =>
      has_file_part m = true
      /\ e = UnsupportedFunctionalityError
               "File content parts in user messages"
  end.
Proof.
  destruct m as [c pm | content pm | content pm | content pm];
    cbn [convertMessage has_file_part message_count].
  - done.
  - assert (Hgeneral :
      match
        parts ← mapC (convertUserPart convertUint8ArrayToBase64) content;
        Normal [JS.spread
                  [("role", JS.VStr "user"); ("content", JS.VArr parts)]
                  (getSparkMetadata pm)]
      with
      | Normal pushed =>
          existsb is_file_part content = false /\ length pushed = 1
      | Throw e =>
          existsb is_file_part content = true
          /\ e = UnsupportedFunctionalityError
                   "File content parts in user messages"
      end).
    { unfold mbind, Completion_bind.
      pose proof (convertUserParts_file content) as H.
      destruct (mapC _ content); cbn [bindC]; [|done].
      by destruct H. }
    destruct content as [|[text partPm | | ] [|part' content']];
      exact Hgeneral.
  - destruct (fold_left _ _ _). done.
  - by rewrite length_map.
Qed.

Lemma convert_outcome (prompt : Prompt) :
  match convertToSparkChatMessages prompt with
  | Normal messages =>
      existsb has_file_part prompt = false
      /\ length messages = list_sum (map message_count prompt)
  | Throw e =>
      existsb has_file_part prompt = true
      /\ e = UnsupportedFunctionalityError
               "File content parts in user messages"
  end.
Proof.
  induction prompt as [|m prompt IH].
  - done.
  - change (m :: prompt) with ([m] ++ prompt).
    rewrite convert_app.
    assert (Hone : convertToSparkChatMessages [m]
                   = bindC (convertMessage m) (fun pushed => Normal pushed)).
    { unfold convertToSparkChatMessages. cbn [foldC].
      unfold mbind, Completion_bind.
      by destruct (convertMessage m). }
    rewrite Hone. pose proof (convertMessage_outcome m) as Hm.
    destruct (convertMessage m) as [pushed|e]; cbn [bindC].
    + destruct Hm as [Hfile Hlen].
      destruct (convertToSparkChatMessages prompt) as [ms|e];
        cbn [bindC app existsb map list_sum fold_right];
        rewrite Hfile; cbn [orb]; destruct IH as [IH1 IH2];
        split; try done.
      rewrite length_app. unfold list_sum in IH2. lia.
    + destruct Hm as [Hfile ->]. cbn [app existsb]. rewrite Hfile. done.
Qed.

(** X2: [convertToSparkChatMessages] fails exactly on a prompt with a file
    part in a user message, and then with the unsupported-functionality
    error for file parts; otherwise it returns one message per system, user
    and assistant message and one per result of a tool message. *)
Theorem chat_messages_outcome (prompt : Prompt) :
  match convertToSparkChatMessages prompt with
  | Normal messages =>
      existsb has_file_part prompt = false
      /\ length messages = list_sum (map message_count prompt)
  | Throw e =>
      existsb has_file_part prompt = true
      /\ e = UnsupportedFunctionalityError
               "File content parts in user messages"
  end.
Proof. apply convert_outcome. Qed.

End ChatPromptFacts.

(** ** Objects and the spread of metadata *)

Lemma get_set_eq k v (o : JS.Obj) : JS.get k (JS.set k v o) = Some v.
Proof.
  induction o as [|[k' v'] o IH]; cbn [JS.set JS.get].
  - by rewrite String.eqb_refl.
  - destruct (String.eqb k k') eqn:E; cbn [JS.get]; rewrite E; done.
Qed.

Lemma get_set_ne k k' v (o : JS.Obj) :
  k <> k' -> JS.get k (JS.set k' v o) = JS.get k o.
Proof.
  intros Hne. induction o as [|[k'' v''] o IH]; cbn [JS.set JS.get].
  - by apply String.eqb_neq in Hne as ->.
  - destruct (String.eqb k' k'') eqn:E; cbn [JS.get].
    + apply String.eqb_eq in E as <-.
      by apply String.eqb_neq in Hne as ->.
    + by rewrite IH.
Qed.

Lemma get_spread_miss k (extra : JS.Obj) : forall o : JS.Obj,
  JS.get k extra = None -> JS.get k (JS.spread o extra) = JS.get k o.
Proof.
  unfold JS.spread.
  induction extra as [|[k' v'] extra IH]; intros o H; cbn [fold_left];
    [done|].
  cbn [JS.get] in H. destruct (String.eqb k k') eqn:E; [done|].
  rewrite IH by done. cbn [fst snd]. apply get_set_ne.
  by apply String.eqb_neq.
Qed.

Lemma get_spread_hit k v (extra : JS.Obj) : forall o : JS.Obj,
  NoDup (map fst extra) ->
  JS.get k extra = Some v -> JS.get k (JS.spread o extra) = Some v.
Proof.
  unfold JS.spread.
  induction extra as [|[k' v'] extra IH]; intros o Hdup H; [done|].
  cbn [fold_left fst snd]. cbn [JS.get] in H.
  apply NoDup_cons in Hdup as [Hfresh Hdup].
  destruct (String.eqb k k') eqn:E.
  - apply String.eqb_eq in E as <-. injection H as ->.
    fold (JS.spread (JS.set k v o) extra).
    rewrite get_spread_miss; [apply get_set_eq|].
    destruct (JS.get k extra) eqn:Hget; [|done].
    exfalso. apply Hfresh. clear -Hget.
    induction extra as [|[k'' v''] extra IH]; [done|].
    cbn [JS.get] in Hget. cbn [map fst].
    destruct (String.eqb k k'') eqn:E.
    + apply String.eqb_eq in E as <-. by left.
    + right. by apply IH.
  - by apply IH.
Qed.

Section ChatMetadataFacts.

Variable JSON_stringify : JS.Val -> string.
Variable convertUint8ArrayToBase64 : list Byte.byte -> string.

Local Abbreviation convertToSparkChatMessages :=
  (convertToSparkChatMessages JSON_stringify convertUint8ArrayToBase64).

(** X3: a tool message with K results is converted to K messages, whatever
    metadata the tool message itself has; the i-th has the role [tool], the
    [tool_call_id] of the i-th result and its JSON-stringified result as
    [content], for each of these keys the result's spark metadata does not
    set. *)
Theorem tool_message_fan_out (content : list ToolResultPart) pm :
  exists messages,
    convertToSparkChatMessages [Tool content pm] = Normal messages
    /\ length messages = length content
    /\ forall i r k,
         content !! i = Some r ->
         JS.get k (getSparkMetadata (tr_providerMetadata r)) = None ->
         messages !! i ≫= JS.get k
         = JS.get k
             [("role", JS.VStr "tool");
              ("tool_call_id", JS.VStr (tr_toolCallId r));
              ("content", JS.VStr (JSON_stringify (tr_result r)))].
Proof.
  eexists. split; [reflexivity|]. cbn [app]. split; [by rewrite length_map|].
  intros i r k Hi Hk. rewrite list_lookup_fmap, Hi. cbn [fmap option_map mbind option_bind].
  by apply get_spread_miss.
Qed.

(** X4: the spark metadata of a system message is spread over the converted
    message last: a key it sets (also [role] or [content]) has the
    metadata's value, every other key the value of the plain message. *)
Theorem system_message_metadata content pm k :
  NoDup (map fst (getSparkMetadata pm)) ->
  exists message,
    convertToSparkChatMessages [System content pm] = Normal [message]
    /\ JS.get k message
       = match JS.get k (getSparkMetadata pm) with
         | Some v => Some v
         | None =>
             JS.get k [("role", JS.VStr "system");
                       ("content", JS.VStr content)]
         end.
Proof.
  intros Hdup. eexists. split; [reflexivity|].
  destruct (JS.get k (getSparkMetadata pm)) as [v|] eqn:Hk.
  - by apply get_spread_hit.
  - by apply get_spread_miss.
Qed.

End ChatMetadataFacts.

Lemma system_message_metadata_witness :
  exists message,
    convertToSparkChatMessages constant_json no_base64
      [System "rules" (Some [("spark", [("content", JS.VStr "other")])])]
    = Normal [message]
    /\ JS.get "content" message = Some (JS.VStr "other").
Proof.
  apply (system_message_metadata constant_json no_base64 "rules"
           (Some [("spark", [("content", JS.VStr "other")])]) "content").
  apply NoDup_singleton.
Defined.

(** ** The completion converter's transcript *)

Lemma mapC_first_error {A B} (f : A -> Completion B)
    (error_of : A -> option Exception) (g : A -> B) (xs : list A) :
  (forall x, f x = match error_of x with
                   | Some e => Throw e
                   | None => Normal (g x)
                   end) ->
  mapC f xs = match first_error error_of xs with
              | Some e => Throw e
              | None => Normal (map g xs)
              end.
Proof.
  intros Hf. induction xs as [|x xs IH]; cbn [mapC first_error map]; [done|].
  unfold mbind, Completion_bind. rewrite Hf.
  destruct (error_of x); cbn [bindC]; [done|].
  rewrite IH. by destruct (first_error error_of xs).
Qed.

Lemma renderMessage_closed user assistant text m :
  renderMessage user assistant text m
  = match message_error m with
    | Some e => Throw e
    | None => Normal (text +:+ rendered user assistant m)
    end.
Proof.
  destruct m as [c pm | content pm | content pm | content pm];
    cbn [renderMessage message_error rendered]; try done.
  - unfold mbind, Completion_bind.
    rewrite (mapC_first_error userPartText user_part_error user_part_text)
      by (by intros []).
    by destruct (first_error _ content).
  - unfold mbind, Completion_bind.
    rewrite (mapC_first_error assistantPartText assistant_part_error
               assistant_part_text)
      by (by intros []).
    by destruct (first_error _ content).
Qed.

Lemma foldC_renderMessage user assistant ms : forall text,
  foldC (renderMessage user assistant) text ms
  = match first_error message_error ms with
    | Some e => Throw e
    | None => Normal (text +:+ transcript user assistant ms)
    end.
Proof.
  induction ms as [|m ms IH]; intros text;
    cbn [foldC first_error transcript fold_right].
  - by rewrite string_app_nil_r.
  - unfold mbind, Completion_bind. rewrite renderMessage_closed.
    destruct (message_error m); cbn [bindC]; [done|].
    rewrite IH. destruct (first_error message_error ms); [done|].
    fold (transcript user assistant ms). by rewrite string_app_assoc.
Qed.

Lemma renderTranscript_closed prompt user assistant :
  renderTranscript prompt user assistant
  = match prompt with
    | [] => Throw TypeError
    | _ :: _ =>
        match first_error message_error (transcript_body prompt) with
        | Some e => Throw e
        | None =>
            Normal
              {| cp_prompt :=
                   (transcript_head prompt
                      +:+ transcript user assistant (transcript_body prompt))
                     +:+ assistant +:+ ":" +:+ LF;
                 cp_stopSequences := Some [LF +:+ user +:+ ":"] |}
        end
    end.
Proof.
  destruct prompt as [|first rest]; [done|].
  unfold renderTranscript, mbind, Completion_bind.
  destruct first as [c pm | c pm | c pm | c pm];
    cbn [transcript_body transcript_head];
    rewrite foldC_renderMessage;
    by destruct (first_error message_error _).
Qed.

Lemma completion_not_fast_path prompt inputFormat user assistant :
  inputFormat = FormatMessages \/ single_user_text prompt = false ->
  convertToSparkCompletionPrompt prompt inputFormat user assistant
  = renderTranscript prompt (JS.nullish user "user")
      (JS.nullish assistant "assistant").
Proof.
  unfold convertToSparkCompletionPrompt.
  intros [-> | Hslow]; [done|].
  destruct inputFormat; [|done].
  destruct prompt as [|[ | [|[] []] | | ] []]; done.
Qed.

(** X5: off the fast path, a prompt whose messages after a leading system
    message are user and assistant messages of text parts only is rendered
    as the system content and a blank line, one block [label:], text, blank
    line per message, and the assistant label and a colon to continue from;
    the stop sequence is a line feed, the user label and a colon.  The labels
    default to [user] and [assistant]. *)
Theorem completion_prompt_transcript prompt inputFormat user assistant :
  inputFormat = FormatMessages \/ single_user_text prompt = false ->
  prompt <> [] ->
  forallb renders (transcript_body prompt) = true ->
  convertToSparkCompletionPrompt prompt inputFormat user assistant
  = Normal
      {| cp_prompt :=
           (transcript_head prompt
              +:+ transcript (JS.nullish user "user")
                    (JS.nullish assistant "assistant")
                    (transcript_body prompt))
             +:+ JS.nullish assistant "assistant" +:+ ":" +:+ LF;
         cp_stopSequences := Some [LF +:+ JS.nullish user "user" +:+ ":"] |}.
Proof.
  intros Hslow Hne Hrenders.
  rewrite completion_not_fast_path, renderTranscript_closed by done.
  destruct prompt as [|first rest]; [done|].
  assert (Hnone : forall ms, forallb renders ms = true ->
                             first_error message_error ms = None).
  { induction ms as [|m ms IH]; cbn [forallb first_error]; [done|].
    intros [Hm Hms]%andb_true_iff. rewrite (IH Hms).
    assert (Hparts : forall {A} (ok : A -> bool) err (xs : list A),
              (forall x, ok x = true -> err x = None) ->
              forallb ok xs = true -> first_error err xs = None).
    { intros A ok err xs Hok. induction xs as [|x xs IHxs];
        cbn [forallb first_error]; [done|].
      intros [Hx Hxs]%andb_true_iff. by rewrite (Hok x Hx), IHxs. }
    destruct m as [c pm | c pm | c pm | c pm]; cbn [renders] in Hm;
      try discriminate; cbn [message_error].
    - assert (first_error user_part_error c = None) as ->; [|done].
      eapply Hparts; [|exact Hm]. by intros [].
    - assert (first_error assistant_part_error c = None) as ->; [|done].
      eapply Hparts; [|exact Hm]. by intros []. }
  by rewrite Hnone.
Qed.

(** X6: off the fast path, an empty prompt makes the completion converter
    throw a [TypeError], and otherwise the first message after a leading
    system message that cannot be rendered decides the error: a system
    message the prompt-shape error, a tool message, an image part or a
    tool-call part the unsupported-functionality error of its kind, a file
    part a plain error. *)
Theorem completion_prompt_first_error prompt inputFormat user assistant :
  inputFormat = FormatMessages \/ single_user_text prompt = false ->
  match prompt, first_error message_error (transcript_body prompt) with
  | [], _ =>
      convertToSparkCompletionPrompt prompt inputFormat user assistant
      = Throw TypeError
  | _ :: _, Some e =>
      convertToSparkCompletionPrompt prompt inputFormat user assistant
      = Throw e
  | _ :: _, None =>
      exists rendered_prompt,
        convertToSparkCompletionPrompt prompt inputFormat user assistant
        = Normal rendered_prompt
  end.
Proof.
  intros Hslow.
  rewrite completion_not_fast_path, renderTranscript_closed by done.
  destruct prompt as [|first rest]; [done|].
  destruct (first_error message_error _); eauto.
Qed.

Lemma completion_prompt_transcript_witness :
  convertToSparkCompletionPrompt
    [System "Be brief." None; User [UText "Hi" None] None;
     Assistant [AText "Hello" None] None]
    FormatPrompt None (Some "bot")
  = Normal
      {| cp_prompt :=
           "Be brief." +:+ LF +:+ LF
             +:+ "user:" +:+ LF +:+ "Hi" +:+ LF +:+ LF
             +:+ "bot:" +:+ LF +:+ "Hello" +:+ LF +:+ LF
             +:+ "bot:" +:+ LF;
         cp_stopSequences := Some [LF +:+ "user:"] |}.
Proof.
  apply (completion_prompt_transcript
           [System "Be brief." None; User [UText "Hi" None] None;
            Assistant [AText "Hello" None] None]
           FormatPrompt None (Some "bot")).
  - right. reflexivity.
  - discriminate.
  - reflexivity.
Defined.

Lemma completion_prompt_first_error_witness :
  convertToSparkCompletionPrompt
    [User [UText "Hi" None] None; Tool [] None; System "late" None]
    FormatMessages None None
  = Throw (UnsupportedFunctionalityError "tool messages").
Proof.
  apply (completion_prompt_first_error
           [User [UText "Hi" None] None; Tool [] None; System "late" None]
           FormatMessages None None).
  left. reflexivity.
Defined.

(** ** [prepareTools] on any tool list *)

Lemma prepareTool_fold (ts : list ToolDef) : forall acc,
  fold_left prepareTool ts acc
  = (fst acc ++ map UnsupportedTool (provider_defined_tools ts),
     snd acc ++ function_tools ts).
Proof.
  induction ts as [|t ts IH]; intros [warnings compat]; cbn [fold_left].
  - cbn. by rewrite !app_nil_r.
  - rewrite IH. destruct t as [name description parameters | id name a];
      cbn [prepareTool fst snd provider_defined_tools function_tools
           List.filter is_provider_defined flat_map map app];
      by rewrite <- !app_assoc.
Qed.

(** X7: [prepareTools] splits the tool list: [tools] holds the function
    tools, converted, in their order, and the warnings hold the
    provider-defined tools in their order, one unsupported-tool warning
    each, so no tool is both kept and warned about or lost; the tool choice
    is mapped (a [tool] choice to the function of that name, also when no
    kept tool has that name).  Without tools (none given, or an empty list)
    [tools] and [tool_choice] are [undefined], whatever tool choice was
    given. *)
Theorem prepareTools_split mode_tools mode_toolChoice :
  let given := JS.nullish mode_tools [] in
  let prepared := prepareTools mode_tools mode_toolChoice in
  tools prepared
  = match given with
    | [] => None
    | _ :: _ => Some (function_tools given)
    end
  /\ toolWarnings prepared
     = map UnsupportedTool (provider_defined_tools given)
  /\ length (function_tools given) + length (toolWarnings prepared)
     = length given
  /\ tool_choice prepared
     = match given, mode_toolChoice with
       | [], _ => None
       | _, None => None
       | _, Some ChoiceAuto => Some SparkAuto
       | _, Some ChoiceNone => Some SparkNone
       | _, Some ChoiceRequired => Some SparkRequired
       | _, Some (ChoiceTool toolName) => Some (SparkFunction toolName)
       end.
Proof.
  intros given prepared. subst given prepared. unfold prepareTools.
  destruct mode_tools as [[|t ts]|]; [done| |done].
  cbn [JS.nullish default from_option]. unfold Datatypes.id.
  rewrite prepareTool_fold. cbn [fst snd app].
  assert (Hlen : length (function_tools (t :: ts))
                 + length (map UnsupportedTool
                             (provider_defined_tools (t :: ts)))
                 = length (t :: ts)).
  { rewrite length_map. generalize (t :: ts). intros l.
    unfold function_tools, provider_defined_tools.
    induction l as [|[] l IH]; simpl in *; lia. }
  destruct mode_toolChoice as [[]|]; cbn [tools toolWarnings tool_choice];
    done.
Qed.

(** ** [mapSparkFinishReason] *)

(** X8: [mapSparkFinishReason] returns [stop], [length] and [tool-calls]
    exactly for the strings [stop], [length] and [tool_calls], and [unknown]
    for everything else, an absent reason included; it never returns
    [error], [other] or [content-filter]. *)
Theorem mapSparkFinishReason_exact (raw : option string) :
  (mapSparkFinishReason raw = FinishStop <-> raw = Some "stop")
  /\ (mapSparkFinishReason raw = FinishLength <-> raw = Some "length")
  /\ (mapSparkFinishReason raw = FinishToolCalls
      <-> raw = Some "tool_calls")
  /\ (mapSparkFinishReason raw = FinishUnknown
      <-> raw <> Some "stop" /\ raw <> Some "length"
          /\ raw <> Some "tool_calls")
  /\ mapSparkFinishReason raw <> FinishError
  /\ mapSparkFinishReason raw <> FinishOther
  /\ mapSparkFinishReason raw <> FinishContentFilter.
Proof.
  destruct raw as [s|]; cbn [mapSparkFinishReason].
  - destruct (String.eqb_spec s "stop") as [->|Hstop];
      [cbn; repeat split; try done; try (by intros [? _])|].
    destruct (String.eqb_spec s "length") as [->|Hlength];
      [cbn; repeat split; try done; try (by intros (_ & ? & _))|].
    destruct (String.eqb_spec s "tool_calls") as [->|Htool];
      [cbn; repeat split; try done; try (by intros (_ & _ & ?))|].
    repeat split; try done; try congruence.
  - repeat split; done.
Qed.

(** ** The chat stream transform, chunk by chunk *)

Section ChatChunkFacts.

Variable isParsableJson : string -> bool.
Variable generateId : nat -> string.
Variable Extractor : Type.
Variable processChunk : Extractor -> ChunkValue -> Extractor.
Variable buildMetadata : Extractor -> option ProviderMetadata.

Local Abbreviation State := (StreamState Extractor).
Local Abbreviation transform :=
  (transform isParsableJson generateId Extractor processChunk).
Local Abbreviation flush := (flush Extractor buildMetadata).
Local Abbreviation pipeThrough :=
  (pipeThrough isParsableJson generateId Extractor processChunk
     buildMetadata).
Local Abbreviation processToolCalls :=
  (processToolCalls isParsableJson generateId Extractor).
Local Abbreviation initialState := (initialState Extractor).
Local Abbreviation chunk_state := (chunk_state processChunk).

(** The transform on a chunk, with the tool-call processing left as it
    is. *)
Lemma transform_chunk_shape (st : State) (value : SparkChatChunk) :
  transform (ParseSuccess (Chunk value)) st
  = match first_delta value ≫= d_tool_calls with
    | Some tool_calls =>
        let r := processToolCalls tool_calls (chunk_state st value) in
        mkRun (announce_parts st value ++ text_parts value ++ emitted r)
          (after r) (result r)
    | None =>
        mkRun (announce_parts st value ++ text_parts value)
          (chunk_state st value) (Normal tt)
    end.
Proof.
  unfold announce_parts, text_parts, chunk_state, first_delta.
  destruct st as [fr u fc tcs ex n].
  unfold transform, announce.
  destruct (ch_choices value !! 0) as [choice|] eqn:Hchoice;
    cbn [mbind option_bind];
    [destruct (cc_delta choice) as [delta|] eqn:Hdelta;
       cbn [mbind option_bind];
       [destruct (d_content delta) as [content|] eqn:Hcontent,
          (d_tool_calls delta) as [tool_calls|] eqn:Htool|]|];
    destruct fc, (ch_usage value) as [wu|] eqn:Husage;
    (etransitivity; [run_with ltac:(reflexivity) | reflexivity]).
Qed.

Lemma transform_failure_shape (st : State) error :
  transform (ParseFailure error) st
  = mkRun [ErrorPart error] (set_finishReason Extractor FinishError st)
      (Normal tt).
Proof. destruct st. etransitivity; [run | reflexivity]. Qed.

Lemma transform_error_value_shape (st : State) error :
  transform (ParseSuccess (ErrorValue (WithErrorProperty error))) st
  = let st' :=
      set_finishReason Extractor FinishError
        (set_metadataExtractor Extractor
           ((fun x => processChunk x
                        (ErrorValue (WithErrorProperty error)))
              <$> metadataExtractor _ st) st) in
    match error_message error with
    | Normal message => mkRun [ErrorPart message] st' (Normal tt)
    | Throw e => mkRun [] st' (Throw e)
    end.
Proof.
  destruct st. unfold transform.
  destruct (error_message error) eqn:Hmessage;
    (etransitivity; [run | reflexivity]).
Qed.

Lemma transform_no_error_property_shape (st : State) :
  transform (ParseSuccess (ErrorValue WithoutErrorProperty)) st
  = mkRun
      (if isFirstChunk _ st
       then [ResponseMetadataPart (getResponseMetadata None None None)]
       else [])
      (set_isFirstChunk Extractor false
         (set_metadataExtractor Extractor
            ((fun x => processChunk x (ErrorValue WithoutErrorProperty))
               <$> metadataExtractor _ st) st))
      (Throw TypeError).
Proof.
  destruct st as [fr u [] tcs ex n]; (etransitivity; [run | reflexivity]).
Qed.

(** The tool-call processing leaves the finish reason, the usage snapshot,
    the first-chunk flag and the extractor alone, and enqueues tool-call
    parts only, whether it completes or throws. *)
Lemma processToolCalls_frame tool_calls (st : State) :
  let r := processToolCalls tool_calls st in
  finishReason _ (after r) = finishReason _ st
  /\ usage _ (after r) = usage _ st
  /\ isFirstChunk _ (after r) = isFirstChunk _ st
  /\ metadataExtractor _ (after r) = metadataExtractor _ st
  /\ Forall (fun p => is_tool_part p = true) (emitted r).
Proof.
  set (I := fun s : State =>
              finishReason _ s = finishReason _ st
              /\ usage _ s = usage _ st
              /\ isFirstChunk _ s = isFirstChunk _ st
              /\ metadataExtractor _ s = metadataExtractor _ st).
  assert (H : preserves I (fun p => is_tool_part p = true)
                (processToolCalls tool_calls)).
  { unfold processToolCalls, finishIfParsable, slot0, update_slot0, freshId,
      mbind, Eff_bind.
    destruct (negb _); [apply preserves_throw|].
    destruct (wf_name _); [|apply preserves_throw].
    destruct (tcd_id tool_calls),
      (wf_arguments (tcd_function tool_calls)).
    all: repeat first
           [ apply preserves_bind; [|intros ?]
           | apply preserves_when
           | apply preserves_ret
           | apply preserves_throw
           | apply preserves_get
           | apply preserves_emit; reflexivity
           | match goal with
             | |- preserves _ _ (match ?x with _ => _ end) => destruct x
             end
           | apply preserves_modify; intros [? ? ? [|] ? ?] ?; assumption
           | intros [] ?; split; [assumption | constructor] ]. }
  destruct (H st) as [(? & ? & ? & ?) ?]; [by subst I|]. by repeat split.
Qed.

Lemma transform_chunk_parts (st : State) (value : SparkChatChunk) :
  exists tool_parts,
    emitted (transform (ParseSuccess (Chunk value)) st)
    = announce_parts st value ++ text_parts value ++ tool_parts
    /\ Forall (fun p => is_tool_part p = true) tool_parts
    /\ (first_delta value ≫= d_tool_calls = None ->
        tool_parts = []
        /\ result (transform (ParseSuccess (Chunk value)) st) = Normal tt).
Proof.
  rewrite transform_chunk_shape.
  destruct (first_delta value ≫= d_tool_calls) as [tool_calls|].
  - eexists. cbn [emitted result]. split; [reflexivity|].
    split; [apply processToolCalls_frame | done].
  - exists []. cbn [emitted result]. by rewrite app_nil_r.
Qed.

Lemma transform_chunk_after (st : State) (value : SparkChatChunk) :
  let r := transform (ParseSuccess (Chunk value)) st in
  usage _ (after r)
  = match ch_usage value with
    | Some u => {| su_promptTokens := prompt_tokens u;
                   su_completionTokens := completion_tokens u |}
    | None => usage _ st
    end
  /\ finishReason _ (after r) = finishReason _ st
  /\ isFirstChunk _ (after r) = false.
Proof.
  intros r. subst r. rewrite transform_chunk_shape.
  destruct (first_delta value ≫= d_tool_calls) as [tool_calls|];
    cbn [after]; [|done].
  destruct (processToolCalls_frame tool_calls (chunk_state st value))
    as (-> & -> & -> & _). done.
Qed.

(** *** Whole streams *)

Lemma pipeThrough_cons_normal chunk chunks (st : State) :
  result (transform chunk st) = Normal tt ->
  emitted (pipeThrough (chunk :: chunks) st)
  = emitted (transform chunk st)
    ++ emitted (pipeThrough chunks (after (transform chunk st)))
  /\ result (pipeThrough (chunk :: chunks) st)
     = result (pipeThrough chunks (after (transform chunk st))).
Proof.
  intros H. cbn [pipeThrough].
  unfold mbind, Eff_bind, bindE. rewrite H. done.
Qed.

Lemma pipeThrough_cons_throw chunk chunks (st : State) e :
  result (transform chunk st) = Throw e ->
  emitted (pipeThrough (chunk :: chunks) st) = emitted (transform chunk st)
  /\ result (pipeThrough (chunk :: chunks) st) = Throw e.
Proof.
  intros H. cbn [pipeThrough].
  unfold mbind, Eff_bind, bindE. rewrite H. done.
Qed.

Lemma transform_finishReason chunk (st : State) :
  finishReason _ (after (transform chunk st))
  = if signals_error chunk then FinishError else finishReason _ st.
Proof.
  destruct chunk as [[value|[error|]]|error]; cbn [signals_error].
  - apply transform_chunk_after.
  - rewrite transform_error_value_shape. cbv zeta.
    by destruct (error_message error).
  - by rewrite transform_no_error_property_shape.
  - by rewrite transform_failure_shape.
Qed.

Lemma transform_usage chunk (st : State) :
  usage _ (after (transform chunk st))
  = match usage_object chunk with
    | Some u => {| su_promptTokens := prompt_tokens u;
                   su_completionTokens := completion_tokens u |}
    | None => usage _ st
    end.
Proof.
  destruct chunk as [[value|[error|]]|error]; cbn [usage_object].
  - apply transform_chunk_after.
  - rewrite transform_error_value_shape. cbv zeta.
    by destruct (error_message error).
  - by rewrite transform_no_error_property_shape.
  - by rewrite transform_failure_shape.
Qed.

Lemma count_metadata_app xs ys :
  count_metadata (xs ++ ys) = count_metadata xs + count_metadata ys.
Proof. unfold count_metadata. by rewrite List.filter_app, length_app. Qed.

Lemma count_metadata_tool_parts parts :
  Forall (fun p => is_tool_part p = true) parts -> count_metadata parts = 0.
Proof.
  unfold count_metadata. induction 1 as [|p parts Hp _ IH]; [done|].
  cbn [List.filter]. by destruct p.
Qed.

Lemma transform_metadata_budget chunk (st : State) :
  count_metadata (emitted (transform chunk st))
  + metadata_budget (after (transform chunk st))
  <= metadata_budget st.
Proof.
  destruct chunk as [[value|[error|]]|error].
  - destruct (transform_chunk_parts st value) as (tool_parts & -> & Htool & _).
    destruct (transform_chunk_after st value) as (_ & _ & Hfirst).
    unfold metadata_budget at 1. rewrite Hfirst.
    rewrite !count_metadata_app, (count_metadata_tool_parts _ Htool).
    unfold announce_parts, text_parts, metadata_budget, count_metadata.
    destruct (isFirstChunk _ st), (first_delta value ≫= d_content);
      cbn; lia.
  - rewrite transform_error_value_shape. cbv zeta.
    unfold metadata_budget, count_metadata.
    destruct (error_message error), st as [? ? [] ? ? ?]; cbn; lia.
  - rewrite transform_no_error_property_shape.
    unfold metadata_budget, count_metadata.
    destruct st as [? ? [] ? ? ?]; cbn; lia.
  - rewrite transform_failure_shape.
    unfold metadata_budget, count_metadata.
    destruct st as [? ? [] ? ? ?]; cbn; lia.
Qed.

Lemma transform_not_finish chunk (st : State) :
  Forall not_finish (emitted (transform chunk st)).
Proof.
  destruct chunk as [[value|[error|]]|error].
  - destruct (transform_chunk_parts st value) as (tool_parts & -> & Htool & _).
    unfold announce_parts, text_parts.
    repeat apply Forall_app_2.
    + destruct (isFirstChunk _ st); by repeat constructor.
    + destruct (first_delta value ≫= d_content); by repeat constructor.
    + eapply Forall_impl; [exact Htool|]. by intros [].
  - rewrite transform_error_value_shape. cbv zeta.
    destruct (error_message error); by repeat constructor.
  - rewrite transform_no_error_property_shape.
    destruct (isFirstChunk _ st); by repeat constructor.
  - rewrite transform_failure_shape. by repeat constructor.
Qed.

(** X9: within a chunk the parts come in the order response metadata (on
    the first chunk only), text delta (the content, verbatim, when the delta
    has one), tool-call parts; this also holds when the tool-call delta is
    then rejected with a throw, and a chunk without a tool-call delta never
    throws. *)
Theorem chunk_parts_in_order (st : State) (value : SparkChatChunk) :
  exists tool_parts,
    emitted (transform (ParseSuccess (Chunk value)) st)
    = announce_parts st value ++ text_parts value ++ tool_parts
    /\ Forall (fun p => is_tool_part p = true) tool_parts
    /\ (first_delta value ≫= d_tool_calls = None ->
        tool_parts = []
        /\ result (transform (ParseSuccess (Chunk value)) st) = Normal tt).
Proof. apply transform_chunk_parts. Qed.

(** X10: what a chunk of any kind does to the state the [finish] part is
    built from: the reason becomes [error] when the chunk failed to parse or
    is an error value with an [error] property, and is otherwise left as it
    is (a valid chunk never sets it); a valid chunk with a usage object
    replaces the usage snapshot as a whole (a counter the object lacks is
    forgotten, not kept from an earlier chunk), every other chunk leaves the
    snapshot alone; and the stream never returns to its first chunk. *)
Theorem chunk_state_update chunk (st : State) :
  finishReason _ (after (transform chunk st))
  = (if signals_error chunk then FinishError else finishReason _ st)
  /\ usage _ (after (transform chunk st))
     = match usage_object chunk with
       | Some u => {| su_promptTokens := prompt_tokens u;
                      su_completionTokens := completion_tokens u |}
       | None => usage _ st
       end
  /\ (isFirstChunk _ st = false ->
      isFirstChunk _ (after (transform chunk st)) = false).
Proof.
  split; [apply transform_finishReason|].
  split; [apply transform_usage|].
  intros Hfirst.
  pose proof (transform_metadata_budget chunk st) as Hbudget.
  unfold metadata_budget in Hbudget. rewrite Hfirst in Hbudget.
  destruct (isFirstChunk _ (after (transform chunk st))); [lia | done].
Qed.

(** X11: a chat stream delivers the response metadata at most once, however
    many chunks carry an id, a model or a creation time, and whether it
    closes or is errored by a throw; when the first chunk is a valid chunk,
    the metadata of that chunk is the first part. *)
Theorem response_metadata_at_most_once chunks extractor ids :
  count_metadata (emitted (pipeThrough chunks (initialState extractor ids)))
  <= 1
  /\ forall value rest,
       chunks = ParseSuccess (Chunk value) :: rest ->
       head (emitted (pipeThrough chunks (initialState extractor ids)))
       = Some (ResponseMetadataPart
                 (getResponseMetadata (ch_id value) (ch_model value)
                    (ch_created value))).
Proof.
  split.
  - change 1 with (metadata_budget (initialState extractor ids)).
    generalize (initialState extractor ids).
    induction chunks as [|chunk chunks IH]; intros st.
    + destruct st as [? ? [] ? ? ?]; vm_compute; lia.
    + pose proof (transform_metadata_budget chunk st) as Hbudget.
      destruct (result (transform chunk st)) as [[]|e] eqn:Hchunk.
      * destruct (pipeThrough_cons_normal chunk chunks st Hchunk) as [-> _].
        rewrite count_metadata_app.
        specialize (IH (after (transform chunk st))). lia.
      * destruct (pipeThrough_cons_throw chunk chunks st e Hchunk)
          as [-> _]. lia.
  - intros value rest ->.
    set (st := initialState extractor ids).
    destruct (transform_chunk_parts st value) as (tool_parts & Hparts & _).
    destruct (result (transform (ParseSuccess (Chunk value)) st))
      as [[]|e] eqn:Hchunk.
    + destruct (pipeThrough_cons_normal _ rest st Hchunk) as [-> _].
      by rewrite Hparts.
    + destruct (pipeThrough_cons_throw _ rest st e Hchunk) as [-> _].
      by rewrite Hparts.
Qed.

Lemma pipeThrough_throw_no_finish chunks : forall (st : State) e,
  result (pipeThrough chunks st) = Throw e ->
  Forall not_finish (emitted (pipeThrough chunks st)).
Proof.
  induction chunks as [|chunk chunks IH]; intros st e Hresult;
    [discriminate|].
  destruct (result (transform chunk st)) as [[]|e'] eqn:Hchunk.
  - destruct (pipeThrough_cons_normal chunk chunks st Hchunk)
      as [-> Hrest].
    rewrite Hrest in Hresult. apply Forall_app_2.
    + apply transform_not_finish.
    + by apply IH with (e := e).
  - destruct (pipeThrough_cons_throw chunk chunks st e' Hchunk)
      as [-> _]. apply transform_not_finish.
Qed.

(** X12: a chat stream that closes normally delivers exactly one [finish]
    part, as its last part, with the reason [unknown] or [error]; a stream
    errored by a throwing [transform] delivers no [finish] part. *)
Theorem finish_part_of_stream chunks extractor ids :
  match result (pipeThrough chunks (initialState extractor ids)) with
  | Normal _ =>
      exists parts reason usage metadata,
        emitted (pipeThrough chunks (initialState extractor ids))
        = parts ++ [Finish reason usage metadata]
        /\ Forall not_finish parts
        /\ unknown_or_error reason
  | Throw _ =>
      Forall not_finish
        (emitted (pipeThrough chunks (initialState extractor ids)))
  end.
Proof.
  destruct (result (pipeThrough chunks (initialState extractor ids)))
    as [[]|e] eqn:Hresult.
  - apply chat_stream_finish; [by left | done].
  - by apply pipeThrough_throw_no_finish with (e := e).
Qed.

Lemma stream_finish_from (chunks : list ParseResult) : forall st : State,
  result (pipeThrough chunks st) = Normal tt ->
  exists parts st',
    emitted (pipeThrough chunks st)
    = parts ++ [Finish (finishReason _ st') (flushed_usage (usage _ st'))
                  (metadataExtractor _ st' ≫= buildMetadata)]
    /\ (Forall (fun c => signals_error c = false) chunks ->
        finishReason _ st' = finishReason _ st)
    /\ (finishReason _ st = FinishError -> finishReason _ st' = FinishError)
    /\ (Forall (fun c => usage_object c = None) chunks ->
        usage _ st' = usage _ st).
Proof.
  induction chunks as [|chunk chunks IH]; intros st Hresult.
  - exists [], st. by repeat split.
  - destruct (result (transform chunk st)) as [[]|e] eqn:Hchunk.
    + destruct (pipeThrough_cons_normal chunk chunks st Hchunk)
        as [-> Hrest].
      rewrite Hrest in Hresult.
      destruct (IH _ Hresult) as (parts & st' & -> & Hquiet & Herror & Husage).
      exists (emitted (transform chunk st) ++ parts), st'.
      split; [by rewrite app_assoc|].
      pose proof (transform_finishReason chunk st) as Hreason.
      pose proof (transform_usage chunk st) as Hu.
      repeat split.
      * intros [Hc Hcs]%Forall_cons. rewrite Hc in Hreason.
        by rewrite Hquiet, Hreason.
      * intros Hst. apply Herror. rewrite Hreason, Hst.
        by destruct (signals_error chunk).
      * intros [Hc Hcs]%Forall_cons. rewrite Hc in Hu.
        by rewrite Husage, Hu.
    + destruct (pipeThrough_cons_throw chunk chunks st e Hchunk)
        as [_ Hthrow]. congruence.
Qed.

(** X13: the reason [error] sticks: a stream with a chunk that failed to
    parse, or with an error value, that closes normally ends with a
    [finish] part of reason [error], whatever chunks follow. *)
Theorem error_reason_sticks pre chunk post extractor ids :
  signals_error chunk = true ->
  result (pipeThrough (pre ++ chunk :: post) (initialState extractor ids))
  = Normal tt ->
  exists parts usage metadata,
    emitted (pipeThrough (pre ++ chunk :: post)
               (initialState extractor ids))
    = parts ++ [Finish FinishError usage metadata].
Proof.
  intros Hchunk. generalize (initialState extractor ids).
  induction pre as [|c pre IH]; intros st Hresult; cbn [app] in *.
  - destruct (result (transform chunk st)) as [[]|e] eqn:Hrun.
    + destruct (pipeThrough_cons_normal chunk post st Hrun) as [-> Hrest].
      rewrite Hrest in Hresult.
      destruct (stream_finish_from post _ Hresult)
        as (parts & st' & -> & _ & Herror & _).
      rewrite Herror.
      * eexists (_ ++ parts), _, _. by rewrite app_assoc.
      * by rewrite transform_finishReason, Hchunk.
    + destruct (pipeThrough_cons_throw chunk post st e Hrun) as [_ ?].
      congruence.
  - destruct (result (transform c st)) as [[]|e] eqn:Hrun.
    + destruct (pipeThrough_cons_normal c (pre ++ chunk :: post) st Hrun)
        as [-> Hrest].
      rewrite Hrest in Hresult.
      destruct (IH _ Hresult) as (parts & usage & md & ->).
      eexists (_ ++ parts), _, _. by rewrite app_assoc.
    + destruct (pipeThrough_cons_throw c (pre ++ chunk :: post) st e Hrun)
        as [_ ?]. congruence.
Qed.

(** X14: the usage the [finish] part reports is that of the last chunk with
    a usage object, each counter replaced by NaN when that object lacks it;
    a stream without any usage object reports NaN for both. *)
Theorem finish_usage_is_last_usage_object chunks extractor ids :
  result (pipeThrough chunks (initialState extractor ids)) = Normal tt ->
  exists parts reason metadata,
    emitted (pipeThrough chunks (initialState extractor ids))
    = parts
      ++ [Finish reason
            (flushed_usage
               match last (omap usage_object chunks) with
               | Some u => {| su_promptTokens := prompt_tokens u;
                              su_completionTokens := completion_tokens u |}
               | None => {| su_promptTokens := None;
                            su_completionTokens := None |}
               end)
            metadata].
Proof.
  change {| su_promptTokens := None; su_completionTokens := None |}
    with (usage _ (initialState extractor ids)).
  generalize (initialState extractor ids).
  induction chunks as [|chunk chunks IH]; intros st Hresult.
  - exists [], (finishReason _ st). eexists. reflexivity.
  - destruct (result (transform chunk st)) as [[]|e] eqn:Hrun.
    + destruct (pipeThrough_cons_normal chunk chunks st Hrun) as [-> Hrest].
      rewrite Hrest in Hresult.
      destruct (IH _ Hresult) as (parts & reason & md & ->).
      exists (emitted (transform chunk st) ++ parts), reason, md.
      rewrite app_assoc. do 3 f_equal.
      rewrite transform_usage. cbn [omap list_omap].
      destruct (usage_object chunk) as [u|].
      * rewrite last_cons. by destruct (last (omap usage_object chunks)).
      * done.
    + destruct (pipeThrough_cons_throw chunk chunks st e Hrun) as [_ ?].
      congruence.
Qed.

End ChatChunkFacts.

Lemma error_reason_sticks_witness :
  exists parts usage metadata,
    emitted
      (pipeThrough (accepts []) constant_id unit ignore_chunk no_metadata
         ([finish_reason_chunk "stop"]
          ++ ParseFailure (JS.VStr "bad json")
          :: [finish_reason_chunk "stop"])
         (initialState unit None 0))
    = parts ++ [Finish FinishError usage metadata].
Proof.
  apply (error_reason_sticks (accepts []) constant_id unit ignore_chunk
           no_metadata [finish_reason_chunk "stop"]
           (ParseFailure (JS.VStr "bad json"))
           [finish_reason_chunk "stop"] None 0); reflexivity.
Defined.

Lemma finish_usage_is_last_usage_object_witness :
  exists parts reason metadata,
    emitted
      (pipeThrough (accepts []) constant_id unit ignore_chunk no_metadata
         [usage_chunk (Some 3%float) (Some 5%float);
          finish_reason_chunk "stop";
          usage_chunk (Some 7%float) None]
         (initialState unit None 0))
    = parts
      ++ [Finish reason
            {| promptTokens := 7%float; completionTokens := JS.NaN |}
            metadata].
Proof.
  apply (finish_usage_is_last_usage_object (accepts []) constant_id unit
           ignore_chunk no_metadata
           [usage_chunk (Some 3%float) (Some 5%float);
            finish_reason_chunk "stop";
            usage_chunk (Some 7%float) None] None 0); reflexivity.
Defined.

(** ** The completion stream *)

Lemma completion_transform_shape chunk (st : CompletionStreamState) :
  CompletionModel.transform chunk st
  = mkRun
      (match announced chunk with
       | Some metadata =>
           if cs_isFirstChunk st then [ResponseMetadataPart metadata]
           else []
       | None => []
       end ++ content_parts chunk)
      {| cs_finishReason := default (cs_finishReason st)
                              (reason_update chunk);
         cs_usage := default (cs_usage st) (usage_update chunk);
         cs_isFirstChunk :=
           match announced chunk with
           | Some _ => false
           | None => cs_isFirstChunk st
           end |}
      (if lacks_error_property chunk then Throw TypeError else Normal tt).
Proof.
  destruct st as [reason usage first].
  destruct chunk as [[value|[error|]]|error];
    cbn [announced content_parts reason_update usage_update
         lacks_error_property].
  - destruct value as [id created model choices usage']. cbn.
    destruct first, usage' as [u|], choices as [|[text [r|]] choices];
      reflexivity.
  - reflexivity.
  - destruct first; reflexivity.
  - reflexivity.
Qed.

Lemma completion_pipeThrough_cons chunk chunks st :
  CompletionModel.pipeThrough (chunk :: chunks) st
  = bindE (CompletionModel.transform chunk)
      (fun _ => CompletionModel.pipeThrough chunks) st.
Proof. reflexivity. Qed.

Lemma completion_stream_from chunks : forall st,
  emitted (CompletionModel.pipeThrough chunks st)
  = delivered (cs_isFirstChunk st) chunks
    ++ (if existsb lacks_error_property chunks then []
        else [Finish
                (default (cs_finishReason st)
                   (last (omap reason_update chunks)))
                (default (cs_usage st) (last (omap usage_update chunks)))
                None])
  /\ result (CompletionModel.pipeThrough chunks st)
     = if existsb lacks_error_property chunks then Throw TypeError
       else Normal tt.
Proof.
  induction chunks as [|chunk chunks IH]; intros st; [done|].
  rewrite completion_pipeThrough_cons. unfold bindE.
  rewrite completion_transform_shape. cbn [result emitted after].
  cbn [existsb delivered omap list_omap].
  destruct (lacks_error_property chunk) eqn:Hthrow; cbn [orb].
  - destruct chunk as [[value|[error|]]|error]; try discriminate.
    cbn. by rewrite !app_nil_r.
  - match goal with |- context [CompletionModel.pipeThrough chunks ?s] =>
      destruct (IH s) as [-> ->] end.
    cbn [cs_finishReason cs_usage cs_isFirstChunk].
    split; [|done].
    assert (forall A (d : A) (x : option A) (xs : list A),
               default (default d x) (last xs)
               = default d (last (match x with
                                  | Some y => y :: xs
                                  | None => xs
                                  end))) as Hlast.
    { intros A d [y|] xs; [|done]. rewrite last_cons.
      by destruct (last xs). }
    rewrite !Hlast.
    destruct (announced chunk) as [metadata|];
      rewrite <- !app_assoc; cbn [app]; by rewrite ?app_nil_r.
Qed.

(** X15: the completion stream, part for part.  It delivers the response
    metadata once, before the content of the first chunk that is not an
    error; an error part for every chunk that failed to parse or is an error
    value; a text delta for every valid chunk with a choice, empty texts
    included.  It throws a TypeError, without a [finish] part and without
    reading further chunks, exactly when a chunk is an error value without
    an [error] property; otherwise it closes with one [finish] part whose
    reason is the last one a chunk set ([unknown] if none did, so a later
    finish reason replaces an earlier [error]) and whose usage is that of
    the last chunk with a usage object (NaN counters if none had one). *)
Theorem completion_stream_parts chunks :
  emitted (CompletionModel.pipeThrough chunks CompletionModel.initialState)
  = delivered true chunks
    ++ (if existsb lacks_error_property chunks then []
        else [Finish
                (default FinishUnknown (last (omap reason_update chunks)))
                (default {| promptTokens := JS.NaN;
                            completionTokens := JS.NaN |}
                   (last (omap usage_update chunks)))
                None])
  /\ result (CompletionModel.pipeThrough chunks
               CompletionModel.initialState)
     = if existsb lacks_error_property chunks then Throw TypeError
       else Normal tt.
Proof. apply completion_stream_from. Qed.

Lemma delivered_text first values :
  streamed_text
    (delivered first (map (fun v => CParseSuccess (CChunk v)) values))
  = fold_right
      (fun v acc =>
         match cch_choices v !! 0 with
         | Some choice => ccc_text choice +:+ acc
         | None => acc
         end) "" values.
Proof.
  revert first. induction values as [|v values IH]; intros first; [done|].
  cbn [map delivered announced lacks_error_property content_parts
       fold_right].
  rewrite !streamed_text_app, IH.
  assert (streamed_text
            (if first
             then [ResponseMetadataPart
                     (getResponseMetadata (cch_id v) (cch_model v)
                        (cch_created v))]
             else []) = "") as -> by by destruct first.
  change ("" +:+ ?x) with x.
  destruct (cch_choices v !! 0) as [choice|]; [|done].
  cbn [streamed_text fold_right text_of].
  by rewrite string_app_nil_r.
Qed.

(** X16: a completion stream of valid chunks never throws, and the text it
    streams is the concatenation, in order, of the texts of the chunks'
    first choices; further choices of a chunk are ignored. *)
Theorem completion_stream_text values :
  let run :=
    CompletionModel.pipeThrough
      (map (fun v => CParseSuccess (CChunk v)) values)
      CompletionModel.initialState in
  result run = Normal tt
  /\ streamed_text (emitted run)
     = fold_right
         (fun v acc =>
            match cch_choices v !! 0 with
            | Some choice => ccc_text choice +:+ acc
            | None => acc
            end) "" values.
Proof.
  intros run. subst run.
  destruct (completion_stream_from
              (map (fun v => CParseSuccess (CChunk v)) values)
              CompletionModel.initialState) as [-> ->].
  assert (existsb lacks_error_property
            (map (fun v => CParseSuccess (CChunk v)) values) = false)
    as ->.
  { induction values; [done|]. by cbn. }
  split; [done|].
  rewrite streamed_text_app, delivered_text.
  cbn [streamed_text fold_right text_of]. by rewrite string_app_nil_r.
Qed.

(** ** The model calls *)

Section CallFacts.

Variable isParsableJson : string -> bool.
Variable generateId : nat -> string.
Variable Extractor : Type.
Variable processChunk : Extractor -> ChunkValue -> Extractor.
Variable buildMetadata : Extractor -> option ProviderMetadata.
Variable config_metadataExtractor :
  option ((SparkChatResponse -> option ProviderMetadata) * Extractor).
Variable simulateStreaming : bool.
Variable CallOptions Args : Type.
Variable getArgs : CallOptions -> Completion (Args * list CallWarning).
Variable config_url : string -> Completion string.
Variable config_headers : Completion JS.Obj.
Variable options_headers : CallOptions -> option JS.Obj.
Variable combineHeaders : JS.Obj -> option JS.Obj -> JS.Obj.
Variable jsonResponse : Request Args -> Completion SparkChatResponse.
Variable eventSourceResponse : Request Args -> Completion (list ParseResult).

Variable completionGetArgs :
  CallOptions -> Completion (Args * list CallWarning).
Variable completionJsonResponse :
  Request Args -> Completion SparkCompletionResponse.

Local Abbreviation doGenerate :=
  (doGenerate generateId Extractor config_metadataExtractor CallOptions Args
     getArgs config_url config_headers options_headers combineHeaders
     jsonResponse).
Local Abbreviation doStream :=
  (doStream isParsableJson generateId Extractor processChunk buildMetadata
     config_metadataExtractor simulateStreaming CallOptions Args getArgs
     config_url config_headers options_headers combineHeaders
     jsonResponse eventSourceResponse).
Local Abbreviation completionDoGenerate :=
  (CompletionModel.doGenerate CallOptions Args completionGetArgs
     config_url config_headers options_headers combineHeaders
     completionJsonResponse).
Local Abbreviation pipeThrough :=
  (pipeThrough isParsableJson generateId Extractor processChunk
     buildMetadata).

Lemma doGenerate_run options ids :
  match getArgs options with
  | Throw e => doGenerate options ids = mkRun [] ids (Throw e)
  | Normal (args, warnings) =>
      match config_url "/chat/completions" with
      | Throw e => doGenerate options ids = mkRun [] ids (Throw e)
      | Normal url =>
          match config_headers with
          | Throw e => doGenerate options ids = mkRun [] ids (Throw e)
          | Normal headers =>
              let req :=
                {| req_path := "/chat/completions"; req_url := url;
                   req_headers :=
                     combineHeaders headers (options_headers options);
                   req_body := args; req_stream := false |} in
              emitted (doGenerate options ids) = [req]
              /\ match jsonResponse req with
                 | Throw e =>
                     result (doGenerate options ids) = Throw e
                     /\ after (doGenerate options ids) = ids
                 | Normal body =>
                     match r_choices body !! 0 with
                     | None =>
                         result (doGenerate options ids) = Throw TypeError
                         /\ after (doGenerate options ids) = ids
                     | Some choice =>
                         (exists res,
                            result (doGenerate options ids) = Normal res
                            /\ gr_warnings res = warnings
                            /\ gr_text res = m_content (c_message choice)
                            /\ gr_finishReason res
                               = mapSparkFinishReason
                                   (c_finish_reason choice)
                            /\ gr_toolCalls res
                               = (fun tc =>
                                    [reported_tool_call (generateId ids)
                                       tc])
                                   <$> m_tool_calls (c_message choice))
                         /\ after (doGenerate options ids)
                            = if needs_generated_id (c_message choice)
                              then S ids else ids
                     end
                 end
          end
      end
  end.
Proof.
  unfold doGenerate, mbind, Eff_bind, bindE, liftC, postJsonToApi, nextId.
  destruct (getArgs options) as [[args warnings]|e];
    cbn [result after emitted fst snd]; [|reflexivity].
  destruct (config_url _) as [url|e];
    cbn [result after emitted app]; [|reflexivity].
  destruct config_headers as [headers|e];
    cbn [result after emitted app]; [|reflexivity].
  cbv zeta.
  destruct (jsonResponse _) as [body|e];
    cbn [result after emitted app]; [|done].
  destruct (r_choices body !! 0) as [choice|];
    cbn [result after emitted app]; [|done].
  unfold needs_generated_id, reported_tool_call.
  destruct (m_tool_calls (c_message choice)) as [[[id|] name arguments]|];
    cbn [result after emitted app retE tc_id];
    (split; [reflexivity|]); (split; [|reflexivity]);
    eexists; (split; [reflexivity|]); done.
Qed.

(** X17: the chat [doGenerate], call by call.  The arguments, the URL and
    the headers are evaluated in this order before anything is sent; when
    one of them throws, nothing is sent, no id is generated and that error
    is rethrown.  Otherwise exactly one request is sent, with that URL,
    those headers combined with the call's and the arguments as its body,
    and a transport error, or a TypeError for a response without a choice,
    is thrown after it.  Only the first choice is read; the result carries
    the warnings of the request construction, at most one tool call, and an
    id is generated exactly when the response has a tool call without an
    id. *)
Theorem doGenerate_outcome options ids :
  match getArgs options with
  | Throw e => doGenerate options ids = mkRun [] ids (Throw e)
  | Normal (args, warnings) =>
      match config_url "/chat/completions" with
      | Throw e => doGenerate options ids = mkRun [] ids (Throw e)
      | Normal url =>
          match config_headers with
          | Throw e => doGenerate options ids = mkRun [] ids (Throw e)
          | Normal headers =>
              let req :=
                {| req_path := "/chat/completions"; req_url := url;
                   req_headers :=
                     combineHeaders headers (options_headers options);
                   req_body := args; req_stream := false |} in
              emitted (doGenerate options ids) = [req]
              /\ match jsonResponse req with
                 | Throw e =>
                     result (doGenerate options ids) = Throw e
                     /\ after (doGenerate options ids) = ids
                 | Normal body =>
                     match r_choices body !! 0 with
                     | None =>
                         result (doGenerate options ids) = Throw TypeError
                         /\ after (doGenerate options ids) = ids
                     | Some choice =>
                         (exists res,
                            result (doGenerate options ids) = Normal res
                            /\ gr_warnings res = warnings
                            /\ gr_text res = m_content (c_message choice)
                            /\ gr_finishReason res
                               = mapSparkFinishReason
                                   (c_finish_reason choice)
                            /\ gr_toolCalls res
                               = (fun tc =>
                                    [reported_tool_call (generateId ids)
                                       tc])
                                   <$> m_tool_calls (c_message choice))
                         /\ after (doGenerate options ids)
                            = if needs_generated_id (c_message choice)
                              then S ids else ids
                     end
                 end
          end
      end
  end.
Proof. apply doGenerate_run. Qed.


(** X19: without simulated streaming, once the request is built and the
    transport has returned the events, [doStream] returns: a throw of the
    transform errors the stream, not the call.  The stream is that of the
    transform run from the initial state; if it closes, its last part is
    its only [finish] part, with the reason [unknown] or [error]; if it is
    errored it has no [finish] part. *)
Theorem doStream_streams options args warnings url headers chunks ids :
  simulateStreaming = false ->
  getArgs options = Normal (args, warnings) ->
  config_url "/chat/completions" = Normal url ->
  config_headers = Normal headers ->
  eventSourceResponse
    {| req_path := "/chat/completions"; req_url := url;
       req_headers := combineHeaders headers (options_headers options);
       req_body := args; req_stream := true |} = Normal chunks ->
  exists stream,
    result (doStream options ids) = Normal stream
    /\ sr_stream stream
       = emitted (pipeThrough chunks
                    (initialState Extractor
                       (snd <$> config_metadataExtractor) ids))
    /\ match sr_end stream with
       | Normal _ =>
           exists parts reason usage metadata,
             sr_stream stream = parts ++ [Finish reason usage metadata]
             /\ Forall not_finish parts
             /\ unknown_or_error reason
       | Throw _ => Forall not_finish (sr_stream stream)
       end.
Proof.
  intros Hsimulate Hargs Hurl Hheaders Hevents.
  unfold doStream. rewrite Hsimulate.
  unfold mbind, Eff_bind, bindE, liftC, postJsonToApi, getE, modifyE.
  rewrite Hargs. cbn [result after emitted fst snd app].
  rewrite Hurl. cbn [result after emitted app].
  rewrite Hheaders. cbn [result after emitted app].
  rewrite Hevents. cbn [result after emitted app retE].
  eexists. split; [reflexivity|]. cbn [sr_stream sr_end].
  split; [reflexivity|].
  set (st := initialState Extractor (snd <$> config_metadataExtractor) ids).
  destruct (result (pipeThrough chunks st)) as [[]|e] eqn:Hresult.
  - apply chat_stream_finish; [by left | done].
  - apply pipeThrough_throw_no_finish with (e := e). done.
Qed.

(** X20: the completion [doGenerate], call by call: the arguments, the URL
    and the headers are evaluated in this order before anything is sent,
    and when one of them throws nothing is sent and that error is rethrown;
    otherwise exactly one request goes to [/completions], and a transport
    error, or a TypeError for a response without a choice, is thrown after
    it; the result is read off the first choice and carries neither tool
    calls nor provider metadata. *)
Theorem completion_doGenerate_outcome options :
  match completionGetArgs options with
  | Throw e => completionDoGenerate options tt = mkRun [] tt (Throw e)
  | Normal (args, warnings) =>
      match config_url "/completions" with
      | Throw e => completionDoGenerate options tt = mkRun [] tt (Throw e)
      | Normal url =>
          match config_headers with
          | Throw e =>
              completionDoGenerate options tt = mkRun [] tt (Throw e)
          | Normal headers =>
              let req :=
                {| req_path := "/completions"; req_url := url;
                   req_headers :=
                     combineHeaders headers (options_headers options);
                   req_body := args; req_stream := false |} in
              emitted (completionDoGenerate options tt) = [req]
              /\ match completionJsonResponse req with
                 | Throw e =>
                     result (completionDoGenerate options tt) = Throw e
                 | Normal body =>
                     match cr_choices body !! 0 with
                     | None =>
                         result (completionDoGenerate options tt)
                         = Throw TypeError
                     | Some choice =>
                         exists res,
                           result (completionDoGenerate options tt)
                           = Normal res
                           /\ gr_warnings res = warnings
                           /\ gr_text res = Some (cmp_text choice)
                           /\ gr_finishReason res
                              = mapSparkFinishReason
                                  (Some (cmp_finish_reason choice))
                           /\ gr_toolCalls res = None
                           /\ gr_providerMetadata res = None
                     end
                 end
          end
      end
  end.
Proof.
  unfold CompletionModel.doGenerate, mbind, Eff_bind, bindE, liftC.
  destruct (completionGetArgs options) as [[args warnings]|e];
    cbn [result after emitted fst snd]; [|reflexivity].
  destruct (config_url _) as [url|e];
    cbn [result after emitted app]; [|reflexivity].
  destruct config_headers as [headers|e];
    cbn [result after emitted app]; [|reflexivity].
  cbv zeta.
  destruct (completionJsonResponse _) as [body|e];
    cbn [result after emitted app]; [|done].
  destruct (cr_choices body !! 0) as [choice|];
    cbn [result after emitted app retE]; [|done].
  split; [reflexivity|]. eexists. split; [reflexivity|]. done.
Qed.

End CallFacts.

Lemma doStream_streams_witness :
  exists stream,
    result
      (doStream (accepts []) constant_id unit ignore_chunk no_metadata None
         false unit unit sample_getArgs sample_url sample_headers
         no_headers spread_headers sample_jsonResponse sample_eventStream
         tt 0)
    = Normal stream
    /\ sr_stream stream
       = emitted
           (pipeThrough (accepts []) constant_id unit ignore_chunk
              no_metadata
              [finish_reason_chunk "stop";
               usage_chunk (Some 3%float) (Some 5%float)]
              (initialState unit None 0))
    /\ match sr_end stream with
       | Normal _ =>
           exists parts reason usage metadata,
             sr_stream stream = parts ++ [Finish reason usage metadata]
             /\ Forall not_finish parts
             /\ unknown_or_error reason
       | Throw _ => Forall not_finish (sr_stream stream)
       end.
Proof.
  exact (doStream_streams (accepts []) constant_id unit ignore_chunk
           no_metadata None false unit unit sample_getArgs sample_url
           sample_headers no_headers spread_headers sample_jsonResponse
           sample_eventStream tt tt [] _ _
           [finish_reason_chunk "stop";
            usage_chunk (Some 3%float) (Some 5%float)] 0
           eq_refl eq_refl eq_refl eq_refl eq_refl).
Defined.

(** ** Request construction *)

Section GetArgsFacts.

Variable JSON_stringify : JS.Val -> string.
Variable convertUint8ArrayToBase64 : list Byte.byte -> string.
Variable modelId : string.
Variable settings_user : option string.
Variable settings_echo : option bool.
Variable settings_logitBias : option JS.Val.
Variable settings_suffix : option string.
Variable supportsStructuredOutputs : bool.
Variable providerOptionsName : string.

Local Abbreviation convertToSparkChatMessages :=
  (convertToSparkChatMessages JSON_stringify convertUint8ArrayToBase64).
Local Abbreviation providerOptions := (providerOptions providerOptionsName).
Local Abbreviation chatWarnings := (chatWarnings supportsStructuredOutputs).
Local Abbreviation chatBaseArgs :=
  (chatBaseArgs modelId settings_user supportsStructuredOutputs
     providerOptionsName).
Local Abbreviation chatGetArgs :=
  (chatGetArgs JSON_stringify convertUint8ArrayToBase64 modelId
     settings_user supportsStructuredOutputs providerOptionsName).
Local Abbreviation completionBaseArgs :=
  (completionBaseArgs modelId settings_user settings_echo
     settings_logitBias settings_suffix providerOptionsName).
Local Abbreviation completionGetArgs :=
  (completionGetArgs modelId settings_user settings_echo settings_logitBias
     settings_suffix providerOptionsName).

Lemma chatGetArgs_throw o e :
  convertToSparkChatMessages (o_prompt o) = Throw e ->
  chatGetArgs o = Throw e.
Proof.
  intros H. unfold chatGetArgs, mbind, Completion_bind. cbv zeta.
  by rewrite H.
Qed.

Lemma chatGetArgs_normal o messages :
  convertToSparkChatMessages (o_prompt o) = Normal messages ->
  exists args warnings,
    chatGetArgs o = Normal (args, warnings)
    /\ JS.get "messages" args = Some (JS.VArr (map JS.VObj messages))
    /\ (forall k,
          k ∉ set_after_spread ->
          JS.get k args = JS.get k (chatBaseArgs o messages))
    /\ match o_mode o with
       | Regular mode_tools mode_toolChoice =>
           let prepared := prepareTools mode_tools mode_toolChoice in
           JS.get "tools" args
           = Some (optional (fun ts => JS.VArr (map tool_value ts))
                     (tools prepared))
           /\ JS.get "tool_choice" args
              = Some (optional tool_choice_value (tool_choice prepared))
           /\ warnings = chatWarnings o ++ toolWarnings prepared
       | ObjectJson schema name description =>
           JS.get "response_format" args
           = Some match schema with
                  | Some schema =>
                      if supportsStructuredOutputs
                      then json_schema_format schema name description
                      else json_object_format
                  | None => json_object_format
                  end
           /\ warnings = chatWarnings o
       | ObjectTool name description parameters =>
           JS.get "tools" args
           = Some (JS.VArr
                     [tool_value {| fn_name := name;
                                    fn_description := description;
                                    fn_parameters := parameters |}])
           /\ JS.get "tool_choice" args
              = Some (tool_choice_value (SparkFunction name))
           /\ warnings = chatWarnings o
       end.
Proof.
  intros H. unfold chatGetArgs, mbind, Completion_bind. cbv zeta.
  rewrite H. cbn [bindC].
  assert (Hmessages :
            JS.get "messages" (chatBaseArgs o messages)
            = Some (JS.VArr (map JS.VObj messages)))
    by apply get_set_eq.
  assert (Hkeys : forall k, k ∉ set_after_spread ->
            k <> "messages" /\ k <> "tools" /\ k <> "tool_choice"
            /\ k <> "response_format").
  { unfold set_after_spread. intros k Hk.
    repeat split; intros ->; apply Hk; repeat constructor. }
  destruct (o_mode o) as [mode_tools mode_toolChoice
                         | schema name description
                         | name description parameters].
  - eexists _, _. split; [reflexivity|].
    split; [by rewrite !get_set_ne|].
    split.
    + intros k (_ & ? & ? & _)%Hkeys. by rewrite !get_set_ne.
    + cbv zeta. split; [by rewrite get_set_ne, get_set_eq|].
      split; [apply get_set_eq | done].
  - eexists _, _. split; [reflexivity|].
    split; [by rewrite !get_set_ne|].
    split.
    + intros k (_ & _ & _ & ?)%Hkeys. by rewrite !get_set_ne.
    + split; [apply get_set_eq | done].
  - eexists _, _. split; [reflexivity|].
    split; [by rewrite !get_set_ne|].
    split.
    + intros k (_ & ? & ? & _)%Hkeys. by rewrite !get_set_ne.
    + split; [apply get_set_eq|].
      split; [by rewrite get_set_ne, get_set_eq | done].
Qed.

(** X21: the chat [getArgs] fails exactly when the conversion of the prompt
    fails, and with its error: no mode and no setting makes it fail.  When
    it returns, [messages] is the converted prompt; in the regular mode
    [tools] and [tool_choice] are those of [prepareTools] (also when they
    are [undefined]) and its warnings follow the warnings for the settings;
    in the object-json mode [response_format] is decided by the schema of
    the mode, not by the call's [responseFormat]; in the object-tool mode
    the one tool is offered and chosen.  No provider option changes any of
    these. *)
Theorem chat_getArgs_outcome o :
  match convertToSparkChatMessages (o_prompt o) with
  | Throw e => chatGetArgs o = Throw e
  | Normal messages =>
      exists args warnings,
        chatGetArgs o = Normal (args, warnings)
        /\ JS.get "messages" args = Some (JS.VArr (map JS.VObj messages))
        /\ match o_mode o with
           | Regular mode_tools mode_toolChoice =>
               let prepared := prepareTools mode_tools mode_toolChoice in
               JS.get "tools" args
               = Some (optional (fun ts => JS.VArr (map tool_value ts))
                         (tools prepared))
               /\ JS.get "tool_choice" args
                  = Some (optional tool_choice_value (tool_choice prepared))
               /\ warnings = chatWarnings o ++ toolWarnings prepared
           | ObjectJson schema name description =>
               JS.get "response_format" args
               = Some match schema with
                      | Some schema =>
                          if supportsStructuredOutputs
                          then json_schema_format schema name description
                          else json_object_format
                      | None => json_object_format
                      end
               /\ warnings = chatWarnings o
           | ObjectTool name description parameters =>
               JS.get "tools" args
               = Some (JS.VArr
                         [tool_value {| fn_name := name;
                                        fn_description := description;
                                        fn_parameters := parameters |}])
               /\ JS.get "tool_choice" args
                  = Some (tool_choice_value (SparkFunction name))
               /\ warnings = chatWarnings o
           end
  end.
Proof.
  destruct (convertToSparkChatMessages (o_prompt o)) as [messages|e] eqn:H.
  - destruct (chatGetArgs_normal o messages H)
      as (args & warnings & ? & ? & _ & ?).
    by exists args, warnings.
  - by apply chatGetArgs_throw.
Qed.

(** X22: a provider option under a key other than [messages], [tools],
    [tool_choice] and [response_format] ends up in the chat request as it
    is, replacing the model id or a standardized setting of that name. *)
Theorem provider_options_override o args warnings k v :
  chatGetArgs o = Normal (args, warnings) ->
  NoDup (map fst (providerOptions o)) ->
  JS.get k (providerOptions o) = Some v ->
  k ∉ set_after_spread ->
  JS.get k args = Some v.
Proof.
  intros Hargs Hdup Hget Hk.
  destruct (convertToSparkChatMessages (o_prompt o)) as [messages|e] eqn:H.
  - destruct (chatGetArgs_normal o messages H)
      as (args' & warnings' & Hargs' & _ & Hrest & _).
    rewrite Hargs in Hargs'. injection Hargs' as <- <-.
    rewrite (Hrest k Hk). unfold chatBaseArgs.
    rewrite get_set_ne.
    + by apply get_spread_hit.
    + intros ->. apply Hk. unfold set_after_spread. repeat constructor.
  - rewrite (chatGetArgs_throw o e H) in Hargs. discriminate.
Qed.

(** X23: the completion [getArgs] returns exactly when the prompt converts
    and the mode is the regular one with no tool (none given, or an empty
    list) and no tool choice; an error of the prompt conversion comes before
    the error for the mode. *)
Theorem completion_getArgs_returns o :
  ((exists args warnings, completionGetArgs o = Normal (args, warnings))
   <-> (exists converted,
          convertToSparkCompletionPrompt (o_prompt o) (o_inputFormat o)
            None None = Normal converted)
       /\ (o_mode o = Regular None None \/ o_mode o = Regular (Some []) None))
  /\ forall e,
       convertToSparkCompletionPrompt (o_prompt o) (o_inputFormat o)
         None None = Throw e ->
       completionGetArgs o = Throw e.
Proof.
  unfold completionGetArgs, mbind, Completion_bind. cbv zeta.
  destruct (convertToSparkCompletionPrompt _ _ _ _) as [converted|e];
    cbn [bindC].
  - split; [|discriminate]. split.
    + intros (args & warnings & H). split; [by eexists|].
      destruct (o_mode o) as [[[|tool ts]|] [choice|] | |];
        try discriminate; first [by left | by right].
    + intros [_ [-> | ->]]; by eexists _, _.
  - split; [|by intros ? [= ->]]. split.
    + by intros (? & ? & ?).
    + by intros [[? ?] _].
Qed.

(** X24: in a completion request that is built, [prompt] and [stop] are the
    converter's, whatever the provider options say.  On the fast path the
    prompt is the text of the message and [stop] holds the caller's stop
    sequences, being [undefined] when there is none; off it [stop] starts
    with the line feed, [user] and a colon of the transcript, the caller's
    following. *)
Theorem completion_stop_sequences o args warnings :
  completionGetArgs o = Normal (args, warnings) ->
  warnings = completionWarnings o
  /\ (exists converted,
        convertToSparkCompletionPrompt (o_prompt o) (o_inputFormat o)
          None None = Normal converted
        /\ JS.get "prompt" args = Some (JS.VStr (cp_prompt converted)))
  /\ JS.get "stop" args
     = Some (if fast_path o
             then match o_stopSequences o with
                  | Some (s :: ss) => strings (s :: ss)
                  | _ => JS.VUndefined
                  end
             else strings ((LF +:+ "user:")
                             :: JS.nullish (o_stopSequences o) [])).
Proof.
  unfold completionGetArgs, mbind, Completion_bind. cbv zeta.
  destruct (convertToSparkCompletionPrompt _ _ _ _) as [converted|e]
    eqn:Hconverted; cbn [bindC]; [|discriminate].
  destruct (o_mode o) as [[[|tool ts]|] [choice|] | |]; try discriminate.
  all: intros [= <- <-]; split; [reflexivity|].
  all: split;
    [exists converted; split; [reflexivity|];
     unfold completionBaseArgs; cbv zeta;
     by rewrite get_set_ne, get_set_eq|].
  all: unfold completionBaseArgs; cbv zeta; rewrite get_set_eq; f_equal.
  all: unfold merged_stop, fast_path.
  all: destruct (o_inputFormat o) eqn:Hformat;
    [destruct (single_user_text (o_prompt o)) eqn:Hfast|].
  all: try (rewrite completion_not_fast_path, renderTranscript_closed
              in Hconverted by (first [by left | by right]);
            destruct (o_prompt o); [discriminate|];
            destruct (first_error _ _); [discriminate|];
            injection Hconverted as <-; cbn [cp_stopSequences];
            reflexivity).
  all: destruct (o_prompt o) as [|[ | [|[] []] | | ] []]; try discriminate;
    cbn in Hconverted; injection Hconverted as <-;
    cbn [cp_stopSequences JS.nullish default from_option app];
    by destruct (o_stopSequences o) as [[|s ss]|].
Qed.

End GetArgsFacts.

Lemma provider_options_override_witness :
  JS.get "temperature"
    (JS.set "tool_choice" JS.VUndefined
       (JS.set "tools" JS.VUndefined
          (chatBaseArgs "lite" None false "spark"
             (plain_options (Regular None None) FormatMessages []
                None
                (Some [("spark", [("temperature", JS.VNum 0%float)])]))
             [])))
  = Some (JS.VNum 0%float).
Proof.
  apply (provider_options_override constant_json no_base64 "lite" None
           false "spark"
           (plain_options (Regular None None) FormatMessages [] None
              (Some [("spark", [("temperature", JS.VNum 0%float)])]))
           _ [] "temperature" (JS.VNum 0%float)).
  - reflexivity.
  - apply NoDup_singleton.
  - reflexivity.
  - unfold set_after_spread. intros H.
    repeat (apply elem_of_cons in H as [H|H]; [discriminate|]).
    by apply elem_of_nil in H.
Defined.

Lemma completion_stop_sequences_witness :
  JS.get "stop"
    (completionBaseArgs "lite" None None None None "spark"
       (plain_options (Regular None None) FormatMessages
          [User [UText "Hi" None] None] (Some ["END"])
          (Some [("spark", [("stop", JS.VStr "never")])]))
       {| cp_prompt :=
            "user:" +:+ LF +:+ "Hi" +:+ LF +:+ LF +:+ "assistant:" +:+ LF;
          cp_stopSequences := Some [LF +:+ "user:"] |})
  = Some (strings [LF +:+ "user:"; "END"]).
Proof.
  apply (completion_stop_sequences "lite" None None None None "spark"
           (plain_options (Regular None None) FormatMessages
              [User [UText "Hi" None] None] (Some ["END"])
              (Some [("spark", [("stop", JS.VStr "never")])]))
           _ []).
  reflexivity.
Defined.

(** ** From the prompt to the request *)

Section RequestFacts.

Variable isParsableJson : string -> bool.
Variable generateId : nat -> string.
Variable Extractor : Type.
Variable processChunk : Extractor -> ChunkValue -> Extractor.
Variable buildMetadata : Extractor -> option ProviderMetadata.
Variable config_metadataExtractor :
  option ((SparkChatResponse -> option ProviderMetadata) * Extractor).
Variable simulateStreaming : bool.
Variable config_url : string -> Completion string.
Variable config_headers : Completion JS.Obj.
Variable options_headers : CallOptions -> option JS.Obj.
Variable combineHeaders : JS.Obj -> option JS.Obj -> JS.Obj.
Variable jsonResponse : Request JS.Obj -> Completion SparkChatResponse.
Variable eventSourceResponse :
  Request JS.Obj -> Completion (list ParseResult).
Variable completionJsonResponse :
  Request JS.Obj -> Completion SparkCompletionResponse.

Variable JSON_stringify : JS.Val -> string.
Variable convertUint8ArrayToBase64 : list Byte.byte -> string.
Variable modelId : string.
Variable settings_user : option string.
Variable settings_echo : option bool.
Variable settings_logitBias : option JS.Val.
Variable settings_suffix : option string.
Variable supportsStructuredOutputs : bool.
Variable providerOptionsName : string.

Local Abbreviation chatGetArgs :=
  (chatGetArgs JSON_stringify convertUint8ArrayToBase64 modelId
     settings_user supportsStructuredOutputs providerOptionsName).
Local Abbreviation completionGetArgs :=
  (completionGetArgs modelId settings_user settings_echo settings_logitBias
     settings_suffix providerOptionsName).
Local Abbreviation doGenerate :=
  (doGenerate generateId Extractor config_metadataExtractor CallOptions
     JS.Obj chatGetArgs config_url config_headers options_headers
     combineHeaders jsonResponse).
Local Abbreviation doStream :=
  (doStream isParsableJson generateId Extractor processChunk buildMetadata
     config_metadataExtractor simulateStreaming CallOptions JS.Obj
     chatGetArgs config_url config_headers options_headers combineHeaders
     jsonResponse eventSourceResponse).

(** X25: a chat call on a prompt with a file part in a user message costs
    no request: [doGenerate], and [doStream] in either mode, send nothing,
    generate no id and throw the unsupported-functionality error for file
    parts, whatever the mode and the settings of the call are. *)
Theorem file_part_sends_no_request o ids :
  existsb has_file_part (o_prompt o) = true ->
  let outcome :=
    Throw (UnsupportedFunctionalityError
             "File content parts in user messages") in
  doGenerate o ids = mkRun [] ids outcome
  /\ doStream o ids
     = mkRun [] ids
         (Throw (UnsupportedFunctionalityError
                   "File content parts in user messages")).
Proof.
  intros Hfile outcome. subst outcome.
  pose proof (convert_outcome JSON_stringify convertUint8ArrayToBase64
                (o_prompt o)) as Hconvert.
  destruct (convertToSparkChatMessages _ _ (o_prompt o))
    as [messages|e] eqn:Hprompt.
  { destruct Hconvert as [Hnone _]. congruence. }
  destruct Hconvert as [_ ->].
  pose proof (chatGetArgs_throw JSON_stringify convertUint8ArrayToBase64
                modelId settings_user supportsStructuredOutputs
                providerOptionsName o _ Hprompt) as Hargs.
  assert (Hgenerate :
            doGenerate o ids
            = mkRun [] ids
                (Throw (UnsupportedFunctionalityError
                          "File content parts in user messages"))).
  { unfold doGenerate, mbind, Eff_bind, bindE, liftC. by rewrite Hargs. }
  split; [exact Hgenerate|].
  unfold doStream. destruct simulateStreaming.
  - unfold mbind, Eff_bind, bindE. by rewrite Hgenerate.
  - unfold mbind, Eff_bind, bindE, liftC. by rewrite Hargs.
Qed.

(** X26: a completion [doGenerate] in an object mode, with a tool or with a
    tool choice costs no request: nothing is sent and the call throws. *)
Theorem completion_mode_sends_no_request o :
  o_mode o <> Regular None None ->
  o_mode o <> Regular (Some []) None ->
  emitted
    (CompletionModel.doGenerate CallOptions JS.Obj completionGetArgs
       config_url config_headers options_headers combineHeaders
       completionJsonResponse o tt) = []
  /\ exists e,
       result
         (CompletionModel.doGenerate CallOptions JS.Obj completionGetArgs
            config_url config_headers options_headers combineHeaders
            completionJsonResponse o tt) = Throw e.
Proof.
  intros Hnone Hempty.
  assert (exists e, completionGetArgs o = Throw e) as [e Hargs].
  { unfold completionGetArgs, mbind, Completion_bind. cbv zeta.
    destruct (convertToSparkCompletionPrompt _ _ _ _) as [converted|e];
      cbn [bindC]; [|by eexists].
    destruct (o_mode o) as [[[|tool ts]|] [choice|] | |];
      try congruence; by eexists. }
  unfold CompletionModel.doGenerate, mbind, Eff_bind, bindE, liftC.
  rewrite Hargs. cbn [emitted result]. split; [done | by eexists].
Qed.

End RequestFacts.

Lemma file_part_sends_no_request_witness :
  doGenerate constant_id unit None CallOptions JS.Obj
    (chatGetArgs constant_json no_base64 "lite" None false "spark")
    sample_url sample_headers no_headers spread_headers
    (fun _ => Normal sample_response)
    (plain_options (ObjectJson None None None) FormatMessages
       [User [UText "See:" None; UFile "AAAA" "application/pdf" None] None]
       None None) 0
  = mkRun [] 0
      (Throw (UnsupportedFunctionalityError
                "File content parts in user messages")).
Proof.
  exact (proj1
           (file_part_sends_no_request (accepts []) constant_id unit
              ignore_chunk no_metadata None false
              sample_url sample_headers no_headers spread_headers
              (fun _ => Normal sample_response) (fun _ => Normal [])
              constant_json no_base64 "lite" None false "spark"
              (plain_options (ObjectJson None None None) FormatMessages
                 [User [UText "See:" None;
                        UFile "AAAA" "application/pdf" None] None]
                 None None) 0 eq_refl)).
Defined.

Lemma completion_mode_sends_no_request_witness :
  emitted
    (CompletionModel.doGenerate CallOptions JS.Obj
       (completionGetArgs "lite" None None None None "spark")
       sample_url sample_headers no_headers spread_headers
       (fun _ => Normal sample_completion_response)
       (plain_options (Regular None (Some ChoiceAuto)) FormatPrompt
          [User [UText "Hi" None] None] None None) tt)
  = [].
Proof.
  apply (completion_mode_sends_no_request
           sample_url sample_headers no_headers spread_headers
           (fun _ => Normal sample_completion_response)
           "lite" None None None None "spark"
           (plain_options (Regular None (Some ChoiceAuto)) FormatPrompt
              [User [UText "Hi" None] None] None None));
    discriminate.
Defined.

(** ** The provider *)

(** X27: the headers of every request of a provider.  Without an API key
    there are none: the call throws, also when the custom headers bring an
    [Authorization] of their own.  With one, every custom header is sent as
    given, an [Authorization] among them replacing the bearer token, which
    is sent otherwise; chat and completion models get the same headers. *)
Theorem provider_headers loadApiKey withoutTrailingSlash options :
  NoDup (map fst (JS.nullish (ps_headers options) [])) ->
  cfg_headers
    (getCommonModelConfig loadApiKey withoutTrailingSlash options "chat")
  = cfg_headers
      (getCommonModelConfig loadApiKey withoutTrailingSlash options
         "completion")
  /\ match loadApiKey (ps_apiKey options) with
     | Throw e => getHeaders loadApiKey options = Throw e
     | Normal key =>
         exists headers,
           getHeaders loadApiKey options = Normal headers
           /\ (forall k v,
                 JS.get k (JS.nullish (ps_headers options) []) = Some v ->
                 JS.get k headers = Some v)
           /\ (JS.get "Authorization" (JS.nullish (ps_headers options) [])
               = None ->
               JS.get "Authorization" headers
               = Some (JS.VStr ("Bearer " +:+ key)))
     end.
Proof.
  intros Hdup. split; [reflexivity|].
  unfold getHeaders, mbind, Completion_bind.
  destruct (loadApiKey (ps_apiKey options)) as [key|e]; cbn [bindC];
    [|reflexivity].
  eexists. split; [reflexivity|]. split.
  - intros k v Hget. by apply get_spread_hit.
  - intros Hnone. rewrite get_spread_miss by exact Hnone.
    cbn [JS.get]. by rewrite String.eqb_refl.
Qed.

Lemma provider_headers_witness :
  exists headers,
    getHeaders (fun apiKey => Normal (JS.nullish apiKey "env-key"))
      {| ps_apiKey := Some "secret"; ps_baseURL := None;
         ps_headers := Some [("X-Trace", JS.VStr "1");
                             ("Authorization", JS.VStr "Basic abc")] |}
    = Normal headers
    /\ (forall k v,
          JS.get k [("X-Trace", JS.VStr "1");
                    ("Authorization", JS.VStr "Basic abc")] = Some v ->
          JS.get k headers = Some v)
    /\ (JS.get "Authorization"
          [("X-Trace", JS.VStr "1"); ("Authorization", JS.VStr "Basic abc")]
        = None ->
        JS.get "Authorization" headers
        = Some (JS.VStr ("Bearer " +:+ "secret"))).
Proof.
  refine (proj2 (provider_headers
                   (fun apiKey => Normal (JS.nullish apiKey "env-key"))
                   (fun url => url)
                   {| ps_apiKey := Some "secret"; ps_baseURL := None;
                      ps_headers := Some [("X-Trace", JS.VStr "1");
                                          ("Authorization",
                                           JS.VStr "Basic abc")] |} _)).
  apply NoDup_cons. split; [|apply NoDup_singleton].
  intros H. apply elem_of_cons in H as [H|H]; [discriminate|].
  by apply elem_of_nil in H.
Defined.

(** ** User messages *)

Section UserMessageFacts.

Variable JSON_stringify : JS.Val -> string.
Variable convertUint8ArrayToBase64 : list Byte.byte -> string.

Local Abbreviation convertUserPart :=
  (convertUserPart convertUint8ArrayToBase64).
Local Abbreviation convertToSparkChatMessages :=
  (convertToSparkChatMessages JSON_stringify convertUint8ArrayToBase64).

Lemma convertUserParts_pointwise (content : list UserPart) :
  existsb is_file_part content = false ->
  exists parts,
    mapC convertUserPart content = Normal parts
    /\ Forall2 (fun part converted => convertUserPart part = Normal converted)
         content parts.
Proof.
  induction content as [|part content IH]; cbn [existsb mapC].
  - intros _. exists []. by split.
  - intros [Hpart Hrest]%orb_false_elim.
    destruct (IH Hrest) as (parts & Hparts & Hall).
    unfold mbind, Completion_bind. rewrite Hparts.
    destruct part as [text pm | image mime pm | data mime pm];
      [| |discriminate]; cbn [convertUserPart bindC];
      eexists; (split; [reflexivity|]); by constructor.
Qed.

(** X28: a user message without a file part is converted to exactly one
    message.  When it is a single text part, [content] is that text as a
    string and the metadata spread over the message is the part's: the
    metadata of the message itself is not used.  Otherwise [content] is an
    array with one converted part per part, in their order (none is lost
    when the message is empty or a single image), and the metadata of the
    message is spread over it. *)
Theorem user_message_conversion content pm :
  existsb is_file_part content = false ->
  match content with
  | [UText text partPm] =>
      convertToSparkChatMessages [User content pm]
      = Normal [JS.spread
                  [("role", JS.VStr "user"); ("content", JS.VStr text)]
                  (getSparkMetadata partPm)]
  | _ =>
      exists parts,
        convertToSparkChatMessages [User content pm]
        = Normal [JS.spread
                    [("role", JS.VStr "user"); ("content", JS.VArr parts)]
                    (getSparkMetadata pm)]
        /\ Forall2
             (fun part converted => convertUserPart part = Normal converted)
             content parts
  end.
Proof.
  intros Hfile.
  destruct (convertUserParts_pointwise content Hfile)
    as (parts & Hparts & Hall).
  destruct content as [|[text partPm | image mime partPm | data mime partPm]
                        [|part' rest]];
    try discriminate; try reflexivity.
  all: exists parts; split; [|exact Hall].
  all: unfold convertToSparkChatMessages; cbn [foldC convertMessage].
  all: unfold mbind, Completion_bind; by rewrite Hparts.
Qed.

End UserMessageFacts.

Lemma user_message_conversion_witness :
  convertToSparkChatMessages constant_json no_base64
    [User [UText "Hi" (Some [("spark", [("name", JS.VStr "u1")])])]
       (Some [("spark", [("name", JS.VStr "dropped")])])]
  = Normal [[("role", JS.VStr "user"); ("content", JS.VStr "Hi");
             ("name", JS.VStr "u1")]].
Proof.
  apply (user_message_conversion constant_json no_base64
           [UText "Hi" (Some [("spark", [("name", JS.VStr "u1")])])]
           (Some [("spark", [("name", JS.VStr "dropped")])])).
  reflexivity.
Defined.
